(** * tth-htt: object selection and data/MC correction engine

    A shallow embedding of the selection predicates, the collection
    selector, the scale-factor engine, the charge-misidentification
    table, the hadronic-tau reader and the lepton classes of the
    tthAnalysis/HiggsToTauTau package, with the properties the design
    document states about them.

    Conventions of the embedding.
    - [Double_t] and [Float_t] values are IEEE-754 binary64 numbers, the
      kernel's primitive [float]; a [Float_t] read from an ntuple converts
      to [Double_t] without rounding.  Decimal literals of the source are
      the nearest binary64 values, exactly as a C++ compiler reads them.
    - [Int_t] values are integers [Z]; where the source does arithmetic
      on them the 32-bit wrap-around is written out.
    - Code that can stop abnormally ([assert], [throw], a division by
      zero, an access outside an array) returns an [outcome]. *)

From Stdlib Require Import ZArith List Bool String Lia.
From Stdlib Require Import Floats.
Import ListNotations.

#[local] Set Warnings "-inexact-float".
#[local] Open Scope bool_scope.

(* ================================================================= *)
(** ** Doubles *)

(** The comparisons of the source ([<], [<=], [>], [>=] on doubles) are
    [PrimFloat.ltb] and [PrimFloat.leb]; every comparison against a NaN
    is false. *)
Module Double.

#[local] Open Scope float_scope.

(** [x >= y] and [x > y] as the source writes them. *)
Definition geb (x y : float) : bool := PrimFloat.leb y x.
Definition gtb (x y : float) : bool := PrimFloat.ltb y x.

(** [std::fabs]. *)
Definition fabs (x : float) : float := PrimFloat.abs x.

(** [std::max(a, b)] is [(a < b) ? b : a]. *)
Definition max (a b : float) : float := if PrimFloat.ltb a b then b else a.

End Double.

(* ================================================================= *)
(** ** Abnormal termination *)

(** A call either returns a value or stops: on a failed [assert]
    (assertions are compiled in: no source defines [NDEBUG]), on an
    integer division by zero, on an access outside an array or vector,
    or on a thrown exception.  A [cms::Exception] carries its category
    and the pieces streamed into its message; [std::length_error] is
    what [std::vector::reserve] throws. *)
Module Outcome.

Inductive fragment : Type :=
| Text (s : string)
| Number (n : Z).

Inductive fault : Type :=
| AssertionFailed
| DivisionByZero
| OutOfBounds
| cms_Exception (category : string) (message : list fragment)
| std_length_error.

Inductive outcome (A : Type) : Type :=
| Returned (a : A)
| Stopped (f : fault).

Arguments Returned {A} a.
Arguments Stopped {A} f.

Definition bind {A B : Type} (c : outcome A) (k : A -> outcome B)
  : outcome B :=
  match c with
  | Returned a => k a
  | Stopped f => Stopped f
  end.

(** [assert(cond)]. *)
Definition assert (cond : bool) : outcome unit :=
  if cond then Returned tt else Stopped AssertionFailed.

(** [assert(p)] on a pointer [p], followed by its use. *)
Definition assert_nonnull {A : Type} (p : option A) : outcome A :=
  match p with
  | Some a => Returned a
  | None => Stopped AssertionFailed
  end.

(** [v[i]] on an array or vector of the given contents. *)
Definition at_index {A : Type} (v : list A) (i : Z) : outcome A :=
  if (i <? 0)%Z then Stopped OutOfBounds
  else match nth_error v (Z.to_nat i) with
       | Some a => Returned a
       | None => Stopped OutOfBounds
       end.

(** The call returned (some value). *)
Definition returns {A : Type} (c : outcome A) : Prop :=
  exists a, c = Returned a.

End Outcome.

Import Outcome.

Notation "x <- c ;; k" := (bind c (fun x => k))
  (at level 61, c at next level, right associativity).
Notation "c ;;; k" := (bind c (fun _ => k))
  (at level 61, right associativity).

(* ================================================================= *)
(** ** [Int_t] arithmetic *)

Module Int32.

#[local] Open Scope Z_scope.

Definition min_value : Z := - 2 ^ 31.
Definition max_value : Z := 2 ^ 31 - 1.

Definition in_range (x : Z) : Prop := min_value <= x <= max_value.

(** Two's-complement wrap-around to 32 bits. *)
Definition wrap (x : Z) : Z := (x + 2 ^ 31) mod 2 ^ 32 - 2 ^ 31.

(** Unary minus. *)
Definition neg (x : Z) : Z := wrap (- x).

(** [std::abs]. *)
Definition abs (x : Z) : Z := wrap (Z.abs x).

(** [a / b]: truncation toward zero; no result for a zero divisor. *)
Definition div (a b : Z) : outcome Z :=
  if b =? 0 then Stopped DivisionByZero else Returned (wrap (a ÷ b)).

End Int32.

(* ================================================================= *)
(** ** Generator-level lepton (src/GenLepton.cc) *)

Module GenLepton.

(** Modelled from the spec: the members of the class (GenLepton.h and
    the [GenParticle] base are not among the sources): the kinematic
    record the base constructor receives, and the two members the
    constructor of the source sets, both [Int_t]. *)
Record GenLepton : Type := Build {
  pt_ : float;
  eta_ : float;
  phi_ : float;
  mass_ : float;
  pdgId_ : Z;
  charge_ : Z
}.

(** [GenLepton::GenLepton]: [charge_ = -pdgId/std::abs(pdgId)]. *)
Definition new (pt eta phi mass : float) (pdgId : Z) : outcome GenLepton :=
  charge <- Int32.div (Int32.neg pdgId) (Int32.abs pdgId) ;;
  Returned (Build pt eta phi mass pdgId charge).

End GenLepton.

(* ================================================================= *)
(** ** Reconstructed leptons (bin/RecoLepton.cc, interface/RecoMuon.h) *)

Module RecoLepton.

Record RecoLepton : Type := Build {
  dxy : float;
  dz : float;
  rel_iso : float;
  sip3d : float;
  mass : float;
  pt : float;
  eta : float;
  mva_tth : float;
  phi : float;
  pdg_id : Z;
  med_mu_id : Z;
  ele_mva_id : Z;
  lost_hits : Z;
  loose_id : Z;
  tight_charge : Z;
  pass_conv_veto : Z;
  p4 : float * float * float * float
}.

(** [RecoLepton::RecoLepton]: every argument is stored, and [p4] is the
    (pt, eta, phi, mass) vector. *)
Definition new (_dxy _dz _rel_iso _sip3d _mass _pt _eta _mva_tth _phi : float)
  (_pdg_id _med_mu_id _ele_mva_id _lost_hits _loose_id _tight_charge
     _pass_conv_veto : Z) : RecoLepton :=
  Build _dxy _dz _rel_iso _sip3d _mass _pt _eta _mva_tth _phi
    _pdg_id _med_mu_id _ele_mva_id _lost_hits _loose_id _tight_charge
    _pass_conv_veto (_pt, _eta, _phi, _mass).

(** [RecoLepton::is_electron]: [std::abs(pdg_id) == 11]. *)
Definition is_electron (l : RecoLepton) : bool :=
  (Int32.abs (pdg_id l) =? 11)%Z.

(** [RecoLepton::is_muon]: [std::abs(pdg_id) == 13]. *)
Definition is_muon (l : RecoLepton) : bool :=
  (Int32.abs (pdg_id l) =? 13)%Z.

End RecoLepton.

Module RecoMuon.

(** Modelled from the spec: the members inherited from the lepton base
    (interface/RecoLepton.h is not among the sources), named as the
    selector reads them and typed as the constructor's arguments; with
    them the members [RecoMuon.h] declares ([DPT_DIV_PT_FLAG] is 0, so
    there is no [dpt_div_pt_]). *)
Record RecoMuon : Type := Build {
  pt_ : float;
  eta_ : float;
  phi_ : float;
  mass_ : float;
  absEta_ : float;
  pdgId_ : Z;
  dxy_ : float;
  dz_ : float;
  relIso_ : float;
  miniIsoCharged_ : float;
  miniIsoNeutral_ : float;
  sip3d_ : float;
  mvaRawTTH_ : float;
  jetNDauChargedMVASel_ : float;
  jetPtRel_ : float;
  jetPtRatio_ : float;
  jetBtagCSV_ : float;
  tightCharge_ : Z;
  charge_ : Z;
  passesLooseIdPOG_ : Z;
  passesMediumIdPOG_ : Z;
  segmentCompatibility_ : float
}.

(** [RecoMuon::is_electron] and [RecoMuon::is_muon] are constants. *)
Definition is_electron (m : RecoMuon) : bool := false.
Definition is_muon (m : RecoMuon) : bool := true.

(** Modelled from the spec: the constructor [RecoMuon::RecoMuon] (its
    definition is not among the sources), with the arguments of the
    declaration in [RecoMuon.h], in that order: each is stored in the
    member of its name ([passesTightCharge] in [tightCharge_]), and
    [absEta_] is the absolute pseudorapidity. *)
Definition new (pt eta phi mass : float) (pdgId : Z)
  (dxy dz relIso miniIsoCharged miniIsoNeutral sip3d mvaRawTTH
     jetNDauChargedMVASel jetPtRel jetPtRatio jetBtagCSV : float)
  (passesTightCharge charge passesLooseIdPOG passesMediumIdPOG : Z)
  (segmentCompatibility : float) : RecoMuon :=
  Build pt eta phi mass (Double.fabs eta) pdgId dxy dz relIso
    miniIsoCharged miniIsoNeutral sip3d mvaRawTTH jetNDauChargedMVASel
    jetPtRel jetPtRatio jetBtagCSV passesTightCharge charge
    passesLooseIdPOG passesMediumIdPOG segmentCompatibility.

End RecoMuon.

(** The lepton classes of the sources, with the dispatch of
    [is_electron] and [is_muon] on the class of the object. *)
Module Lepton.

Inductive Lepton : Type :=
| Generic (l : RecoLepton.RecoLepton)
| Muon (m : RecoMuon.RecoMuon).

Definition is_electron (l : Lepton) : bool :=
  match l with
  | Generic g => RecoLepton.is_electron g
  | Muon m => RecoMuon.is_electron m
  end.

Definition is_muon (l : Lepton) : bool :=
  match l with
  | Generic g => RecoLepton.is_muon g
  | Muon m => RecoMuon.is_muon m
  end.

(** The two readings of the kind invariant: at most one of the two
    answers is true, and exactly one is. *)
Definition mutually_exclusive (l : Lepton) : Prop :=
  is_electron l && is_muon l = false.

Definition exactly_one_kind (l : Lepton) : Prop :=
  xorb (is_electron l) (is_muon l) = true.

End Lepton.

(* ================================================================= *)
(** ** Fakeable muon selector (src/RecoMuonSelectorFakeable.cc) *)

Module RecoMuonSelectorFakeable.

Import RecoMuon.
#[local] Open Scope float_scope.

Record RecoMuonSelectorFakeable : Type := Build {
  min_pt_ : float;
  max_absEta_ : float;
  max_dxy_ : float;
  max_dz_ : float;
  max_relIso_ : float;
  max_sip3d_ : float;
  apply_looseIdPOG_ : bool;
  binning_mvaTTH_ : list float;
  min_jetPtRatio_ : list float;
  max_jetBtagCSV_ : list float;
  apply_mediumIdPOG_ : bool;
  apply_tightCharge_ : bool
}.

(** [RecoMuonSelectorFakeable::RecoMuonSelectorFakeable], the only
    constructor; the class has no setter. *)
Definition new : RecoMuonSelectorFakeable := {|
  min_pt_ := 10.0;
  max_absEta_ := 2.4;
  max_dxy_ := 0.05;
  max_dz_ := 0.1;
  max_relIso_ := 0.4;
  max_sip3d_ := 8.0;
  apply_looseIdPOG_ := true;
  binning_mvaTTH_ := [ 0.75 ];
  min_jetPtRatio_ := [ 0.30; -1.0e+3 ];
  max_jetBtagCSV_ := [ 0.605; 0.89 ];
  apply_mediumIdPOG_ := false;
  apply_tightCharge_ := false
|}.

(** An [Int_t] flag in a condition is true when it is not zero. *)
Definition flag (x : Z) : bool := negb (x =? 0)%Z.

(** The first condition of [operator()]: the cuts that do not depend on
    the lepton MVA. *)
Definition primary_cuts (sel : RecoMuonSelectorFakeable) (muon : RecoMuon)
  : bool :=
  Double.geb (pt_ muon) (min_pt_ sel) &&
  PrimFloat.leb (absEta_ muon) (max_absEta_ sel) &&
  PrimFloat.leb (Double.fabs (dxy_ muon)) (max_dxy_ sel) &&
  PrimFloat.leb (Double.fabs (dz_ muon)) (max_dz_ sel) &&
  PrimFloat.leb (relIso_ muon) (max_relIso_ sel) &&
  PrimFloat.leb (sip3d_ muon) (max_sip3d_ sel) &&
  (flag (passesLooseIdPOG_ muon) || negb (apply_looseIdPOG_ sel)) &&
  (flag (passesMediumIdPOG_ muon) || negb (apply_mediumIdPOG_ sel)) &&
  ((tightCharge_ muon >=? 2)%Z || negb (apply_tightCharge_ sel)).

(** The bin of the lepton MVA: 0 at or above [binning_mvaTTH_[0]],
    1 otherwise. *)
Definition idxBin (sel : RecoMuonSelectorFakeable) (muon : RecoMuon)
  : outcome Z :=
  edge <- at_index (binning_mvaTTH_ sel) 0 ;;
  Returned (if Double.geb (mvaRawTTH_ muon) edge then 0%Z else 1%Z).

(** [RecoMuonSelectorFakeable::operator()]. *)
Definition call (sel : RecoMuonSelectorFakeable) (muon : RecoMuon)
  : outcome bool :=
  if primary_cuts sel muon then
    idxBin <- idxBin sel muon ;;
    assert ((idxBin >=? 0)%Z && (idxBin <=? 1)%Z) ;;;
    min_jetPtRatio <- at_index (min_jetPtRatio_ sel) idxBin ;;
    if Double.geb (jetPtRatio_ muon) min_jetPtRatio then
      max_jetBtagCSV <- at_index (max_jetBtagCSV_ sel) idxBin ;;
      if PrimFloat.leb (jetBtagCSV_ muon) max_jetBtagCSV
      then Returned true
      else Returned false
    else Returned false
  else Returned false.

(** A synthetic muon that sits on every threshold of the primary cuts
    and has the loose id only (no medium id, no tight charge), given by
    the three quantities of the secondary cuts. *)
Definition synthetic (mvaRawTTH jetPtRatio jetBtagCSV : float) : RecoMuon :=
  RecoMuon.Build 10 2.4 0 0.1 2.4 13 0.05 0.1 0.4 0 0 8 mvaRawTTH 0 0
    jetPtRatio jetBtagCSV 0 (-1) 1 0 0.

End RecoMuonSelectorFakeable.

(* ================================================================= *)
(** ** Hadronic taus (src/RecoHadTauSelectorTight.cc,
       src/RecoHadTauReader.cc) *)

Module RecoHadTau.

(** Modelled from the spec: the class [RecoHadTau] (its header and
    constructor are not among the sources).  The members are the ones
    the tight selector reads and the reader's constructor call fills, in
    the order of that call; the working-point flags are [Int_t], the raw
    scores and the kinematics [Double_t], and [absEta_] is the absolute
    pseudorapidity derived from [eta_]. *)
Record RecoHadTau : Type := Build {
  pt_ : float;
  eta_ : float;
  phi_ : float;
  mass_ : float;
  absEta_ : float;
  charge_ : Z;
  dxy_ : float;
  dz_ : float;
  decayModeFinding_ : Z;
  decayModeFindingNew_ : Z;
  id_mva_dR03_ : Z;
  raw_mva_dR03_ : float;
  id_mva_dR05_ : Z;
  raw_mva_dR05_ : float;
  id_cut_dR03_ : Z;
  raw_cut_dR03_ : float;
  id_cut_dR05_ : Z;
  raw_cut_dR05_ : float;
  antiElectron_ : Z;
  antiMuon_ : Z
}.

(** Modelled from the spec: the constructor [RecoHadTau::RecoHadTau],
    which stores its nineteen arguments and derives [absEta_]. *)
Definition new (pt eta phi mass : float) (charge : Z) (dxy dz : float)
  (decayModeFinding decayModeFindingNew id_mva_dR03 : Z)
  (raw_mva_dR03 : float) (id_mva_dR05 : Z) (raw_mva_dR05 : float)
  (id_cut_dR03 : Z) (raw_cut_dR03 : float) (id_cut_dR05 : Z)
  (raw_cut_dR05 : float) (antiElectron antiMuon : Z) : RecoHadTau :=
  Build pt eta phi mass (Double.fabs eta) charge dxy dz
    decayModeFinding decayModeFindingNew id_mva_dR03 raw_mva_dR03
    id_mva_dR05 raw_mva_dR05 id_cut_dR03 raw_cut_dR03 id_cut_dR05
    raw_cut_dR05 antiElectron antiMuon.

End RecoHadTau.

Module RecoHadTauSelectorTight.

Import RecoHadTau.
#[local] Open Scope float_scope.

(** Modelled from the spec: the members of the selector (its header is
    not among the sources), as the constructor initialises them: a
    [Double_t] threshold for a kinematic quantity or a raw score, an
    [Int_t] one for a working-point flag. *)
Record RecoHadTauSelectorTight : Type := Build {
  min_pt_ : float;
  max_absEta_ : float;
  max_dz_ : float;
  min_decayModeFinding_ : Z;
  min_id_mva_dR03_ : Z;
  min_raw_mva_dR03_ : float;
  min_id_mva_dR05_ : Z;
  min_raw_mva_dR05_ : float;
  min_id_cut_dR03_ : Z;
  max_raw_cut_dR03_ : float;
  min_id_cut_dR05_ : Z;
  max_raw_cut_dR05_ : float;
  min_antiElectron_ : Z;
  min_antiMuon_ : Z
}.

(** [RecoHadTauSelectorTight::RecoHadTauSelectorTight]. *)
Definition new : RecoHadTauSelectorTight := {|
  min_pt_ := 20.0;
  max_absEta_ := 2.3;
  max_dz_ := 0.2;
  min_decayModeFinding_ := 1;
  min_id_mva_dR03_ := -1000;
  min_raw_mva_dR03_ := -1.0e+6;
  min_id_mva_dR05_ := -1000;
  min_raw_mva_dR05_ := -1.0e+6;
  min_id_cut_dR03_ := -1000;
  max_raw_cut_dR03_ := 1.0e+6;
  min_id_cut_dR05_ := 1;
  max_raw_cut_dR05_ := 1.0e+6;
  min_antiElectron_ := -1000;
  min_antiMuon_ := -1000
|}.

(** [RecoHadTauSelectorTight::operator()]. *)
Definition call (sel : RecoHadTauSelectorTight) (hadTau : RecoHadTau)
  : bool :=
  if Double.geb (pt_ hadTau) (min_pt_ sel) &&
     PrimFloat.leb (absEta_ hadTau) (max_absEta_ sel) &&
     PrimFloat.leb (Double.fabs (dz_ hadTau)) (max_dz_ sel) &&
     (decayModeFinding_ hadTau >=? min_decayModeFinding_ sel)%Z &&
     (id_mva_dR03_ hadTau >=? min_id_mva_dR03_ sel)%Z &&
     Double.geb (raw_mva_dR03_ hadTau) (min_raw_mva_dR03_ sel) &&
     (id_mva_dR05_ hadTau >=? min_id_mva_dR05_ sel)%Z &&
     Double.geb (raw_mva_dR05_ hadTau) (min_raw_mva_dR05_ sel) &&
     (id_cut_dR03_ hadTau >=? min_id_cut_dR03_ sel)%Z &&
     PrimFloat.leb (raw_cut_dR03_ hadTau) (max_raw_cut_dR03_ sel) &&
     (id_cut_dR05_ hadTau >=? min_id_cut_dR05_ sel)%Z &&
     PrimFloat.leb (raw_cut_dR05_ hadTau) (max_raw_cut_dR05_ sel) &&
     (antiElectron_ hadTau >=? min_antiElectron_ sel)%Z &&
     (antiMuon_ hadTau >=? min_antiMuon_ sel)%Z
  then true
  else false.

(** The fourteen tests of the condition, in the order of the source. *)
Definition fourteen_conditions (sel : RecoHadTauSelectorTight)
  (hadTau : RecoHadTau) : list bool :=
  [ Double.geb (pt_ hadTau) (min_pt_ sel);
    PrimFloat.leb (absEta_ hadTau) (max_absEta_ sel);
    PrimFloat.leb (Double.fabs (dz_ hadTau)) (max_dz_ sel);
    (decayModeFinding_ hadTau >=? min_decayModeFinding_ sel)%Z;
    (id_mva_dR03_ hadTau >=? min_id_mva_dR03_ sel)%Z;
    Double.geb (raw_mva_dR03_ hadTau) (min_raw_mva_dR03_ sel);
    (id_mva_dR05_ hadTau >=? min_id_mva_dR05_ sel)%Z;
    Double.geb (raw_mva_dR05_ hadTau) (min_raw_mva_dR05_ sel);
    (id_cut_dR03_ hadTau >=? min_id_cut_dR03_ sel)%Z;
    PrimFloat.leb (raw_cut_dR03_ hadTau) (max_raw_cut_dR03_ sel);
    (id_cut_dR05_ hadTau >=? min_id_cut_dR05_ sel)%Z;
    PrimFloat.leb (raw_cut_dR05_ hadTau) (max_raw_cut_dR05_ sel);
    (antiElectron_ hadTau >=? min_antiElectron_ sel)%Z;
    (antiMuon_ hadTau >=? min_antiMuon_ sel)%Z ].

(** A synthetic hadronic tau given by the fourteen quantities the
    selector tests (with [eta = absEta], and zero for what it does not
    read). *)
Definition synthetic (pt absEta dz : float)
  (decayModeFinding id_mva_dR03 : Z) (raw_mva_dR03 : float)
  (id_mva_dR05 : Z) (raw_mva_dR05 : float) (id_cut_dR03 : Z)
  (raw_cut_dR03 : float) (id_cut_dR05 : Z) (raw_cut_dR05 : float)
  (antiElectron antiMuon : Z) : RecoHadTau :=
  RecoHadTau.Build pt absEta 0 0 absEta 0 0 dz decayModeFinding 0
    id_mva_dR03 raw_mva_dR03 id_mva_dR05 raw_mva_dR05 id_cut_dR03
    raw_cut_dR03 id_cut_dR05 raw_cut_dR05 antiElectron antiMuon.

End RecoHadTauSelectorTight.

(* ================================================================= *)
(** ** Collection selector (interface/ParticleCollectionSelector.h) *)

Module ParticleCollectionSelector.

(** A [const Tobj*] is an address; the objects live in a store the
    selector only reads. *)
Definition pointer : Type := positive.

Section Template.

Variables Tobj Tsel : Type.

(** [Tsel::operator()]. *)
Variable selector_call : Tsel -> Tobj -> bool.

(** The memory the pointers refer to. *)
Variable deref : pointer -> Tobj.

(** The body of the loop: the pointer is pushed back onto
    [selParticles] when the selector accepts the object it points to. *)
Definition visit (selector_ : Tsel) (selParticles : list pointer)
  (particle : pointer) : list pointer :=
  if selector_call selector_ (deref particle)
  then selParticles ++ [particle]
  else selParticles.

(** [ParticleCollectionSelector::operator()]: the loop over [particles]
    from [begin()] to [end()], starting from an empty [selParticles]. *)
Definition call (selector_ : Tsel) (particles : list pointer)
  : list pointer :=
  fold_left (visit selector_) particles [].

End Template.

(** [s] is a subsequence of [l]: some elements of [l], each kept as it
    is and in the order of [l]. *)
Inductive subsequence {A : Type} : list A -> list A -> Prop :=
| subsequence_nil : subsequence [] []
| subsequence_skip (x : A) (s l : list A) :
    subsequence s l -> subsequence s (x :: l)
| subsequence_keep (x : A) (s l : list A) :
    subsequence s l -> subsequence (x :: s) (x :: l).

End ParticleCollectionSelector.

(* ================================================================= *)
(** ** Data/MC corrections (src/data_to_MC_corrections.cc) and
       charge misidentification (src/backgroundEstimation.cc) *)

Module Corrections.

#[local] Open Scope float_scope.

(** The lepton type codes of [leptonTypes.h], which is not among the
    sources: two integer constants. *)
Class LeptonTypes : Type := {
  kElectron : Z;
  kMuon : Z
}.

(** The lookup service of [lutAuxFunctions.h], which is not among the
    sources: histograms in one and two dimensions ([TH2] derives from
    [TH1]) and the two functions that read a scale factor off them. *)
Class LookupService : Type := {
  TH1 : Type;
  TH2 : Type;
  TH2_as_TH1 : TH2 -> TH1;
  get_sf_from_TH1 : TH1 -> float -> float;
  get_sf_from_TH2 : TH2 -> float -> float -> float
}.

(** What the [static] histogram pointers hold once loaded, one member
    per pointer of the source; [None] is a null pointer, the result of a
    failed load.  A pointer is loaded on first use and kept, so a call
    sees the same histogram every time. *)
Class LoadedTables `{LookupService} : Type := {
  electron_lut_id_loose : option TH2;
  electron_lut_iso : option TH2;
  electron_lut_convVeto : option TH2;
  electron_lut_id_tight_barrel : option TH1;
  electron_lut_id_tight_endcap : option TH1;
  muon_lut_id_loose : option TH2;
  muon_lut_iso_barrel : option TH1;
  muon_lut_iso_endcap : option TH1;
  muon_lut_ip : option TH2;
  muon_lut_id_tight_barrel : option TH1;
  muon_lut_id_tight_endcap : option TH1
}.

Section Engine.

Context `{LeptonTypes} `{LoadedTables}.

(** [sf_triggerEff] for two leptons. *)
Definition sf_triggerEff_2 (lepton1_type : Z) (lepton1_pt lepton1_eta : float)
  (lepton2_type : Z) (lepton2_pt lepton2_eta : float) : float :=
  if (lepton1_type =? kElectron)%Z && (lepton2_type =? kElectron)%Z then
    if Double.gtb (Double.max lepton1_pt lepton2_pt) 40.0 then 0.99
    else 0.95
  else if (lepton1_type =? kMuon)%Z && (lepton2_type =? kMuon)%Z then
    0.98
  else
    1.00.

Definition sf_electronID_and_Iso_loose (electron_pt electron_eta : float)
  : outcome float :=
  lut_id_loose <- assert_nonnull electron_lut_id_loose ;;
  let sf_id_loose := get_sf_from_TH2 lut_id_loose electron_pt electron_eta in
  lut_iso <- assert_nonnull electron_lut_iso ;;
  let sf_iso := get_sf_from_TH2 lut_iso electron_pt electron_eta in
  let sf := sf_id_loose * sf_iso in
  Returned sf.

Definition sf_electronID_and_Iso_tight_to_loose
  (electron_pt electron_eta : float) : outcome float :=
  lut_convVeto <- assert_nonnull electron_lut_convVeto ;;
  let sf_convVeto := get_sf_from_TH2 lut_convVeto electron_pt electron_eta in
  sf_id_tight <-
    (if PrimFloat.ltb (Double.fabs electron_eta) 1.479 then
       lut_id_tight_barrel <- assert_nonnull electron_lut_id_tight_barrel ;;
       Returned (get_sf_from_TH1 lut_id_tight_barrel electron_pt)
     else
       lut_id_tight_endcap <- assert_nonnull electron_lut_id_tight_endcap ;;
       Returned (get_sf_from_TH1 lut_id_tight_endcap electron_pt)) ;;
  let sf := sf_convVeto * sf_id_tight in
  Returned sf.

Definition sf_electronID_and_Iso_tight (electron_pt electron_eta : float)
  : outcome float :=
  sf_loose <- sf_electronID_and_Iso_loose electron_pt electron_eta ;;
  sf_tight_to_loose <-
    sf_electronID_and_Iso_tight_to_loose electron_pt electron_eta ;;
  Returned (sf_loose * sf_tight_to_loose).

Definition sf_muonID_and_Iso_loose (muon_pt muon_eta : float)
  : outcome float :=
  lut_id_loose <- assert_nonnull muon_lut_id_loose ;;
  let sf_id_loose := get_sf_from_TH2 lut_id_loose muon_pt muon_eta in
  sf_iso <-
    (if PrimFloat.ltb (Double.fabs muon_eta) 1.2 then
       lut_iso_barrel <- assert_nonnull muon_lut_iso_barrel ;;
       Returned (get_sf_from_TH1 lut_iso_barrel muon_pt)
     else
       lut_iso_endcap <- assert_nonnull muon_lut_iso_endcap ;;
       Returned (get_sf_from_TH1 lut_iso_endcap muon_pt)) ;;
  lut_ip <- assert_nonnull muon_lut_ip ;;
  let sf_ip := get_sf_from_TH1 (TH2_as_TH1 lut_ip) muon_eta in
  let sf := sf_id_loose * sf_iso * sf_ip in
  Returned sf.

Definition sf_muonID_and_Iso_tight_to_loose (muon_pt muon_eta : float)
  : outcome float :=
  sf_id_tight <-
    (if PrimFloat.ltb (Double.fabs muon_eta) 1.2 then
       lut_id_tight_barrel <- assert_nonnull muon_lut_id_tight_barrel ;;
       Returned (get_sf_from_TH1 lut_id_tight_barrel muon_pt)
     else
       lut_id_tight_endcap <- assert_nonnull muon_lut_id_tight_endcap ;;
       Returned (get_sf_from_TH1 lut_id_tight_endcap muon_pt)) ;;
  let sf := sf_id_tight in
  Returned sf.

Definition sf_muonID_and_Iso_tight (muon_pt muon_eta : float)
  : outcome float :=
  sf_loose <- sf_muonID_and_Iso_loose muon_pt muon_eta ;;
  sf_tight_to_loose <- sf_muonID_and_Iso_tight_to_loose muon_pt muon_eta ;;
  Returned (sf_loose * sf_tight_to_loose).

(** [sf_leptonID_and_Iso_loose] for one lepton; [assert(0)] stops. *)
Definition sf_leptonID_and_Iso_loose_1 (lepton1_type : Z)
  (lepton1_pt lepton1_eta : float) : outcome float :=
  if (lepton1_type =? kElectron)%Z then
    sf_electronID_and_Iso_loose lepton1_pt lepton1_eta
  else if (lepton1_type =? kMuon)%Z then
    sf_muonID_and_Iso_loose lepton1_pt lepton1_eta
  else Stopped AssertionFailed.

(** [sf_leptonID_and_Iso_loose] for two leptons. *)
Definition sf_leptonID_and_Iso_loose_2 (lepton1_type : Z)
  (lepton1_pt lepton1_eta : float) (lepton2_type : Z)
  (lepton2_pt lepton2_eta : float) : outcome float :=
  lepton1_sf <-
    (if (lepton1_type =? kElectron)%Z then
       sf_electronID_and_Iso_loose lepton1_pt lepton1_eta
     else if (lepton1_type =? kMuon)%Z then
       sf_muonID_and_Iso_loose lepton1_pt lepton1_eta
     else Stopped AssertionFailed) ;;
  lepton2_sf <-
    (if (lepton2_type =? kElectron)%Z then
       sf_electronID_and_Iso_loose lepton2_pt lepton2_eta
     else if (lepton2_type =? kMuon)%Z then
       sf_muonID_and_Iso_loose lepton2_pt lepton2_eta
     else Stopped AssertionFailed) ;;
  let sf := lepton1_sf * lepton2_sf in
  Returned sf.

(** [sf_leptonID_and_Iso_fakeable_to_loose], one and two leptons. *)
Definition sf_leptonID_and_Iso_fakeable_to_loose_1 (lepton1_type : Z)
  (lepton1_pt lepton1_eta : float) : float := 1.0.

Definition sf_leptonID_and_Iso_fakeable_to_loose_2 (lepton1_type : Z)
  (lepton1_pt lepton1_eta : float) (lepton2_type : Z)
  (lepton2_pt lepton2_eta : float) : float := 1.0.

(** [sf_leptonID_and_Iso_fakeable], one and two leptons. *)
Definition sf_leptonID_and_Iso_fakeable_1 (lepton1_type : Z)
  (lepton1_pt lepton1_eta : float) : outcome float :=
  sf_loose <-
    sf_leptonID_and_Iso_loose_1 lepton1_type lepton1_pt lepton1_eta ;;
  let sf_fakeable_to_loose :=
    sf_leptonID_and_Iso_fakeable_to_loose_1
      lepton1_type lepton1_pt lepton1_eta in
  Returned (sf_loose * sf_fakeable_to_loose).

Definition sf_leptonID_and_Iso_fakeable_2 (lepton1_type : Z)
  (lepton1_pt lepton1_eta : float) (lepton2_type : Z)
  (lepton2_pt lepton2_eta : float) : outcome float :=
  sf_loose <-
    sf_leptonID_and_Iso_loose_2 lepton1_type lepton1_pt lepton1_eta
      lepton2_type lepton2_pt lepton2_eta ;;
  let sf_fakeable_to_loose :=
    sf_leptonID_and_Iso_fakeable_to_loose_2 lepton1_type lepton1_pt
      lepton1_eta lepton2_type lepton2_pt lepton2_eta in
  Returned (sf_loose * sf_fakeable_to_loose).

(** [sf_leptonID_and_Iso_tight_to_loose], one and two leptons. *)
Definition sf_leptonID_and_Iso_tight_to_loose_1 (lepton1_type : Z)
  (lepton1_pt lepton1_eta : float) : outcome float :=
  if (lepton1_type =? kElectron)%Z then
    sf_electronID_and_Iso_tight_to_loose lepton1_pt lepton1_eta
  else if (lepton1_type =? kMuon)%Z then
    sf_muonID_and_Iso_tight_to_loose lepton1_pt lepton1_eta
  else Stopped AssertionFailed.

Definition sf_leptonID_and_Iso_tight_to_loose_2 (lepton1_type : Z)
  (lepton1_pt lepton1_eta : float) (lepton2_type : Z)
  (lepton2_pt lepton2_eta : float) : outcome float :=
  lepton1_sf <-
    (if (lepton1_type =? kElectron)%Z then
       sf_electronID_and_Iso_tight_to_loose lepton1_pt lepton1_eta
     else if (lepton1_type =? kMuon)%Z then
       sf_muonID_and_Iso_tight_to_loose lepton1_pt lepton1_eta
     else Stopped AssertionFailed) ;;
  lepton2_sf <-
    (if (lepton2_type =? kElectron)%Z then
       sf_electronID_and_Iso_tight_to_loose lepton2_pt lepton2_eta
     else if (lepton2_type =? kMuon)%Z then
       sf_muonID_and_Iso_tight_to_loose lepton2_pt lepton2_eta
     else Stopped AssertionFailed) ;;
  let sf := lepton1_sf * lepton2_sf in
  Returned sf.

(** [sf_leptonID_and_Iso_tight], one and two leptons. *)
Definition sf_leptonID_and_Iso_tight_1 (lepton1_type : Z)
  (lepton1_pt lepton1_eta : float) : outcome float :=
  sf_loose <-
    sf_leptonID_and_Iso_loose_1 lepton1_type lepton1_pt lepton1_eta ;;
  sf_tight_to_loose <-
    sf_leptonID_and_Iso_tight_to_loose_1
      lepton1_type lepton1_pt lepton1_eta ;;
  Returned (sf_loose * sf_tight_to_loose).

Definition sf_leptonID_and_Iso_tight_2 (lepton1_type : Z)
  (lepton1_pt lepton1_eta : float) (lepton2_type : Z)
  (lepton2_pt lepton2_eta : float) : outcome float :=
  sf_loose <-
    sf_leptonID_and_Iso_loose_2 lepton1_type lepton1_pt lepton1_eta
      lepton2_type lepton2_pt lepton2_eta ;;
  sf_tight_to_loose <-
    sf_leptonID_and_Iso_tight_to_loose_2 lepton1_type lepton1_pt
      lepton1_eta lepton2_type lepton2_pt lepton2_eta ;;
  Returned (sf_loose * sf_tight_to_loose).

(** [sf_triggerEff] for one lepton. *)
Definition sf_triggerEff_1 (lepton1_type : Z)
  (lepton1_pt lepton1_eta : float) : float :=
  if (lepton1_type =? kElectron)%Z then
    if Double.gtb lepton1_pt 40.0 then 0.99
    else 0.95
  else if (lepton1_type =? kMuon)%Z then
    0.98
  else
    1.00.

(** [prob_chargeMisId] of backgroundEstimation.cc; [prob] starts at 1
    and is returned unchanged when no bin matches. *)
Definition prob_chargeMisId (lepton_type : Z) (lepton_pt lepton_eta : float)
  : outcome float :=
  let prob := 1.0 in
  if (lepton_type =? kElectron)%Z then
    let abs_lepton_eta := Double.fabs lepton_eta in
    if Double.geb abs_lepton_eta 0.0 && PrimFloat.ltb abs_lepton_eta 1.479
    then
      if Double.geb lepton_pt 10.0 && PrimFloat.ltb lepton_pt 25
      then Returned 0.0301
      else if Double.geb lepton_pt 25.0 && PrimFloat.ltb lepton_pt 50
      then Returned 0.0287
      else if Double.geb lepton_pt 50.0
      then Returned 0.0293
      else Returned prob
    else if Double.geb abs_lepton_eta 1.479 && PrimFloat.ltb abs_lepton_eta 2.5
    then
      if Double.geb lepton_pt 10.0 && PrimFloat.ltb lepton_pt 25
      then Returned 0.1728
      else if Double.geb lepton_pt 25.0 && PrimFloat.ltb lepton_pt 50
      then Returned 0.1974
      else if Double.geb lepton_pt 50.0
      then Returned 0.3457
      else Returned prob
    else Returned prob
  else if (lepton_type =? kMuon)%Z then
    Returned 1.0
  else Stopped AssertionFailed.

(** A lepton type that is neither of the two codes. *)
Definition unrecognized (lepton_type : Z) : Prop :=
  lepton_type <> kElectron /\ lepton_type <> kMuon.

(** Every histogram pointer holds a histogram. *)
Definition all_loaded : Prop :=
  electron_lut_id_loose <> None /\
  electron_lut_iso <> None /\
  electron_lut_convVeto <> None /\
  electron_lut_id_tight_barrel <> None /\
  electron_lut_id_tight_endcap <> None /\
  muon_lut_id_loose <> None /\
  muon_lut_iso_barrel <> None /\
  muon_lut_iso_endcap <> None /\
  muon_lut_ip <> None /\
  muon_lut_id_tight_barrel <> None /\
  muon_lut_id_tight_endcap <> None.

(** An entry point for one lepton stops on a failed assertion at every
    unrecognized type. *)
Definition aborts_on_unrecognized
  (entry : Z -> float -> float -> outcome float) : Prop :=
  forall (lepton_type : Z) (pt eta : float),
    unrecognized lepton_type ->
    entry lepton_type pt eta = Stopped AssertionFailed.

End Engine.

(** A concrete setting to evaluate the engine in: electrons are type 0
    and muons type 1, a histogram is its lookup function, and every
    table is flat. *)
Definition example_types : LeptonTypes :=
  {| kElectron := 0; kMuon := 1 |}.

Definition example_service : LookupService := {|
  TH1 := float -> float;
  TH2 := float -> float -> float;
  TH2_as_TH1 := fun h x => h x x;
  get_sf_from_TH1 := fun h x => h x;
  get_sf_from_TH2 := fun h x y => h x y
|}.

Definition flat1 (c : float) : float -> float := fun _ => c.
Definition flat2 (c : float) : float -> float -> float := fun _ _ => c.

Definition example_tables : @LoadedTables example_service :=
  @Build_LoadedTables example_service
    (Some (flat2 0.5))  (* electron_lut_id_loose *)
    (Some (flat2 0.5))  (* electron_lut_iso *)
    (Some (flat2 0.5))  (* electron_lut_convVeto *)
    (Some (flat1 0.5))  (* electron_lut_id_tight_barrel *)
    (Some (flat1 0.25)) (* electron_lut_id_tight_endcap *)
    (Some (flat2 0.5))  (* muon_lut_id_loose *)
    (Some (flat1 0.5))  (* muon_lut_iso_barrel *)
    (Some (flat1 0.25)) (* muon_lut_iso_endcap *)
    (Some (flat2 0.5))  (* muon_lut_ip *)
    (Some (flat1 0.5))  (* muon_lut_id_tight_barrel *)
    (Some (flat1 0.25)) (* muon_lut_id_tight_endcap *).

End Corrections.

(* ================================================================= *)
(** ** Hadronic-tau reader (src/RecoHadTauReader.cc) *)

Module RecoHadTauReader.

#[local] Open Scope Z_scope.

(** The members [read] uses.  A [Float_t*] or [Int_t*] member is the
    contents of the array it points to, and a null pointer an array
    without entries: the constructors leave every pointer null, and
    [setBranchAddresses] allocates [max_nHadTaus_] entries for each,
    which the tree then fills together with [nHadTaus_]. *)
Record RecoHadTauReader : Type := Build {
  max_nHadTaus_ : Z;
  branchName_num_ : string;
  branchName_obj_ : string;
  nHadTaus_ : Z;
  hadTau_pt_ : list float;
  hadTau_eta_ : list float;
  hadTau_phi_ : list float;
  hadTau_mass_ : list float;
  hadTau_charge_ : list Z;
  hadTau_dxy_ : list float;
  hadTau_dz_ : list float;
  hadTau_idDecayMode_ : list Z;
  hadTau_idDecayModeNewDMs_ : list Z;
  hadTau_idMVA_dR03_ : list Z;
  hadTau_rawMVA_dR03_ : list float;
  hadTau_idMVA_dR05_ : list Z;
  hadTau_rawMVA_dR05_ : list float;
  hadTau_idCombIso_dR03_ : list Z;
  hadTau_rawCombIso_dR03_ : list float;
  hadTau_idCombIso_dR05_ : list Z;
  hadTau_rawCombIso_dR05_ : list float;
  hadTau_idAgainstElec_ : list Z;
  hadTau_idAgainstMu_ : list Z
}.

(** [RecoHadTauReader::RecoHadTauReader(branchName_num, branchName_obj)]:
    the capacity is 32 and every array pointer is null.  [nHadTaus_] has
    no initialiser; it is given here as the value the member happens to
    hold. *)
Definition new (branchName_num branchName_obj : string) (nHadTaus : Z)
  : RecoHadTauReader := {|
  max_nHadTaus_ := 32;
  branchName_num_ := branchName_num;
  branchName_obj_ := branchName_obj;
  nHadTaus_ := nHadTaus;
  hadTau_pt_ := [];
  hadTau_eta_ := [];
  hadTau_phi_ := [];
  hadTau_mass_ := [];
  hadTau_charge_ := [];
  hadTau_dxy_ := [];
  hadTau_dz_ := [];
  hadTau_idDecayMode_ := [];
  hadTau_idDecayModeNewDMs_ := [];
  hadTau_idMVA_dR03_ := [];
  hadTau_rawMVA_dR03_ := [];
  hadTau_idMVA_dR05_ := [];
  hadTau_rawMVA_dR05_ := [];
  hadTau_idCombIso_dR03_ := [];
  hadTau_rawCombIso_dR03_ := [];
  hadTau_idCombIso_dR05_ := [];
  hadTau_rawCombIso_dR05_ := [];
  hadTau_idAgainstElec_ := [];
  hadTau_idAgainstMu_ := []
|}.

(** The default constructor. *)
Definition new_default (nHadTaus : Z) : RecoHadTauReader :=
  new "nTauGood" "TauGood" nHadTaus.

(** What [setBranchAddresses] leaves behind: every array has
    [max_nHadTaus_] entries. *)
Definition allocated (g : RecoHadTauReader) : Prop :=
  let n := Z.to_nat (max_nHadTaus_ g) in
  List.length (hadTau_pt_ g) = n /\
  List.length (hadTau_eta_ g) = n /\
  List.length (hadTau_phi_ g) = n /\
  List.length (hadTau_mass_ g) = n /\
  List.length (hadTau_charge_ g) = n /\
  List.length (hadTau_dxy_ g) = n /\
  List.length (hadTau_dz_ g) = n /\
  List.length (hadTau_idDecayMode_ g) = n /\
  List.length (hadTau_idDecayModeNewDMs_ g) = n /\
  List.length (hadTau_idMVA_dR03_ g) = n /\
  List.length (hadTau_rawMVA_dR03_ g) = n /\
  List.length (hadTau_idMVA_dR05_ g) = n /\
  List.length (hadTau_rawMVA_dR05_ g) = n /\
  List.length (hadTau_idCombIso_dR03_ g) = n /\
  List.length (hadTau_rawCombIso_dR03_ g) = n /\
  List.length (hadTau_idCombIso_dR05_ g) = n /\
  List.length (hadTau_rawCombIso_dR05_ g) = n /\
  List.length (hadTau_idAgainstElec_ g) = n /\
  List.length (hadTau_idAgainstMu_ g) = n.

(** The constructor call of the loop body: entry [idxHadTau] of each
    array, in the order of the arguments. *)
Definition hadTau_at (gInstance : RecoHadTauReader) (idxHadTau : Z)
  : outcome RecoHadTau.RecoHadTau :=
  pt <- at_index (hadTau_pt_ gInstance) idxHadTau ;;
  eta <- at_index (hadTau_eta_ gInstance) idxHadTau ;;
  phi <- at_index (hadTau_phi_ gInstance) idxHadTau ;;
  mass <- at_index (hadTau_mass_ gInstance) idxHadTau ;;
  charge <- at_index (hadTau_charge_ gInstance) idxHadTau ;;
  dxy <- at_index (hadTau_dxy_ gInstance) idxHadTau ;;
  dz <- at_index (hadTau_dz_ gInstance) idxHadTau ;;
  idDecayMode <- at_index (hadTau_idDecayMode_ gInstance) idxHadTau ;;
  idDecayModeNewDMs <-
    at_index (hadTau_idDecayModeNewDMs_ gInstance) idxHadTau ;;
  idMVA_dR03 <- at_index (hadTau_idMVA_dR03_ gInstance) idxHadTau ;;
  rawMVA_dR03 <- at_index (hadTau_rawMVA_dR03_ gInstance) idxHadTau ;;
  idMVA_dR05 <- at_index (hadTau_idMVA_dR05_ gInstance) idxHadTau ;;
  rawMVA_dR05 <- at_index (hadTau_rawMVA_dR05_ gInstance) idxHadTau ;;
  idCombIso_dR03 <- at_index (hadTau_idCombIso_dR03_ gInstance) idxHadTau ;;
  rawCombIso_dR03 <-
    at_index (hadTau_rawCombIso_dR03_ gInstance) idxHadTau ;;
  idCombIso_dR05 <- at_index (hadTau_idCombIso_dR05_ gInstance) idxHadTau ;;
  rawCombIso_dR05 <-
    at_index (hadTau_rawCombIso_dR05_ gInstance) idxHadTau ;;
  idAgainstElec <- at_index (hadTau_idAgainstElec_ gInstance) idxHadTau ;;
  idAgainstMu <- at_index (hadTau_idAgainstMu_ gInstance) idxHadTau ;;
  Returned (RecoHadTau.new pt eta phi mass charge dxy dz idDecayMode
              idDecayModeNewDMs idMVA_dR03 rawMVA_dR03 idMVA_dR05
              rawMVA_dR05 idCombIso_dR03 rawCombIso_dR03 idCombIso_dR05
              rawCombIso_dR05 idAgainstElec idAgainstMu).

(** The loop [for (idxHadTau = ...; idxHadTau < nHadTaus; ++idxHadTau)]
    with [trips] iterations left: each one appends a record to
    [hadTaus]. *)
Fixpoint read_loop (gInstance : RecoHadTauReader) (trips : nat)
  (idxHadTau : Z) (hadTaus : list RecoHadTau.RecoHadTau)
  : outcome (list RecoHadTau.RecoHadTau) :=
  match trips with
  | O => Returned hadTaus
  | S trips' =>
      hadTau <- hadTau_at gInstance idxHadTau ;;
      read_loop gInstance trips' (idxHadTau + 1) (hadTaus ++ [hadTau])
  end.

(** [hadTaus.reserve(nHadTaus)]: a negative [Int_t] converts to a size
    beyond [max_size()], for which [reserve] throws. *)
Definition reserve (nHadTaus : Z) : outcome unit :=
  if nHadTaus <? 0 then Stopped std_length_error else Returned tt.

(** The line feed that ends the message. *)
Definition newline : string := String (Ascii.ascii_of_nat 10) EmptyString.

(** The message of the exception [read] throws. *)
Definition too_many (nHadTaus max_nHadTaus : Z) : fault :=
  cms_Exception "RecoHadTauReader"
    [ Text "Number of hadronic taus stored in Ntuple = "; Number nHadTaus;
      Text ", exceeds max_nHadTaus = "; Number max_nHadTaus;
      Text (" !!" ++ newline) ].

(** [RecoHadTauReader::read]; [instances_] is the static map from a
    branch name to the reader registered for it. *)
Definition read (instances_ : string -> option RecoHadTauReader)
  (this : RecoHadTauReader) : outcome (list RecoHadTau.RecoHadTau) :=
  gInstance <- assert_nonnull (instances_ (branchName_obj_ this)) ;;
  let nHadTaus := nHadTaus_ gInstance in
  if nHadTaus >? max_nHadTaus_ this then
    Stopped (too_many nHadTaus (max_nHadTaus_ this))
  else
    reserve nHadTaus ;;;
    read_loop gInstance (Z.to_nat (nHadTaus - 0)) 0 [].

(** The record made of entry [i] of each array (zero where an array
    has no such entry): what the design document calls the i-th
    record. *)
Definition record_of_entry (g : RecoHadTauReader) (i : nat)
  : RecoHadTau.RecoHadTau :=
  RecoHadTau.new
    (nth i (hadTau_pt_ g) 0%float)
    (nth i (hadTau_eta_ g) 0%float)
    (nth i (hadTau_phi_ g) 0%float)
    (nth i (hadTau_mass_ g) 0%float)
    (nth i (hadTau_charge_ g) 0)
    (nth i (hadTau_dxy_ g) 0%float)
    (nth i (hadTau_dz_ g) 0%float)
    (nth i (hadTau_idDecayMode_ g) 0)
    (nth i (hadTau_idDecayModeNewDMs_ g) 0)
    (nth i (hadTau_idMVA_dR03_ g) 0)
    (nth i (hadTau_rawMVA_dR03_ g) 0%float)
    (nth i (hadTau_idMVA_dR05_ g) 0)
    (nth i (hadTau_rawMVA_dR05_ g) 0%float)
    (nth i (hadTau_idCombIso_dR03_ g) 0)
    (nth i (hadTau_rawCombIso_dR03_ g) 0%float)
    (nth i (hadTau_idCombIso_dR05_ g) 0)
    (nth i (hadTau_rawCombIso_dR05_ g) 0%float)
    (nth i (hadTau_idAgainstElec_ g) 0)
    (nth i (hadTau_idAgainstMu_ g) 0).

(** A reader after [setBranchAddresses] and the load of an event with
    [nHadTaus] hadronic taus: 32 entries per array, the same in each; it
    is registered for its branch name. *)
Definition example_reader (nHadTaus : Z) : RecoHadTauReader := {|
  max_nHadTaus_ := 32;
  branchName_num_ := "nTauGood";
  branchName_obj_ := "TauGood";
  nHadTaus_ := nHadTaus;
  hadTau_pt_ := repeat 25.0%float 32;
  hadTau_eta_ := repeat 1.5%float 32;
  hadTau_phi_ := repeat 0.5%float 32;
  hadTau_mass_ := repeat 1.0%float 32;
  hadTau_charge_ := repeat (-1) 32;
  hadTau_dxy_ := repeat 0.0%float 32;
  hadTau_dz_ := repeat 0.0%float 32;
  hadTau_idDecayMode_ := repeat 1 32;
  hadTau_idDecayModeNewDMs_ := repeat 1 32;
  hadTau_idMVA_dR03_ := repeat 1 32;
  hadTau_rawMVA_dR03_ := repeat 0.5%float 32;
  hadTau_idMVA_dR05_ := repeat 1 32;
  hadTau_rawMVA_dR05_ := repeat 0.5%float 32;
  hadTau_idCombIso_dR03_ := repeat 1 32;
  hadTau_rawCombIso_dR03_ := repeat 0.5%float 32;
  hadTau_idCombIso_dR05_ := repeat 1 32;
  hadTau_rawCombIso_dR05_ := repeat 0.5%float 32;
  hadTau_idAgainstElec_ := repeat 1 32;
  hadTau_idAgainstMu_ := repeat 1 32
|}.

Definition example_instances (nHadTaus : Z)
  : string -> option RecoHadTauReader :=
  fun branchName_obj =>
    if String.eqb branchName_obj "TauGood"
    then Some (example_reader nHadTaus)
    else None.

End RecoHadTauReader.

(* ================================================================= *)
(** ** The collection selectors by name
       (interface/ParticleCollectionSelector.h) *)

Module ParticleCollectionSelectors.

Import ParticleCollectionSelector.

Section Stopping.

Variables Tobj Tsel : Type.

(** A selector whose [operator()] can stop (on an assertion, say). *)
Variable selector_call : Tsel -> Tobj -> outcome bool.
Variable deref : pointer -> Tobj.

(** The loop of [ParticleCollectionSelector::operator()] for such a
    selector: a call of the selector that stops ends the loop and the
    whole selection with it. *)
Fixpoint loop_stopping (selector_ : Tsel) (particles : list pointer)
  (selParticles : list pointer) : outcome (list pointer) :=
  match particles with
  | [] => Returned selParticles
  | particle :: rest =>
      accepted <- selector_call selector_ (deref particle) ;;
      loop_stopping selector_ rest
        (if accepted then selParticles ++ [particle] else selParticles)
  end.

Definition call_stopping (selector_ : Tsel) (particles : list pointer)
  : outcome (list pointer) :=
  loop_stopping selector_ particles [].

End Stopping.

(** [typedef ParticleCollectionSelector<RecoHadTau,
    RecoHadTauSelectorTight> RecoHadTauCollectionSelectorTight]; the
    member [selector_] is default-constructed. *)
Definition RecoHadTauCollectionSelectorTight
  (deref : pointer -> RecoHadTau.RecoHadTau) (particles : list pointer)
  : list pointer :=
  call RecoHadTau.RecoHadTau RecoHadTauSelectorTight.RecoHadTauSelectorTight
    RecoHadTauSelectorTight.call deref RecoHadTauSelectorTight.new particles.

(** [typedef ParticleCollectionSelector<RecoMuon,
    RecoMuonSelectorFakeable> RecoMuonCollectionSelectorFakeable]. *)
Definition RecoMuonCollectionSelectorFakeable
  (deref : pointer -> RecoMuon.RecoMuon) (particles : list pointer)
  : outcome (list pointer) :=
  call_stopping RecoMuon.RecoMuon
    RecoMuonSelectorFakeable.RecoMuonSelectorFakeable
    RecoMuonSelectorFakeable.call deref RecoMuonSelectorFakeable.new
    particles.

End ParticleCollectionSelectors.

(* ================================================================= *)
(** ** Objects that differ in one quantity *)

(** Copies of an object with some members replaced, to compare the
    verdicts of a selector on objects that differ there only. *)
Module Variation.

(** The muon with another lepton-MVA score. *)
Definition muon_with_score (m : RecoMuon.RecoMuon) (mvaRawTTH : float)
  : RecoMuon.RecoMuon :=
  RecoMuon.Build (RecoMuon.pt_ m) (RecoMuon.eta_ m) (RecoMuon.phi_ m)
    (RecoMuon.mass_ m) (RecoMuon.absEta_ m) (RecoMuon.pdgId_ m)
    (RecoMuon.dxy_ m) (RecoMuon.dz_ m) (RecoMuon.relIso_ m)
    (RecoMuon.miniIsoCharged_ m) (RecoMuon.miniIsoNeutral_ m)
    (RecoMuon.sip3d_ m) mvaRawTTH (RecoMuon.jetNDauChargedMVASel_ m)
    (RecoMuon.jetPtRel_ m) (RecoMuon.jetPtRatio_ m)
    (RecoMuon.jetBtagCSV_ m) (RecoMuon.tightCharge_ m)
    (RecoMuon.charge_ m) (RecoMuon.passesLooseIdPOG_ m)
    (RecoMuon.passesMediumIdPOG_ m) (RecoMuon.segmentCompatibility_ m).

(** The muon with other impact parameters. *)
Definition muon_with_impact (m : RecoMuon.RecoMuon) (dxy dz : float)
  : RecoMuon.RecoMuon :=
  RecoMuon.Build (RecoMuon.pt_ m) (RecoMuon.eta_ m) (RecoMuon.phi_ m)
    (RecoMuon.mass_ m) (RecoMuon.absEta_ m) (RecoMuon.pdgId_ m)
    dxy dz (RecoMuon.relIso_ m)
    (RecoMuon.miniIsoCharged_ m) (RecoMuon.miniIsoNeutral_ m)
    (RecoMuon.sip3d_ m) (RecoMuon.mvaRawTTH_ m)
    (RecoMuon.jetNDauChargedMVASel_ m)
    (RecoMuon.jetPtRel_ m) (RecoMuon.jetPtRatio_ m)
    (RecoMuon.jetBtagCSV_ m) (RecoMuon.tightCharge_ m)
    (RecoMuon.charge_ m) (RecoMuon.passesLooseIdPOG_ m)
    (RecoMuon.passesMediumIdPOG_ m) (RecoMuon.segmentCompatibility_ m).

(** The hadronic tau with another longitudinal impact parameter. *)
Definition hadTau_with_dz (t : RecoHadTau.RecoHadTau) (dz : float)
  : RecoHadTau.RecoHadTau :=
  RecoHadTau.Build (RecoHadTau.pt_ t) (RecoHadTau.eta_ t)
    (RecoHadTau.phi_ t) (RecoHadTau.mass_ t) (RecoHadTau.absEta_ t)
    (RecoHadTau.charge_ t) (RecoHadTau.dxy_ t) dz
    (RecoHadTau.decayModeFinding_ t) (RecoHadTau.decayModeFindingNew_ t)
    (RecoHadTau.id_mva_dR03_ t) (RecoHadTau.raw_mva_dR03_ t)
    (RecoHadTau.id_mva_dR05_ t) (RecoHadTau.raw_mva_dR05_ t)
    (RecoHadTau.id_cut_dR03_ t) (RecoHadTau.raw_cut_dR03_ t)
    (RecoHadTau.id_cut_dR05_ t) (RecoHadTau.raw_cut_dR05_ t)
    (RecoHadTau.antiElectron_ t) (RecoHadTau.antiMuon_ t).

End Variation.

(* ================================================================= *)
(** ** Muon reader (src/RecoMuonReader.cc) *)

Module RecoLeptonReader.

(** Modelled from the spec: the members of [RecoLeptonReader] that the
    muon reader uses (the class is not among the sources): the capacity,
    the stored count and one array per lepton attribute, [Int_t] for
    the PDG id, the tight-charge flag and the charge, [Float_t] for the
    rest.  As for the hadronic-tau reader an array member is the
    contents of the array. *)
Record RecoLeptonReader : Type := Build {
  max_nLeptons_ : Z;
  nLeptons_ : Z;
  pt_ : list float;
  eta_ : list float;
  phi_ : list float;
  mass_ : list float;
  pdgId_ : list Z;
  dxy_ : list float;
  dz_ : list float;
  relIso_ : list float;
  miniIsoCharged_ : list float;
  miniIsoNeutral_ : list float;
  sip3d_ : list float;
  mvaRawTTH_ : list float;
  jetNDauChargedMVASel_ : list float;
  jetPtRel_ : list float;
  jetPtRatio_ : list float;
  jetBtagCSV_ : list float;
  tightCharge_ : list Z;
  charge_ : list Z
}.

End RecoLeptonReader.

Module RecoMuonReader.

#[local] Open Scope Z_scope.

(** The members [read] uses; [leptonReader_] is the lepton reader the
    constructor creates for this muon reader. *)
Record RecoMuonReader : Type := Build {
  branchName_num_ : string;
  branchName_obj_ : string;
  leptonReader_ : RecoLeptonReader.RecoLeptonReader;
  looseIdPOG_ : list Z;
  mediumIdPOG_ : list Z;
  segmentCompatibility_ : list float
}.

(** The constructor call of the loop body: entry [idxLepton] of each
    array, in the order of the initialiser list. *)
Definition muon_at (gLeptonReader : RecoLeptonReader.RecoLeptonReader)
  (gMuonReader : RecoMuonReader) (idxLepton : Z)
  : outcome RecoMuon.RecoMuon :=
  pt <- at_index (RecoLeptonReader.pt_ gLeptonReader) idxLepton ;;
  eta <- at_index (RecoLeptonReader.eta_ gLeptonReader) idxLepton ;;
  phi <- at_index (RecoLeptonReader.phi_ gLeptonReader) idxLepton ;;
  mass <- at_index (RecoLeptonReader.mass_ gLeptonReader) idxLepton ;;
  pdgId <- at_index (RecoLeptonReader.pdgId_ gLeptonReader) idxLepton ;;
  dxy <- at_index (RecoLeptonReader.dxy_ gLeptonReader) idxLepton ;;
  dz <- at_index (RecoLeptonReader.dz_ gLeptonReader) idxLepton ;;
  relIso <- at_index (RecoLeptonReader.relIso_ gLeptonReader) idxLepton ;;
  miniIsoCharged <-
    at_index (RecoLeptonReader.miniIsoCharged_ gLeptonReader) idxLepton ;;
  miniIsoNeutral <-
    at_index (RecoLeptonReader.miniIsoNeutral_ gLeptonReader) idxLepton ;;
  sip3d <- at_index (RecoLeptonReader.sip3d_ gLeptonReader) idxLepton ;;
  mvaRawTTH <-
    at_index (RecoLeptonReader.mvaRawTTH_ gLeptonReader) idxLepton ;;
  jetNDauChargedMVASel <-
    at_index (RecoLeptonReader.jetNDauChargedMVASel_ gLeptonReader)
      idxLepton ;;
  jetPtRel <- at_index (RecoLeptonReader.jetPtRel_ gLeptonReader) idxLepton ;;
  jetPtRatio <-
    at_index (RecoLeptonReader.jetPtRatio_ gLeptonReader) idxLepton ;;
  jetBtagCSV <-
    at_index (RecoLeptonReader.jetBtagCSV_ gLeptonReader) idxLepton ;;
  tightCharge <-
    at_index (RecoLeptonReader.tightCharge_ gLeptonReader) idxLepton ;;
  charge <- at_index (RecoLeptonReader.charge_ gLeptonReader) idxLepton ;;
  looseIdPOG <- at_index (looseIdPOG_ gMuonReader) idxLepton ;;
  mediumIdPOG <- at_index (mediumIdPOG_ gMuonReader) idxLepton ;;
  segmentCompatibility <-
    at_index (segmentCompatibility_ gMuonReader) idxLepton ;;
  Returned (RecoMuon.new pt eta phi mass pdgId dxy dz relIso miniIsoCharged
              miniIsoNeutral sip3d mvaRawTTH jetNDauChargedMVASel jetPtRel
              jetPtRatio jetBtagCSV tightCharge charge looseIdPOG
              mediumIdPOG segmentCompatibility).

(** The loop over the leptons with [trips] iterations left: an entry
    whose PDG id has absolute value 13 appends a muon, any other entry
    is passed over. *)
Fixpoint read_loop (gLeptonReader : RecoLeptonReader.RecoLeptonReader)
  (gMuonReader : RecoMuonReader) (trips : nat) (idxLepton : Z)
  (muons : list RecoMuon.RecoMuon) : outcome (list RecoMuon.RecoMuon) :=
  match trips with
  | O => Returned muons
  | S trips' =>
      pdgId <- at_index (RecoLeptonReader.pdgId_ gLeptonReader) idxLepton ;;
      if Int32.abs pdgId =? 13 then
        muon <- muon_at gLeptonReader gMuonReader idxLepton ;;
        read_loop gLeptonReader gMuonReader trips' (idxLepton + 1)
          (muons ++ [muon])
      else
        read_loop gLeptonReader gMuonReader trips' (idxLepton + 1) muons
  end.

(** The message of the exception [read] throws. *)
Definition too_many (nLeptons max_nLeptons : Z) : fault :=
  cms_Exception "RecoMuonReader"
    [ Text "Number of leptons stored in Ntuple = "; Number nLeptons;
      Text ", exceeds max_nLeptons = "; Number max_nLeptons;
      Text (" !!" ++ RecoHadTauReader.newline) ].

(** [RecoMuonReader::read]; [lepton_instances_] and [instances_] are the
    static maps of the lepton readers and of the muon readers. *)
Definition read
  (lepton_instances_ : string -> option RecoLeptonReader.RecoLeptonReader)
  (instances_ : string -> option RecoMuonReader)
  (this : RecoMuonReader) : outcome (list RecoMuon.RecoMuon) :=
  gLeptonReader <-
    assert_nonnull (lepton_instances_ (branchName_obj_ this)) ;;
  gMuonReader <- assert_nonnull (instances_ (branchName_obj_ this)) ;;
  let nLeptons := RecoLeptonReader.nLeptons_ gLeptonReader in
  if nLeptons >? RecoLeptonReader.max_nLeptons_ (leptonReader_ this) then
    Stopped (too_many nLeptons
               (RecoLeptonReader.max_nLeptons_ (leptonReader_ this)))
  else
    RecoHadTauReader.reserve nLeptons ;;;
    read_loop gLeptonReader gMuonReader (Z.to_nat (nLeptons - 0)) 0 [].

(** What the two [setBranchAddresses] leave behind: every array has
    [capacity] entries. *)
Definition allocated (gLeptonReader : RecoLeptonReader.RecoLeptonReader)
  (gMuonReader : RecoMuonReader) (capacity : nat) : Prop :=
  List.length (RecoLeptonReader.pt_ gLeptonReader) = capacity /\
  List.length (RecoLeptonReader.eta_ gLeptonReader) = capacity /\
  List.length (RecoLeptonReader.phi_ gLeptonReader) = capacity /\
  List.length (RecoLeptonReader.mass_ gLeptonReader) = capacity /\
  List.length (RecoLeptonReader.pdgId_ gLeptonReader) = capacity /\
  List.length (RecoLeptonReader.dxy_ gLeptonReader) = capacity /\
  List.length (RecoLeptonReader.dz_ gLeptonReader) = capacity /\
  List.length (RecoLeptonReader.relIso_ gLeptonReader) = capacity /\
  List.length (RecoLeptonReader.miniIsoCharged_ gLeptonReader) = capacity /\
  List.length (RecoLeptonReader.miniIsoNeutral_ gLeptonReader) = capacity /\
  List.length (RecoLeptonReader.sip3d_ gLeptonReader) = capacity /\
  List.length (RecoLeptonReader.mvaRawTTH_ gLeptonReader) = capacity /\
  List.length (RecoLeptonReader.jetNDauChargedMVASel_ gLeptonReader)
  = capacity /\
  List.length (RecoLeptonReader.jetPtRel_ gLeptonReader) = capacity /\
  List.length (RecoLeptonReader.jetPtRatio_ gLeptonReader) = capacity /\
  List.length (RecoLeptonReader.jetBtagCSV_ gLeptonReader) = capacity /\
  List.length (RecoLeptonReader.tightCharge_ gLeptonReader) = capacity /\
  List.length (RecoLeptonReader.charge_ gLeptonReader) = capacity /\
  List.length (looseIdPOG_ gMuonReader) = capacity /\
  List.length (mediumIdPOG_ gMuonReader) = capacity /\
  List.length (segmentCompatibility_ gMuonReader) = capacity.

(** The muon made of entry [i] of each array (zero where an array has no
    such entry). *)
Definition muon_of_entry (gL : RecoLeptonReader.RecoLeptonReader)
  (gM : RecoMuonReader) (i : nat) : RecoMuon.RecoMuon :=
  RecoMuon.new
    (nth i (RecoLeptonReader.pt_ gL) 0%float)
    (nth i (RecoLeptonReader.eta_ gL) 0%float)
    (nth i (RecoLeptonReader.phi_ gL) 0%float)
    (nth i (RecoLeptonReader.mass_ gL) 0%float)
    (nth i (RecoLeptonReader.pdgId_ gL) 0)
    (nth i (RecoLeptonReader.dxy_ gL) 0%float)
    (nth i (RecoLeptonReader.dz_ gL) 0%float)
    (nth i (RecoLeptonReader.relIso_ gL) 0%float)
    (nth i (RecoLeptonReader.miniIsoCharged_ gL) 0%float)
    (nth i (RecoLeptonReader.miniIsoNeutral_ gL) 0%float)
    (nth i (RecoLeptonReader.sip3d_ gL) 0%float)
    (nth i (RecoLeptonReader.mvaRawTTH_ gL) 0%float)
    (nth i (RecoLeptonReader.jetNDauChargedMVASel_ gL) 0%float)
    (nth i (RecoLeptonReader.jetPtRel_ gL) 0%float)
    (nth i (RecoLeptonReader.jetPtRatio_ gL) 0%float)
    (nth i (RecoLeptonReader.jetBtagCSV_ gL) 0%float)
    (nth i (RecoLeptonReader.tightCharge_ gL) 0)
    (nth i (RecoLeptonReader.charge_ gL) 0)
    (nth i (looseIdPOG_ gM) 0)
    (nth i (mediumIdPOG_ gM) 0)
    (nth i (segmentCompatibility_ gM) 0%float).

(** Entry [i] holds a muon: its PDG id has absolute value 13. *)
Definition holds_muon (gL : RecoLeptonReader.RecoLeptonReader) (i : nat)
  : bool :=
  Int32.abs (nth i (RecoLeptonReader.pdgId_ gL) 0) =? 13.

(** An event with three leptons, a muon, an electron and an antimuon,
    in readers with eight entries per array. *)
Definition example_leptons : RecoLeptonReader.RecoLeptonReader :=
  RecoLeptonReader.Build 8 3
    (repeat 25.0%float 8) (repeat 1.5%float 8) (repeat 0.5%float 8)
    (repeat 0.1%float 8) [13; 11; -13; 0; 0; 0; 0; 0]
    (repeat 0.0%float 8) (repeat 0.0%float 8) (repeat 0.1%float 8)
    (repeat 0.0%float 8) (repeat 0.0%float 8) (repeat 1.0%float 8)
    (repeat 0.9%float 8) (repeat 3.0%float 8) (repeat 0.0%float 8)
    (repeat 0.8%float 8) (repeat 0.1%float 8) (repeat 2 8)
    [-1; -1; 1; 0; 0; 0; 0; 0].

Definition example_reader : RecoMuonReader :=
  Build "nselLeptons" "selLeptons" example_leptons
    (repeat 1 8) (repeat 1 8) (repeat 0.5%float 8).

End RecoMuonReader.

(* ================================================================= *)
(** ** The life of a hadronic-tau reader (src/RecoHadTauReader.cc) *)

(** The constructor, [setBranchNames], [setBranchAddresses] and the
    destructor work on the two static maps of the class and on the
    reader objects, which the maps refer to by address.  The
    branch-name members, which only serve to address the tree, are left
    out, as is the tree. *)
Module RecoHadTauReaderLifecycle.

Import RecoHadTauReader.
#[local] Open Scope Z_scope.

Definition address : Type := positive.

(** The static maps ([operator[]] gives 0, or a null pointer, for a name
    that was never entered; the counts are [int]) and the readers that
    are alive. *)
Record World : Type := BuildWorld {
  numInstances_ : string -> Z;
  instances_ : string -> option address;
  objects : address -> option RecoHadTauReader
}.

(** A step returns, throws or asserts, or uses an object that is no
    longer alive, after which nothing is defined. *)
Inductive result (A : Type) : Type :=
| Done (a : A)
| Thrown (f : fault)
| Undefined.

Arguments Done {A} a.
Arguments Thrown {A} f.
Arguments Undefined {A}.

Definition update {A : Type} (m : string -> A) (key : string) (v : A)
  : string -> A :=
  fun k => if String.eqb k key then v else m k.

Definition update_at {A : Type} (m : address -> A) (key : address) (v : A)
  : address -> A :=
  fun k => if Pos.eqb k key then v else m k.

(** The world before any reader exists. *)
Definition empty_world : World :=
  BuildWorld (fun _ => 0) (fun _ => None) (fun _ => None).

(** The message of the exception [setBranchNames] throws. *)
Definition not_unique (branchName_num branchName_obj previous_num
                         previous_obj : string) : fault :=
  cms_Exception "RecoHadTauReader"
    [ Text "Association between configuration parameters 'branchName_num' and 'branchName_obj' must be unique:";
      Text " present association 'branchName_num' = "; Text branchName_num;
      Text " with 'branchName_obj' = "; Text branchName_obj;
      Text " does not match previous association 'branchName_num' = ";
      Text previous_num;
      Text " with 'branchName_obj' = "; Text previous_obj;
      Text (" !!" ++ newline) ].

(** [RecoHadTauReader::setBranchNames], called by the constructor for
    the object [r] under construction at [this]. *)
Definition setBranchNames (w : World) (this : address)
  (r : RecoHadTauReader) : result World :=
  let obj := branchName_obj_ r in
  if numInstances_ w obj =? 0 then
    Done (BuildWorld
            (update (numInstances_ w) obj (Int32.wrap (numInstances_ w obj + 1)))
            (update (instances_ w) obj (Some this))
            (objects w))
  else
    match instances_ w obj with
    | None => Undefined
    | Some g =>
        match objects w g with
        | None => Undefined
        | Some previous =>
            if negb (String.eqb (branchName_num_ r)
                       (branchName_num_ previous))
            then Thrown (not_unique (branchName_num_ r) obj
                           (branchName_num_ previous)
                           (branchName_obj_ previous))
            else Done (BuildWorld
                         (update (numInstances_ w) obj
                            (Int32.wrap (numInstances_ w obj + 1)))
                         (instances_ w)
                         (objects w))
        end
    end.

(** [RecoHadTauReader::RecoHadTauReader(branchName_num, branchName_obj)]
    for a reader placed at the free address [this]; the reader exists
    when the constructor has returned.  [nHadTaus] is the value the
    uninitialised member holds. *)
Definition construct (w : World) (this : address)
  (branchName_num branchName_obj : string) (nHadTaus : Z) : result World :=
  let r := new branchName_num branchName_obj nHadTaus in
  match setBranchNames w this r with
  | Done w' =>
      Done (BuildWorld (numInstances_ w') (instances_ w')
              (update_at (objects w') this (Some r)))
  | Thrown f => Thrown f
  | Undefined => Undefined
  end.

(** The reader with nothing behind its array pointers any more. *)
Definition without_arrays (r : RecoHadTauReader) : RecoHadTauReader :=
  Build (max_nHadTaus_ r) (branchName_num_ r) (branchName_obj_ r)
    (nHadTaus_ r) [] [] [] [] [] [] [] [] [] [] [] [] [] [] [] [] [] [] [].

(** [RecoHadTauReader::~RecoHadTauReader] for the reader at [this]:
    the count of its branch name goes down, and when it reaches zero the
    arrays of the registered instance are deleted and the registration
    is cleared.  Then the reader is gone. *)
Definition destroy (w : World) (this : address) : result World :=
  match objects w this with
  | None => Undefined
  | Some r =>
      let obj := branchName_obj_ r in
      let count := Int32.wrap (numInstances_ w obj - 1) in
      let counts := update (numInstances_ w) obj count in
      if negb (count >=? 0) then Thrown AssertionFailed
      else if count =? 0 then
        match instances_ w obj with
        | None => Thrown AssertionFailed
        | Some g =>
            match objects w g with
            | None => Undefined
            | Some gInstance =>
                Done (BuildWorld counts
                        (update (instances_ w) obj None)
                        (update_at
                           (update_at (objects w) g
                              (Some (without_arrays gInstance)))
                           this None))
            end
        end
      else
        Done (BuildWorld counts (instances_ w)
                (update_at (objects w) this None))
  end.

(** The arrays [setBranchAddresses] allocates: [max_nHadTaus_] entries
    each, holding whatever the memory holds ([junk_f] and [junk_i] give
    the entry at an index of the array allocated in a given place of the
    sequence). *)
Definition allocate (r : RecoHadTauReader)
  (junk_f : nat -> nat -> float) (junk_i : nat -> nat -> Z)
  : RecoHadTauReader :=
  let n := Z.to_nat (max_nHadTaus_ r) in
  let floats (k : nat) := map (junk_f k) (seq 0 n) in
  let ints (k : nat) := map (junk_i k) (seq 0 n) in
  Build (max_nHadTaus_ r) (branchName_num_ r) (branchName_obj_ r)
    (nHadTaus_ r)
    (floats 0%nat) (floats 1%nat) (floats 2%nat) (floats 3%nat)
    (ints 4%nat) (floats 5%nat) (floats 6%nat) (ints 7%nat) (ints 8%nat)
    (ints 9%nat) (floats 10%nat) (ints 11%nat) (floats 12%nat)
    (ints 13%nat) (floats 14%nat) (ints 15%nat) (floats 16%nat)
    (ints 17%nat) (ints 18%nat).

(** [RecoHadTauReader::setBranchAddresses] for the reader at [this]:
    only the registered instance allocates. *)
Definition setBranchAddresses (w : World) (this : address)
  (junk_f : nat -> nat -> float) (junk_i : nat -> nat -> Z)
  : result World :=
  match objects w this with
  | None => Undefined
  | Some r =>
      match instances_ w (branchName_obj_ r) with
      | Some g =>
          if Pos.eqb g this then
            Done (BuildWorld (numInstances_ w) (instances_ w)
                    (update_at (objects w) this
                       (Some (allocate r junk_f junk_i))))
          else Done w
      | None => Done w
      end
  end.

(** [read] called on the reader at [this]: the registered instance is
    looked up in the map and used through its address. *)
Definition read_at (w : World) (this : address)
  : result (list RecoHadTau.RecoHadTau) :=
  match objects w this with
  | None => Undefined
  | Some r =>
      match instances_ w (branchName_obj_ r) with
      | None => Thrown AssertionFailed
      | Some g =>
          match objects w g with
          | None => Undefined
          | Some gInstance =>
              match read (fun _ => Some gInstance) r with
              | Returned hadTaus => Done hadTaus
              | Stopped f => Thrown f
              end
          end
      end
  end.

End RecoHadTauReaderLifecycle.

(* ================================================================= *)
(** ** Branch type codes (interface/SyncNtupleManager.h) *)

Module Traits.




End Traits.

(* ================================================================= *)
(** * Properties *)

(* ================================================================= *)
(** ** Order facts on binary64 numbers *)

(** The part of the order theory the binned tables need: transitivity
    and asymmetry of the comparisons, and the sign of an absolute
    value. *)
Module DoubleFacts.

#[local] Open Scope float_scope.

Lemma SFcompare_antisym (a b : spec_float) :
SFcompare b a = option_map CompOpp (SFcompare a b).
Proof.
destruct a as [sa|sa| |sa ma ea], b as [sb|sb| |sb mb eb]; simpl;
  try reflexivity;
  try (destruct sa; reflexivity);
  try (destruct sb; reflexivity);
  try (destruct sa, sb; reflexivity).
destruct sa, sb; try reflexivity;
  rewrite (Z.compare_antisym ea eb);
  destruct (ea ?= eb)%Z; simpl; try reflexivity;
  rewrite (Pos.compare_cont_antisym ma mb Eq); simpl;
  try rewrite CompOpp_involutive; reflexivity.
Qed.

(** Case analysis on the exponent and mantissa comparisons of two or
  three finite numbers. *)
Ltac finite_cases :=
change (Pos.compare_cont Eq) with Pos.compare;
repeat match goal with
  | |- context [(?x ?= ?y)%Z] =>
      destruct (Z.compare_spec x y); simpl
  end;
try discriminate; try reflexivity; try lia;
repeat match goal with
  | |- context [(?x ?= ?y)%positive] =>
      destruct (Pos.compare_spec x y); simpl
  end;
try discriminate; try reflexivity; try lia;
subst; try reflexivity; try lia.

(** The order of [SFcompare] is transitive (it is the lexicographic
  order on sign, exponent and mantissa). *)
Lemma SFcompare_trans_lt (a b c : spec_float) :
SFcompare a b = Some Lt -> SFcompare b c = Some Lt ->
SFcompare a c = Some Lt.
Proof.
destruct a as [sa|sa| |sa ma ea], b as [sb|sb| |sb mb eb],
  c as [sc|sc| |sc mc ec]; simpl; try discriminate;
  try (destruct sa; simpl; try discriminate; try reflexivity);
  try (destruct sb; simpl; try discriminate; try reflexivity);
  try (destruct sc; simpl; try discriminate; try reflexivity).
all: intros H1 H2; injection H1 as H1; injection H2 as H2; f_equal;
  revert H1 H2; finite_cases.
Qed.

(** Numbers that compare equal compare alike with any third one. *)
Lemma SFcompare_eq_l (a b c : spec_float) :
SFcompare a b = Some Eq -> SFcompare a c = SFcompare b c.
Proof.
destruct a as [sa|sa| |sa ma ea], b as [sb|sb| |sb mb eb],
  c as [sc|sc| |sc mc ec]; simpl; try discriminate; try reflexivity;
  try (destruct sa; simpl; try discriminate; try reflexivity);
  try (destruct sb; simpl; try discriminate; try reflexivity);
  try (destruct sc; simpl; try discriminate; try reflexivity).
all: intros H1; injection H1 as H1; try f_equal; revert H1; finite_cases.
Qed.

Lemma SFcompare_eq_r (a b c : spec_float) :
SFcompare b c = Some Eq -> SFcompare a c = SFcompare a b.
Proof.
intros H.
assert (Hcb : SFcompare c b = Some Eq)
  by (rewrite SFcompare_antisym, H; reflexivity).
rewrite (SFcompare_antisym c a), (SFcompare_antisym b a).
rewrite (SFcompare_eq_l c b a Hcb); reflexivity.
Qed.

(** *** The same facts on primitive floats *)

Lemma ltb_trans (a b c : float) :
PrimFloat.ltb a b = true -> PrimFloat.ltb b c = true ->
PrimFloat.ltb a c = true.
Proof.
rewrite !ltb_spec; unfold SFltb; intros H1 H2.
destruct (SFcompare (Prim2SF a) (Prim2SF b)) as [[]|] eqn:E1;
  try discriminate.
destruct (SFcompare (Prim2SF b) (Prim2SF c)) as [[]|] eqn:E2;
  try discriminate.
rewrite (SFcompare_trans_lt _ _ _ E1 E2); reflexivity.
Qed.

Lemma leb_ltb_trans (a b c : float) :
PrimFloat.leb a b = true -> PrimFloat.ltb b c = true ->
PrimFloat.ltb a c = true.
Proof.
rewrite leb_spec, !ltb_spec; unfold SFleb, SFltb; intros H1 H2.
destruct (SFcompare (Prim2SF a) (Prim2SF b)) as [[]|] eqn:E1;
  try discriminate;
  destruct (SFcompare (Prim2SF b) (Prim2SF c)) as [[]|] eqn:E2;
  try discriminate.
- rewrite (SFcompare_eq_l _ _ _ E1), E2; reflexivity.
- rewrite (SFcompare_trans_lt _ _ _ E1 E2); reflexivity.
Qed.

Lemma ltb_leb_trans (a b c : float) :
PrimFloat.ltb a b = true -> PrimFloat.leb b c = true ->
PrimFloat.ltb a c = true.
Proof.
rewrite leb_spec, !ltb_spec; unfold SFleb, SFltb; intros H1 H2.
destruct (SFcompare (Prim2SF a) (Prim2SF b)) as [[]|] eqn:E1;
  try discriminate;
  destruct (SFcompare (Prim2SF b) (Prim2SF c)) as [[]|] eqn:E2;
  try discriminate.
- rewrite (SFcompare_eq_r _ _ _ E2), E1; reflexivity.
- rewrite (SFcompare_trans_lt _ _ _ E1 E2); reflexivity.
Qed.

Lemma leb_trans (a b c : float) :
PrimFloat.leb a b = true -> PrimFloat.leb b c = true ->
PrimFloat.leb a c = true.
Proof.
rewrite !leb_spec; unfold SFleb; intros H1 H2.
destruct (SFcompare (Prim2SF a) (Prim2SF b)) as [[]|] eqn:E1;
  try discriminate;
  destruct (SFcompare (Prim2SF b) (Prim2SF c)) as [[]|] eqn:E2;
  try discriminate.
- rewrite (SFcompare_eq_l _ _ _ E1), E2; reflexivity.
- rewrite (SFcompare_eq_l _ _ _ E1), E2; reflexivity.
- rewrite (SFcompare_eq_r _ _ _ E2), E1; reflexivity.
- rewrite (SFcompare_trans_lt _ _ _ E1 E2); reflexivity.
Qed.

(** [a <= b] excludes [b < a], and [a < b] excludes [b <= a]. *)
Lemma leb_not_gt (a b : float) :
PrimFloat.leb a b = true -> PrimFloat.ltb b a = false.
Proof.
rewrite leb_spec, ltb_spec; unfold SFleb, SFltb.
rewrite (SFcompare_antisym (Prim2SF a) (Prim2SF b)).
destruct (SFcompare (Prim2SF a) (Prim2SF b)) as [[]|]; simpl;
  intros; try discriminate; reflexivity.
Qed.

Lemma ltb_not_ge (a b : float) :
PrimFloat.ltb a b = true -> PrimFloat.leb b a = false.
Proof.
rewrite leb_spec, ltb_spec; unfold SFleb, SFltb.
rewrite (SFcompare_antisym (Prim2SF a) (Prim2SF b)).
destruct (SFcompare (Prim2SF a) (Prim2SF b)) as [[]|]; simpl;
  intros; try discriminate; reflexivity.
Qed.

(** A number below [a] is not at or above a larger bound [b], and so on:
  the contrapositive forms the binned tables use. *)
Lemma not_ltb_weaken (x a b : float) :
PrimFloat.ltb a b = true -> PrimFloat.ltb x b = false ->
PrimFloat.ltb x a = false.
Proof.
intros Hab Hxb.
destruct (PrimFloat.ltb x a) eqn:E; [|reflexivity].
rewrite (ltb_trans _ _ _ E Hab) in Hxb; discriminate.
Qed.

Lemma not_leb_weaken (x a b : float) :
PrimFloat.leb a b = true -> PrimFloat.leb a x = false ->
PrimFloat.leb b x = false.
Proof.
intros Hab Hax.
destruct (PrimFloat.leb b x) eqn:E; [|reflexivity].
rewrite (leb_trans _ _ _ Hab E) in Hax; discriminate.
Qed.

(** An absolute value that is below some bound is a number, and so is
  at or above zero. *)
Lemma fabs_nonneg (x c : float) :
PrimFloat.ltb (Double.fabs x) c = true ->
  Double.geb (Double.fabs x) 0 = true.
Proof.
unfold Double.geb, Double.fabs.
rewrite ltb_spec, leb_spec, abs_spec.
change (Prim2SF 0) with (S754_zero false).
destruct (Prim2SF x) as [s|s| |s m e]; simpl;
  try discriminate; reflexivity.
Qed.

End DoubleFacts.

(* ================================================================= *)
(** ** [Int_t] arithmetic *)

Module Int32Facts.

#[local] Open Scope Z_scope.

Lemma wrap_in_range (x : Z) : Int32.in_range x -> Int32.wrap x = x.
Proof.
  unfold Int32.in_range, Int32.min_value, Int32.max_value, Int32.wrap.
  change (2 ^ 31) with 2147483648; change (2 ^ 32) with 4294967296.
  intros Hx. rewrite Z.mod_small; lia.
Qed.

(** [std::abs] of an [Int_t] other than the least one is its absolute
    value. *)
Lemma abs_in_range (x : Z) :
  Int32.in_range x -> x <> Int32.min_value -> Int32.abs x = Z.abs x.
Proof.
  intros Hx Hmin. unfold Int32.abs. apply wrap_in_range.
  unfold Int32.in_range, Int32.min_value, Int32.max_value in *.
  change (2 ^ 31) with 2147483648 in *. lia.
Qed.

Lemma abs_min_value : Int32.abs Int32.min_value = Int32.min_value.
Proof. reflexivity. Qed.

Lemma neg_in_range (x : Z) :
  Int32.in_range x -> x <> Int32.min_value -> Int32.neg x = - x.
Proof.
  intros Hx Hmin. unfold Int32.neg. apply wrap_in_range.
  unfold Int32.in_range, Int32.min_value, Int32.max_value in *.
  change (2 ^ 31) with 2147483648 in *. lia.
Qed.

(** [std::abs(x) == c] for a positive constant [c]. *)
Lemma abs_eqb_iff (x c : Z) :
  Int32.in_range x -> 0 < c <= Int32.max_value ->
  (Int32.abs x =? c) = true <-> Z.abs x = c.
Proof.
  intros Hx Hc. rewrite Z.eqb_eq.
  change Int32.max_value with 2147483647 in Hc.
  destruct (Z.eq_dec x Int32.min_value) as [->|Hmin].
  - rewrite abs_min_value.
    change (Z.abs Int32.min_value) with 2147483648.
    change Int32.min_value with (-2147483648). lia.
  - rewrite abs_in_range by assumption. reflexivity.
Qed.

End Int32Facts.

(* ================================================================= *)
(** ** The charge of a generator-level lepton *)

Module GenLeptonFacts.

#[local] Open Scope Z_scope.

Lemma charge_quotient (pdgId : Z) :
  Int32.in_range pdgId -> pdgId <> 0 ->
  Int32.div (Int32.neg pdgId) (Int32.abs pdgId) =
  Returned (if 0 <? pdgId then -1 else 1).
Proof.
  intros Hr Hnz. unfold Int32.div.
  destruct (Z.eq_dec pdgId Int32.min_value) as [->|Hmin]; [reflexivity|].
  rewrite Int32Facts.abs_in_range, Int32Facts.neg_in_range by assumption.
  destruct (Z.eqb_spec (Z.abs pdgId) 0) as [E|_]; [lia|].
  f_equal.
  destruct (Z.ltb_spec 0 pdgId) as [Hpos|Hneg].
  - rewrite Z.abs_eq by lia.
    rewrite Z.quot_opp_l, Z.quot_same by lia. reflexivity.
  - rewrite Z.abs_neq by lia.
    rewrite Z.quot_same by lia. reflexivity.
Qed.

(** C10. [GenLepton::GenLepton] computes the charge as the integer
    quotient [-pdgId / |pdgId|].  For [pdgId = 0] the constructor stops
    on a division by zero, so it returns an object exactly when
    [pdgId <> 0]; the object it returns then stores the PDG id, and its
    charge is [-1] for a positive and [+1] for a negative PDG id. *)
Theorem GenLepton_charge (pt eta phi mass : float) (pdgId : Z) :
  Int32.in_range pdgId ->
  (pdgId = 0 ->
   GenLepton.new pt eta phi mass pdgId = Stopped DivisionByZero) /\
  (returns (GenLepton.new pt eta phi mass pdgId) <-> pdgId <> 0) /\
  (pdgId <> 0 ->
   exists l, GenLepton.new pt eta phi mass pdgId = Returned l /\
             GenLepton.pdgId_ l = pdgId /\
             (0 < pdgId -> GenLepton.charge_ l = -1) /\
             (pdgId < 0 -> GenLepton.charge_ l = 1)).
Proof.
  intros Hr.
  assert (Hnz : pdgId <> 0 ->
                GenLepton.new pt eta phi mass pdgId =
                Returned (GenLepton.Build pt eta phi mass pdgId
                            (if 0 <? pdgId then -1 else 1))).
  { intros Hnz. unfold GenLepton.new.
    rewrite (charge_quotient pdgId Hr Hnz). reflexivity. }
  assert (Hz : pdgId = 0 ->
               GenLepton.new pt eta phi mass pdgId = Stopped DivisionByZero).
  { intros ->. reflexivity. }
  split; [exact Hz|]. split.
  - split.
    + intros [l Hl] E. rewrite (Hz E) in Hl. discriminate.
    + intros Hne. eexists. apply Hnz, Hne.
  - intros Hne. eexists. split; [apply Hnz, Hne|]. simpl.
    split; [reflexivity|]. split; intros Hs.
    + destruct (Z.ltb_spec 0 pdgId); [reflexivity|lia].
    + destruct (Z.ltb_spec 0 pdgId); [lia|reflexivity].
Qed.

(** A muon ([pdgId = 13]) has charge [-1]. *)
Lemma GenLepton_charge_witness :
  exists l, GenLepton.new 25 0 0 0 13 = Returned l /\
            GenLepton.charge_ l = -1.
Proof.
  assert (Hr : Int32.in_range 13) by (vm_compute; split; discriminate).
  destruct (GenLepton_charge 25 0 0 0 13 Hr) as (_ & _ & H).
  destruct H as (l & Hl & _ & Hpos & _); [lia|].
  exists l. split; [exact Hl|]. apply Hpos. lia.
Defined.

End GenLeptonFacts.

(* ================================================================= *)
(** ** The kind of a lepton *)

Module LeptonFacts.

#[local] Open Scope Z_scope.

Import Lepton.

(** The two tests of the generic class cannot both succeed. *)
Lemma generic_exclusive (g : RecoLepton.RecoLepton) :
  RecoLepton.is_electron g && RecoLepton.is_muon g = false.
Proof.
  unfold RecoLepton.is_electron, RecoLepton.is_muon.
  destruct (Z.eqb_spec (Int32.abs (RecoLepton.pdg_id g)) 11) as [E|_];
    [|reflexivity].
  rewrite E. reflexivity.
Qed.

(** C8, as stated, fails: a generic lepton built with the PDG id of a
    tau (15) is neither an electron nor a muon. *)
Lemma tau_lepton_is_neither_kind :
  ~ exactly_one_kind
      (Generic (RecoLepton.new 0 0 0 0 0 0 0 0 0 15 0 0 0 0 0 0)).
Proof. unfold exactly_one_kind. simpl. discriminate. Qed.

(** C8, amended.  [is_electron()] and [is_muon()] are never both true.
    A [RecoMuon] answers [is_muon() = true] and [is_electron() = false]
    whatever it stores.  A generic [RecoLepton] answers by its stored PDG
    id: [is_electron()] exactly when [|pdg_id| = 11], [is_muon()]
    exactly when [|pdg_id| = 13]; so exactly one of the two holds when
    [|pdg_id|] is 11 or 13, and neither holds for any other PDG id. *)
Theorem lepton_kind (l : Lepton) :
  mutually_exclusive l /\
  match l with
  | Muon m => is_muon l = true /\ is_electron l = false
  | Generic g =>
      Int32.in_range (RecoLepton.pdg_id g) ->
      (is_electron l = true <-> Z.abs (RecoLepton.pdg_id g) = 11) /\
      (is_muon l = true <-> Z.abs (RecoLepton.pdg_id g) = 13) /\
      (exactly_one_kind l <->
       Z.abs (RecoLepton.pdg_id g) = 11 \/
       Z.abs (RecoLepton.pdg_id g) = 13) /\
      (Z.abs (RecoLepton.pdg_id g) <> 11 ->
       Z.abs (RecoLepton.pdg_id g) <> 13 ->
       is_electron l = false /\ is_muon l = false)
  end.
Proof.
  destruct l as [g|m]; unfold mutually_exclusive, exactly_one_kind; simpl.
  - split; [apply generic_exclusive|]. intros Hr.
    assert (He := Int32Facts.abs_eqb_iff (RecoLepton.pdg_id g) 11 Hr).
    assert (Hm := Int32Facts.abs_eqb_iff (RecoLepton.pdg_id g) 13 Hr).
    unfold RecoLepton.is_electron, RecoLepton.is_muon.
    specialize (He ltac:(vm_compute; split; [reflexivity|discriminate])).
    specialize (Hm ltac:(vm_compute; split; [reflexivity|discriminate])).
    destruct (Int32.abs (RecoLepton.pdg_id g) =? 11) eqn:E11,
             (Int32.abs (RecoLepton.pdg_id g) =? 13) eqn:E13; simpl.
    + apply Z.eqb_eq in E11, E13. lia.
    + assert (Z.abs (RecoLepton.pdg_id g) = 11) by (apply He; reflexivity).
      repeat split; intros; try tauto; try lia.
    + assert (Z.abs (RecoLepton.pdg_id g) = 13) by (apply Hm; reflexivity).
      repeat split; intros; try tauto; try lia; try discriminate.
    + assert (Z.abs (RecoLepton.pdg_id g) <> 11)
        by (intros A; apply He in A; discriminate).
      assert (Z.abs (RecoLepton.pdg_id g) <> 13)
        by (intros A; apply Hm in A; discriminate).
      repeat split; intros; try tauto; try lia; try discriminate.
  - split; [reflexivity|]. split; reflexivity.
Qed.

(** A generic lepton with PDG id [-11] is an electron and not a muon. *)
Lemma lepton_kind_witness :
  is_electron (Generic (RecoLepton.new 0 0 0 0 0 0 0 0 0 (-11) 0 0 0 0 0 0))
  = true /\
  is_muon (Generic (RecoLepton.new 0 0 0 0 0 0 0 0 0 (-11) 0 0 0 0 0 0))
  = false.
Proof.
  destruct (lepton_kind
              (Generic (RecoLepton.new 0 0 0 0 0 0 0 0 0 (-11) 0 0 0 0 0 0)))
    as [Hex H].
  simpl in H.
  destruct (H ltac:(vm_compute; split; discriminate)) as (He & _).
  assert (E : is_electron
                (Generic
                   (RecoLepton.new 0 0 0 0 0 0 0 0 0 (-11) 0 0 0 0 0 0))
              = true) by (apply He; reflexivity).
  split; [exact E|].
  unfold mutually_exclusive in Hex. rewrite E in Hex. exact Hex.
Defined.

End LeptonFacts.

(* ================================================================= *)
(** ** The tight hadronic-tau selector *)

Module RecoHadTauSelectorTightFacts.

Import RecoHadTau RecoHadTauSelectorTight.
#[local] Open Scope float_scope.

(** The condition of [operator()] is the conjunction of its fourteen
    tests. *)
Lemma call_conjunction (sel : RecoHadTauSelectorTight) (hadTau : RecoHadTau) :
  call sel hadTau = forallb (fun c => c) (fourteen_conditions sel hadTau).
Proof.
  unfold call, fourteen_conditions, forallb.
  rewrite andb_true_r, !andb_assoc.
  match goal with |- (if ?c then true else false) = _ => destruct c end;
    reflexivity.
Qed.

Lemma forallb_nth_false (l : list bool) (i : nat) :
  nth i l true = false -> forallb (fun c => c) l = false.
Proof.
  revert i. induction l as [|c l IH]; intros [|i]; simpl;
    try discriminate.
  - intros ->. reflexivity.
  - intros H. rewrite (IH i H). apply andb_false_r.
Qed.

(** C5. With the default thresholds the selector accepts a hadronic tau
    exactly when all fourteen tests hold, each comparison inclusive:
    [pt >= 20], [absEta <= 2.3], [|dz| <= 0.2], [decayModeFinding >= 1],
    the four working-point flags and the two raw MVA scores at or above
    their minima, the two raw cut-based isolation values at or below
    their maxima, and [antiElectron], [antiMuon] at or above their
    minima.  The result is the conjunction of the fourteen tests, so a
    single failing test rejects the object.  The synthetic object that
    sits on every threshold is accepted (also with [dz = -0.2]), and
    each of the fourteen objects obtained from it by moving one quantity
    across its threshold is rejected. *)
Theorem tight_hadTau_selector :
  (forall hadTau : RecoHadTau,
     call new hadTau = true <->
     Double.geb (pt_ hadTau) 20 = true /\
     PrimFloat.leb (absEta_ hadTau) 2.3 = true /\
     PrimFloat.leb (Double.fabs (dz_ hadTau)) 0.2 = true /\
     (1 <= decayModeFinding_ hadTau)%Z /\
     (-1000 <= id_mva_dR03_ hadTau)%Z /\
     Double.geb (raw_mva_dR03_ hadTau) (-1.0e+6) = true /\
     (-1000 <= id_mva_dR05_ hadTau)%Z /\
     Double.geb (raw_mva_dR05_ hadTau) (-1.0e+6) = true /\
     (-1000 <= id_cut_dR03_ hadTau)%Z /\
     PrimFloat.leb (raw_cut_dR03_ hadTau) 1.0e+6 = true /\
     (1 <= id_cut_dR05_ hadTau)%Z /\
     PrimFloat.leb (raw_cut_dR05_ hadTau) 1.0e+6 = true /\
     (-1000 <= antiElectron_ hadTau)%Z /\
     (-1000 <= antiMuon_ hadTau)%Z) /\
  (forall hadTau : RecoHadTau,
     List.length (fourteen_conditions new hadTau) = 14%nat /\
     call new hadTau = forallb (fun c => c) (fourteen_conditions new hadTau)) /\
  (forall (hadTau : RecoHadTau) (i : nat),
     nth i (fourteen_conditions new hadTau) true = false ->
     call new hadTau = false) /\
  call new (synthetic 20 2.3 0.2 1 (-1000) (-1.0e+6) (-1000) (-1.0e+6)
              (-1000) 1.0e+6 1 1.0e+6 (-1000) (-1000)) = true /\
  call new (synthetic 20 2.3 (-0.2) 1 (-1000) (-1.0e+6) (-1000) (-1.0e+6)
              (-1000) 1.0e+6 1 1.0e+6 (-1000) (-1000)) = true /\
  call new (synthetic 19.99 2.3 0.2 1 (-1000) (-1.0e+6) (-1000) (-1.0e+6)
              (-1000) 1.0e+6 1 1.0e+6 (-1000) (-1000)) = false /\
  call new (synthetic 20 2.31 0.2 1 (-1000) (-1.0e+6) (-1000) (-1.0e+6)
              (-1000) 1.0e+6 1 1.0e+6 (-1000) (-1000)) = false /\
  call new (synthetic 20 2.3 0.21 1 (-1000) (-1.0e+6) (-1000) (-1.0e+6)
              (-1000) 1.0e+6 1 1.0e+6 (-1000) (-1000)) = false /\
  call new (synthetic 20 2.3 0.2 0 (-1000) (-1.0e+6) (-1000) (-1.0e+6)
              (-1000) 1.0e+6 1 1.0e+6 (-1000) (-1000)) = false /\
  call new (synthetic 20 2.3 0.2 1 (-1001) (-1.0e+6) (-1000) (-1.0e+6)
              (-1000) 1.0e+6 1 1.0e+6 (-1000) (-1000)) = false /\
  call new (synthetic 20 2.3 0.2 1 (-1000) (-1.1e+6) (-1000) (-1.0e+6)
              (-1000) 1.0e+6 1 1.0e+6 (-1000) (-1000)) = false /\
  call new (synthetic 20 2.3 0.2 1 (-1000) (-1.0e+6) (-1001) (-1.0e+6)
              (-1000) 1.0e+6 1 1.0e+6 (-1000) (-1000)) = false /\
  call new (synthetic 20 2.3 0.2 1 (-1000) (-1.0e+6) (-1000) (-1.1e+6)
              (-1000) 1.0e+6 1 1.0e+6 (-1000) (-1000)) = false /\
  call new (synthetic 20 2.3 0.2 1 (-1000) (-1.0e+6) (-1000) (-1.0e+6)
              (-1001) 1.0e+6 1 1.0e+6 (-1000) (-1000)) = false /\
  call new (synthetic 20 2.3 0.2 1 (-1000) (-1.0e+6) (-1000) (-1.0e+6)
              (-1000) 1.1e+6 1 1.0e+6 (-1000) (-1000)) = false /\
  call new (synthetic 20 2.3 0.2 1 (-1000) (-1.0e+6) (-1000) (-1.0e+6)
              (-1000) 1.0e+6 0 1.0e+6 (-1000) (-1000)) = false /\
  call new (synthetic 20 2.3 0.2 1 (-1000) (-1.0e+6) (-1000) (-1.0e+6)
              (-1000) 1.0e+6 1 1.1e+6 (-1000) (-1000)) = false /\
  call new (synthetic 20 2.3 0.2 1 (-1000) (-1.0e+6) (-1000) (-1.0e+6)
              (-1000) 1.0e+6 1 1.0e+6 (-1001) (-1000)) = false /\
  call new (synthetic 20 2.3 0.2 1 (-1000) (-1.0e+6) (-1000) (-1.0e+6)
              (-1000) 1.0e+6 1 1.0e+6 (-1000) (-1001)) = false.
Proof.
  split; [|split; [|split]].
  - intros hadTau. rewrite call_conjunction.
    unfold fourteen_conditions, forallb, new; simpl.
    rewrite andb_true_r, !andb_true_iff, !Z.geb_le. tauto.
  - intros hadTau. split; [reflexivity|apply call_conjunction].
  - intros hadTau i H. rewrite call_conjunction.
    apply (forallb_nth_false _ i H).
  - repeat split; vm_compute; reflexivity.
Qed.

(** The test on [id_cut_dR05_] (the eleventh, at index 10) rejects
    an object that passes the other thirteen. *)
Lemma tight_hadTau_selector_witness :
  call new (synthetic 50 1.0 0.0 1 0 0.5 0 0.5 0 1.0 0 1.0 0 0) = false.
Proof.
  destruct tight_hadTau_selector as (_ & _ & H & _).
  apply (H _ 10%nat). vm_compute. reflexivity.
Defined.

End RecoHadTauSelectorTightFacts.

(* ================================================================= *)
(** ** The fakeable muon selector *)

Module RecoMuonSelectorFakeableFacts.

Import RecoMuon RecoMuonSelectorFakeable.
#[local] Open Scope float_scope.

(** The primary cuts with the default thresholds, as propositions. *)
Lemma primary_cuts_default (muon : RecoMuon) :
  primary_cuts new muon = true <->
  Double.geb (pt_ muon) 10 = true /\
  PrimFloat.leb (absEta_ muon) 2.4 = true /\
  PrimFloat.leb (Double.fabs (dxy_ muon)) 0.05 = true /\
  PrimFloat.leb (Double.fabs (dz_ muon)) 0.1 = true /\
  PrimFloat.leb (relIso_ muon) 0.4 = true /\
  PrimFloat.leb (sip3d_ muon) 8 = true /\
  passesLooseIdPOG_ muon <> 0%Z.
Proof.
  unfold primary_cuts, new, flag; simpl.
  rewrite !orb_true_r, !andb_true_r, !orb_false_r, !andb_true_iff.
  rewrite negb_true_iff, Z.eqb_neq. tauto.
Qed.

(** With the default thresholds [operator()] never stops: the bin is 0
    or 1 and both tables have two entries. *)
Lemma call_default (muon : RecoMuon) :
  call new muon =
  Returned
    (primary_cuts new muon &&
     if Double.geb (mvaRawTTH_ muon) 0.75
     then Double.geb (jetPtRatio_ muon) 0.30 &&
          PrimFloat.leb (jetBtagCSV_ muon) 0.605
     else Double.geb (jetPtRatio_ muon) (-1.0e+3) &&
          PrimFloat.leb (jetBtagCSV_ muon) 0.89).
Proof.
  unfold call. destruct (primary_cuts new muon); [|reflexivity].
  unfold idxBin; simpl.
  destruct (Double.geb (mvaRawTTH_ muon) 0.75); simpl.
  - destruct (Double.geb (jetPtRatio_ muon) 0.30); simpl; [|reflexivity].
    destruct (PrimFloat.leb (jetBtagCSV_ muon) 0.605); reflexivity.
  - destruct (Double.geb (jetPtRatio_ muon) (-1.0e+3)); simpl; [|reflexivity].
    destruct (PrimFloat.leb (jetBtagCSV_ muon) 0.89); reflexivity.
Qed.

(** C6. With the default thresholds the selector returns a verdict for
    every muon, and the verdict is true exactly when the primary cuts
    pass ([pt >= 10], [absEta <= 2.4], [|dxy| <= 0.05], [|dz| <= 0.1],
    [relIso <= 0.4], [sip3d <= 8], loose POG id flag set; neither the
    medium id nor the tight charge enters) and the secondary cuts of the
    bin pass: bin 0 when [mvaRawTTH >= 0.75], with [jetPtRatio >= 0.30]
    and [jetBtagCSV <= 0.605], and bin 1 otherwise, with
    [jetPtRatio >= -1000] and [jetBtagCSV <= 0.89].  A score of exactly
    0.75 is in bin 0 and a score of 0.749 in bin 1; the synthetic muons
    at the end show the two pairs of secondary thresholds at work. *)
Theorem fakeable_muon_selector :
  (forall muon : RecoMuon,
     exists verdict : bool,
       call new muon = Returned verdict /\
       (verdict = true <->
        (Double.geb (pt_ muon) 10 = true /\
         PrimFloat.leb (absEta_ muon) 2.4 = true /\
         PrimFloat.leb (Double.fabs (dxy_ muon)) 0.05 = true /\
         PrimFloat.leb (Double.fabs (dz_ muon)) 0.1 = true /\
         PrimFloat.leb (relIso_ muon) 0.4 = true /\
         PrimFloat.leb (sip3d_ muon) 8 = true /\
         passesLooseIdPOG_ muon <> 0%Z) /\
        ((idxBin new muon = Returned 0%Z /\
          Double.geb (jetPtRatio_ muon) 0.30 = true /\
          PrimFloat.leb (jetBtagCSV_ muon) 0.605 = true) \/
         (idxBin new muon = Returned 1%Z /\
          Double.geb (jetPtRatio_ muon) (-1000) = true /\
          PrimFloat.leb (jetBtagCSV_ muon) 0.89 = true)))) /\
  (forall muon : RecoMuon,
     idxBin new muon =
     Returned (if Double.geb (mvaRawTTH_ muon) 0.75 then 0%Z else 1%Z)) /\
  (forall muon : RecoMuon,
     mvaRawTTH_ muon = 0.75 -> idxBin new muon = Returned 0%Z) /\
  (forall muon : RecoMuon,
     mvaRawTTH_ muon = 0.749 -> idxBin new muon = Returned 1%Z) /\
  call new (synthetic 0.75 0.30 0.605) = Returned true /\
  call new (synthetic 0.75 0.29 0.605) = Returned false /\
  call new (synthetic 0.75 0.30 0.61) = Returned false /\
  call new (synthetic 0.749 0.29 0.605) = Returned true /\
  call new (synthetic 0.749 0.30 0.61) = Returned true /\
  call new (synthetic 0.749 (-1000) 0.89) = Returned true /\
  call new (synthetic 0.749 (-1000.5) 0.89) = Returned false /\
  call new (synthetic 0.749 (-1000) 0.9) = Returned false.
Proof.
  split; [|split; [|split; [|split]]].
  - intros muon. eexists. split; [apply call_default|].
    rewrite andb_true_iff, primary_cuts_default.
    unfold idxBin; simpl.
    destruct (Double.geb (mvaRawTTH_ muon) 0.75); simpl;
      rewrite andb_true_iff; intuition congruence.
  - intros muon. reflexivity.
  - intros muon E. unfold idxBin; simpl. rewrite E. reflexivity.
  - intros muon E. unfold idxBin; simpl. rewrite E. reflexivity.
  - repeat split; vm_compute; reflexivity.
Qed.

(** A muon with score 0.75, [jetPtRatio] 0.30 and [jetBtagCSV] 0.605
    falls in bin 0. *)
Lemma fakeable_muon_selector_witness :
  idxBin new (synthetic 0.75 0.30 0.605) = Returned 0%Z.
Proof.
  destruct fakeable_muon_selector as (_ & _ & H & _).
  apply H. reflexivity.
Defined.

End RecoMuonSelectorFakeableFacts.

(* ================================================================= *)
(** ** The collection selector *)

Module ParticleCollectionSelectorFacts.

Import ParticleCollectionSelector.

Section Template.

Variables Tobj Tsel : Type.
Variable selector_call : Tsel -> Tobj -> bool.
Variable deref : pointer -> Tobj.
Variable selector_ : Tsel.

(** The verdict of the selector on the object a pointer refers to. *)
Let accepts (particle : pointer) : bool :=
  selector_call selector_ (deref particle).

(** The loop appends to [selParticles] the accepted pointers of the
    part of the collection still to visit. *)
Lemma loop_appends (particles selParticles : list pointer) :
  fold_left (visit Tobj Tsel selector_call deref selector_)
    particles selParticles =
  selParticles ++ filter accepts particles.
Proof.
  revert selParticles.
  induction particles as [|particle rest IH]; intros selParticles; simpl.
  - symmetry. apply app_nil_r.
  - rewrite IH. unfold visit, accepts.
    destruct (selector_call selector_ (deref particle)).
    + rewrite <- app_assoc. reflexivity.
    + reflexivity.
Qed.

Lemma filter_subsequence (particles : list pointer) :
  subsequence (filter accepts particles) particles.
Proof.
  induction particles as [|particle rest IH]; simpl.
  - constructor.
  - destruct (accepts particle); constructor; exact IH.
Qed.

Lemma filter_count_occ (particles : list pointer) (p : pointer) :
  count_occ Pos.eq_dec (filter accepts particles) p =
  if accepts p then count_occ Pos.eq_dec particles p else 0.
Proof.
  induction particles as [|particle rest IH]; simpl.
  - destruct (accepts p); reflexivity.
  - destruct (accepts particle) eqn:Ea; simpl;
      destruct (Pos.eq_dec particle p) as [->|Hne]; rewrite IH.
    + rewrite Ea. reflexivity.
    + reflexivity.
    + rewrite Ea. reflexivity.
    + reflexivity.
Qed.

(** C7. For every collection of pointers and every selector, the
    collection selector returns the pointers of the collection whose
    object the selector accepts: the result is a subsequence of the
    input (same pointers, same relative order), a pointer occurs in it
    as often as in the input when its object is accepted and not at all
    otherwise (nothing is deduplicated), and the store of objects is
    only read.  A selector that accepts everything gives back the input
    collection, and one that rejects everything gives the empty one. *)
Theorem collection_selector (particles : list pointer) :
  let selParticles :=
    call Tobj Tsel selector_call deref selector_ particles in
  selParticles =
    filter (fun particle => selector_call selector_ (deref particle))
      particles /\
  subsequence selParticles particles /\
  (forall p : pointer,
     count_occ Pos.eq_dec selParticles p =
     if selector_call selector_ (deref p)
     then count_occ Pos.eq_dec particles p else 0) /\
  (forall p : pointer,
     In p selParticles <->
     In p particles /\ selector_call selector_ (deref p) = true) /\
  ((forall obj : Tobj, selector_call selector_ obj = true) ->
   selParticles = particles) /\
  ((forall obj : Tobj, selector_call selector_ obj = false) ->
   selParticles = []).
Proof.
  assert (E : call Tobj Tsel selector_call deref selector_ particles =
              filter accepts particles)
    by (unfold call; rewrite loop_appends; reflexivity).
  cbv zeta. rewrite E. fold accepts.
  split; [reflexivity|]. split; [apply filter_subsequence|].
  split; [intros p; apply filter_count_occ|].
  split; [intros p; apply filter_In|]. split; intros Hall.
  - clear E. induction particles as [|particle rest IH]; simpl.
    + reflexivity.
    + unfold accepts at 1. rewrite Hall, IH. reflexivity.
  - clear E. induction particles as [|particle rest IH]; simpl.
    + reflexivity.
    + unfold accepts at 1. rewrite Hall, IH. reflexivity.
Qed.

End Template.

(** Three pointers, two of them equal, through a selector that accepts
    every object: the collection comes back as it went in. *)
Lemma collection_selector_witness :
  call nat unit (fun _ _ => true) (fun p => Pos.to_nat p) tt
    [3; 1; 3]%positive = [3; 1; 3]%positive.
Proof.
  destruct (collection_selector nat unit (fun _ _ => true)
              (fun p => Pos.to_nat p) tt [3; 1; 3]%positive)
    as (_ & _ & _ & _ & Hall & _).
  apply Hall. intros obj. reflexivity.
Defined.

End ParticleCollectionSelectorFacts.

(* ================================================================= *)
(** ** The correction engine *)

Module CorrectionsFacts.

Import Corrections.
#[local] Open Scope float_scope.

Section Engine.

Context `{LeptonTypes} `{LoadedTables}.

Lemma kMuon_is_not_kElectron :
  kElectron <> kMuon -> (kMuon =? kElectron)%Z = false.
Proof. intros Hd. apply Z.eqb_neq. congruence. Qed.

(** C2. The trigger-efficiency scale factor.  One lepton: 0.99 for an
    electron with [pT > 40], 0.95 for an electron otherwise (so at or
    below 40), 0.98 for a muon, 1.00 for any other type.  Two leptons:
    for two electrons 0.99 when the larger [pT] is above 40 and 0.95
    otherwise, 0.98 for two muons, and 1.00 for every other pair of
    types.  Two electrons with [pT] (45, 30) get 0.99, with (30, 20)
    they get 0.95, and an electron with a muon gets 1.00. *)
Theorem trigger_efficiency :
  kElectron <> kMuon ->
  (forall pt eta : float,
     Double.gtb pt 40 = true -> sf_triggerEff_1 kElectron pt eta = 0.99) /\
  (forall pt eta : float,
     Double.gtb pt 40 = false -> sf_triggerEff_1 kElectron pt eta = 0.95) /\
  (forall pt eta : float,
     PrimFloat.leb pt 40 = true -> sf_triggerEff_1 kElectron pt eta = 0.95) /\
  (forall pt eta : float, sf_triggerEff_1 kMuon pt eta = 0.98) /\
  (forall (t : Z) (pt eta : float),
     unrecognized t -> sf_triggerEff_1 t pt eta = 1.00) /\
  (forall pt1 eta1 pt2 eta2 : float,
     Double.gtb (Double.max pt1 pt2) 40 = true ->
     sf_triggerEff_2 kElectron pt1 eta1 kElectron pt2 eta2 = 0.99) /\
  (forall pt1 eta1 pt2 eta2 : float,
     Double.gtb (Double.max pt1 pt2) 40 = false ->
     sf_triggerEff_2 kElectron pt1 eta1 kElectron pt2 eta2 = 0.95) /\
  (forall pt1 eta1 pt2 eta2 : float,
     sf_triggerEff_2 kMuon pt1 eta1 kMuon pt2 eta2 = 0.98) /\
  (forall (t1 : Z) (pt1 eta1 : float) (t2 : Z) (pt2 eta2 : float),
     ~ (t1 = kElectron /\ t2 = kElectron) ->
     ~ (t1 = kMuon /\ t2 = kMuon) ->
     sf_triggerEff_2 t1 pt1 eta1 t2 pt2 eta2 = 1.00) /\
  (forall eta1 eta2 : float,
     sf_triggerEff_2 kElectron 45 eta1 kElectron 30 eta2 = 0.99 /\
     sf_triggerEff_2 kElectron 30 eta1 kElectron 20 eta2 = 0.95 /\
     sf_triggerEff_2 kElectron 45 eta1 kMuon 30 eta2 = 1.00 /\
     sf_triggerEff_2 kMuon 45 eta1 kElectron 30 eta2 = 1.00).
Proof.
  intros Hd. assert (Hme := kMuon_is_not_kElectron Hd).
  assert (Hem : (kElectron =? kMuon)%Z = false) by (apply Z.eqb_neq; exact Hd).
  unfold sf_triggerEff_1, sf_triggerEff_2.
  repeat match goal with |- _ /\ _ => split end.
  - intros pt eta Hpt. rewrite Z.eqb_refl, Hpt. reflexivity.
  - intros pt eta Hpt. rewrite Z.eqb_refl, Hpt. reflexivity.
  - intros pt eta Hpt. rewrite Z.eqb_refl.
    unfold Double.gtb. rewrite (DoubleFacts.leb_not_gt _ _ Hpt). reflexivity.
  - intros pt eta. rewrite Hme, Z.eqb_refl. reflexivity.
  - intros t pt eta [Hne Hnm].
    apply Z.eqb_neq in Hne, Hnm. rewrite Hne, Hnm. reflexivity.
  - intros pt1 eta1 pt2 eta2 Hpt. rewrite Z.eqb_refl, Hpt. reflexivity.
  - intros pt1 eta1 pt2 eta2 Hpt. rewrite Z.eqb_refl, Hpt. reflexivity.
  - intros pt1 eta1 pt2 eta2. rewrite Hme, Z.eqb_refl. reflexivity.
  - intros t1 pt1 eta1 t2 pt2 eta2 Hee Hmm.
    destruct (Z.eqb_spec t1 kElectron), (Z.eqb_spec t2 kElectron),
      (Z.eqb_spec t1 kMuon), (Z.eqb_spec t2 kMuon);
      simpl; try reflexivity; tauto.
  - intros eta1 eta2. rewrite !Z.eqb_refl, Hme, Hem.
    repeat split; reflexivity.
Qed.

(** The bins of [pT]: which of the three tests of the source succeed
    for a [pT] known to lie in a bin, or below all of them. *)
Lemma pt_bin_1 (pt : float) :
  Double.geb pt 10 = true -> PrimFloat.ltb pt 25 = true ->
  Double.geb pt 10.0 && PrimFloat.ltb pt 25 = true.
Proof. intros -> ->. reflexivity. Qed.

Lemma pt_bin_2 (pt : float) :
  Double.geb pt 25 = true -> PrimFloat.ltb pt 50 = true ->
  Double.geb pt 10.0 && PrimFloat.ltb pt 25 = false /\
  Double.geb pt 25.0 && PrimFloat.ltb pt 50 = true.
Proof.
  intros Hlo Hhi. unfold Double.geb in *.
  rewrite (DoubleFacts.leb_not_gt _ _ Hlo), Hlo, Hhi, andb_false_r.
  split; reflexivity.
Qed.

Lemma pt_bin_3 (pt : float) :
  Double.geb pt 50 = true ->
  Double.geb pt 10.0 && PrimFloat.ltb pt 25 = false /\
  Double.geb pt 25.0 && PrimFloat.ltb pt 50 = false /\
  Double.geb pt 50.0 = true.
Proof.
  intros Hlo. unfold Double.geb in *.
  assert (H25 : PrimFloat.leb 25 pt = true)
    by (apply (DoubleFacts.leb_trans 25 50 pt); [reflexivity|exact Hlo]).
  rewrite (DoubleFacts.leb_not_gt _ _ Hlo), (DoubleFacts.leb_not_gt _ _ H25).
  rewrite !andb_false_r. repeat split. exact Hlo.
Qed.

Lemma pt_below_bins (pt : float) :
  Double.geb pt 10 = false ->
  Double.geb pt 10.0 && PrimFloat.ltb pt 25 = false /\
  Double.geb pt 25.0 && PrimFloat.ltb pt 50 = false /\
  Double.geb pt 50.0 = false.
Proof.
  intros Hlo. unfold Double.geb in *.
  assert (H25 : PrimFloat.leb 25 pt = false)
    by (apply (DoubleFacts.not_leb_weaken pt 10 25); [reflexivity|exact Hlo]).
  assert (H50 : PrimFloat.leb 50 pt = false)
    by (apply (DoubleFacts.not_leb_weaken pt 10 50); [reflexivity|exact Hlo]).
  rewrite Hlo, H25, H50. repeat split.
Qed.

(** The regions of [|eta|]. *)
Lemma eta_barrel (a : float) :
  PrimFloat.ltb (Double.fabs a) 1.479 = true ->
  Double.geb (Double.fabs a) 0.0 && PrimFloat.ltb (Double.fabs a) 1.479
  = true.
Proof.
  intros Hhi. rewrite (DoubleFacts.fabs_nonneg _ _ Hhi), Hhi. reflexivity.
Qed.

Lemma eta_endcap (a : float) :
  Double.geb (Double.fabs a) 1.479 = true ->
  PrimFloat.ltb (Double.fabs a) 2.5 = true ->
  Double.geb (Double.fabs a) 0.0 && PrimFloat.ltb (Double.fabs a) 1.479
  = false /\
  Double.geb (Double.fabs a) 1.479 && PrimFloat.ltb (Double.fabs a) 2.5
  = true.
Proof.
  intros Hlo Hhi. unfold Double.geb in *.
  rewrite (DoubleFacts.leb_not_gt _ _ Hlo), Hlo, Hhi, andb_false_r.
  split; reflexivity.
Qed.

Lemma eta_outside (a : float) :
  PrimFloat.ltb (Double.fabs a) 2.5 = false ->
  Double.geb (Double.fabs a) 0.0 && PrimFloat.ltb (Double.fabs a) 1.479
  = false /\
  Double.geb (Double.fabs a) 1.479 && PrimFloat.ltb (Double.fabs a) 2.5
  = false.
Proof.
  intros Hhi.
  assert (Hb : PrimFloat.ltb (Double.fabs a) 1.479 = false)
    by (apply (DoubleFacts.not_ltb_weaken _ 1.479 2.5);
        [reflexivity|exact Hhi]).
  rewrite Hb, Hhi, !andb_false_r. split; reflexivity.
Qed.

(** C3. The charge-misidentification probability of an electron is the
    literal of its bin: in the barrel, [|eta| < 1.479], it is 0.0301,
    0.0287, 0.0293 for [pT] in [10,25), [25,50), [50,inf); in the
    endcap, [1.479 <= |eta| < 2.5], it is 0.1728, 0.1974, 0.3457 for the
    same bins.  Outside these ranges ([|eta|] not below 2.5, or [pT] not
    at or above 10) the function returns the initial value 1.0 and does
    not stop.  For a muon it returns 1.0 whatever the inputs. *)
Theorem charge_misid_probability :
  kElectron <> kMuon ->
  (forall pt eta : float,
     PrimFloat.ltb (Double.fabs eta) 1.479 = true ->
     (Double.geb pt 10 = true -> PrimFloat.ltb pt 25 = true ->
      prob_chargeMisId kElectron pt eta = Returned 0.0301) /\
     (Double.geb pt 25 = true -> PrimFloat.ltb pt 50 = true ->
      prob_chargeMisId kElectron pt eta = Returned 0.0287) /\
     (Double.geb pt 50 = true ->
      prob_chargeMisId kElectron pt eta = Returned 0.0293)) /\
  (forall pt eta : float,
     Double.geb (Double.fabs eta) 1.479 = true ->
     PrimFloat.ltb (Double.fabs eta) 2.5 = true ->
     (Double.geb pt 10 = true -> PrimFloat.ltb pt 25 = true ->
      prob_chargeMisId kElectron pt eta = Returned 0.1728) /\
     (Double.geb pt 25 = true -> PrimFloat.ltb pt 50 = true ->
      prob_chargeMisId kElectron pt eta = Returned 0.1974) /\
     (Double.geb pt 50 = true ->
      prob_chargeMisId kElectron pt eta = Returned 0.3457)) /\
  (forall pt eta : float,
     PrimFloat.ltb (Double.fabs eta) 2.5 = false ->
     prob_chargeMisId kElectron pt eta = Returned 1.0) /\
  (forall pt eta : float,
     Double.geb (Double.fabs eta) 2.5 = true ->
     prob_chargeMisId kElectron pt eta = Returned 1.0) /\
  (forall pt eta : float,
     Double.geb pt 10 = false ->
     prob_chargeMisId kElectron pt eta = Returned 1.0) /\
  (forall pt eta : float,
     PrimFloat.ltb pt 10 = true ->
     prob_chargeMisId kElectron pt eta = Returned 1.0) /\
  (forall pt eta : float, prob_chargeMisId kMuon pt eta = Returned 1.0) /\
  prob_chargeMisId kElectron 30 1.0 = Returned 0.0287 /\
  prob_chargeMisId kElectron 30 (-1.0) = Returned 0.0287 /\
  prob_chargeMisId kElectron 60 2.0 = Returned 0.3457 /\
  (forall pt : float, prob_chargeMisId kElectron pt 3.0 = Returned 1.0).
Proof.
  intros Hd. assert (Hme := kMuon_is_not_kElectron Hd).
  assert (Heta_out : forall pt eta : float,
            PrimFloat.ltb (Double.fabs eta) 2.5 = false ->
            prob_chargeMisId kElectron pt eta = Returned 1.0).
  { intros pt eta Heta. unfold prob_chargeMisId. rewrite Z.eqb_refl.
    destruct (eta_outside eta Heta) as [-> ->]. reflexivity. }
  assert (Hpt_out : forall pt eta : float,
            Double.geb pt 10 = false ->
            prob_chargeMisId kElectron pt eta = Returned 1.0).
  { intros pt eta Hpt. unfold prob_chargeMisId. rewrite Z.eqb_refl.
    destruct (pt_below_bins pt Hpt) as (-> & -> & ->).
    destruct (_ && _); [reflexivity|]. destruct (_ && _); reflexivity. }
  repeat match goal with |- _ /\ _ => split end.
  - intros pt eta Heta. unfold prob_chargeMisId.
    rewrite Z.eqb_refl, (eta_barrel eta Heta). repeat split.
    + intros Hlo Hhi. rewrite (pt_bin_1 pt Hlo Hhi). reflexivity.
    + intros Hlo Hhi. destruct (pt_bin_2 pt Hlo Hhi) as [-> ->].
      reflexivity.
    + intros Hlo. destruct (pt_bin_3 pt Hlo) as (-> & -> & ->).
      reflexivity.
  - intros pt eta Hlo_eta Hhi_eta. unfold prob_chargeMisId.
    rewrite Z.eqb_refl.
    destruct (eta_endcap eta Hlo_eta Hhi_eta) as [-> ->]. repeat split.
    + intros Hlo Hhi. rewrite (pt_bin_1 pt Hlo Hhi). reflexivity.
    + intros Hlo Hhi. destruct (pt_bin_2 pt Hlo Hhi) as [-> ->].
      reflexivity.
    + intros Hlo. destruct (pt_bin_3 pt Hlo) as (-> & -> & ->).
      reflexivity.
  - exact Heta_out.
  - intros pt eta Heta. apply Heta_out.
    apply DoubleFacts.leb_not_gt. exact Heta.
  - exact Hpt_out.
  - intros pt eta Hpt. apply Hpt_out.
    apply DoubleFacts.ltb_not_ge. exact Hpt.
  - intros pt eta. unfold prob_chargeMisId. rewrite Hme, Z.eqb_refl.
    reflexivity.
  - unfold prob_chargeMisId. rewrite Z.eqb_refl. reflexivity.
  - unfold prob_chargeMisId. rewrite Z.eqb_refl. reflexivity.
  - unfold prob_chargeMisId. rewrite Z.eqb_refl. reflexivity.
  - intros pt. apply Heta_out. reflexivity.
Qed.

(** *** The tiers of the identification and isolation scale factor *)

(** With every histogram loaded the per-kind lookups return. *)
Lemma loaded_lookups_return (pt eta : float) :
  all_loaded ->
  returns (sf_electronID_and_Iso_loose pt eta) /\
  returns (sf_electronID_and_Iso_tight_to_loose pt eta) /\
  returns (sf_muonID_and_Iso_loose pt eta) /\
  returns (sf_muonID_and_Iso_tight_to_loose pt eta).
Proof.
  unfold all_loaded, returns.
  unfold sf_electronID_and_Iso_loose, sf_electronID_and_Iso_tight_to_loose,
    sf_muonID_and_Iso_loose, sf_muonID_and_Iso_tight_to_loose.
  intros (L1 & L2 & L3 & L4 & L5 & L6 & L7 & L8 & L9 & L10 & L11).
  destruct electron_lut_id_loose; [|congruence].
  destruct electron_lut_iso; [|congruence].
  destruct electron_lut_convVeto; [|congruence].
  destruct electron_lut_id_tight_barrel; [|congruence].
  destruct electron_lut_id_tight_endcap; [|congruence].
  destruct muon_lut_id_loose; [|congruence].
  destruct muon_lut_iso_barrel; [|congruence].
  destruct muon_lut_iso_endcap; [|congruence].
  destruct muon_lut_ip; [|congruence].
  destruct muon_lut_id_tight_barrel; [|congruence].
  destruct muon_lut_id_tight_endcap; [|congruence].
  simpl.
  destruct (PrimFloat.ltb (Double.fabs eta) 1.479),
    (PrimFloat.ltb (Double.fabs eta) 1.2); simpl;
    repeat split; eexists; reflexivity.
Qed.

Lemma loaded_dispatch_returns (t : Z) (pt eta : float) :
  all_loaded -> t = kElectron \/ t = kMuon ->
  returns (sf_leptonID_and_Iso_loose_1 t pt eta) /\
  returns (sf_leptonID_and_Iso_tight_to_loose_1 t pt eta).
Proof.
  intros Hall Ht.
  destruct (loaded_lookups_return pt eta Hall) as (Hel & Het & Hml & Hmt).
  unfold sf_leptonID_and_Iso_loose_1, sf_leptonID_and_Iso_tight_to_loose_1.
  destruct (Z.eqb_spec t kElectron) as [_|Hne]; [split; assumption|].
  destruct (Z.eqb_spec t kMuon) as [_|Hnm]; [split; assumption|].
  destruct Ht; contradiction.
Qed.

(** C1. The tiers compose by multiplication.  For an electron, for a
    muon, and for one lepton and two leptons of any type, whenever the loose and the tight-to-loose scale factors return
    [l] and [r], the tight scale factor returns the product [l * r] and
    nothing else enters it; whenever the loose factor returns [l], the
    fakeable factor returns [l] times the fakeable-to-loose factor, and
    that factor is 1.0 for all inputs.  For the recognized types
    (electron, muon), with the histograms loaded, the loose and
    tight-to-loose factors do return, so the tight and fakeable factors
    are these products. *)
Theorem tiered_composition :
  (forall pt eta l r : float,
     sf_electronID_and_Iso_loose pt eta = Returned l ->
     sf_electronID_and_Iso_tight_to_loose pt eta = Returned r ->
     sf_electronID_and_Iso_tight pt eta = Returned (l * r)) /\
  (forall pt eta l r : float,
     sf_muonID_and_Iso_loose pt eta = Returned l ->
     sf_muonID_and_Iso_tight_to_loose pt eta = Returned r ->
     sf_muonID_and_Iso_tight pt eta = Returned (l * r)) /\
  (forall (t : Z) (pt eta l r : float),
     sf_leptonID_and_Iso_loose_1 t pt eta = Returned l ->
     sf_leptonID_and_Iso_tight_to_loose_1 t pt eta = Returned r ->
     sf_leptonID_and_Iso_tight_1 t pt eta = Returned (l * r)) /\
  (forall (t : Z) (pt eta l : float),
     sf_leptonID_and_Iso_loose_1 t pt eta = Returned l ->
     sf_leptonID_and_Iso_fakeable_1 t pt eta =
     Returned (l * sf_leptonID_and_Iso_fakeable_to_loose_1 t pt eta)) /\
  (forall (t : Z) (pt eta : float),
     sf_leptonID_and_Iso_fakeable_to_loose_1 t pt eta = 1.0) /\
  (forall (t1 : Z) (pt1 eta1 : float) (t2 : Z) (pt2 eta2 l r : float),
     sf_leptonID_and_Iso_loose_2 t1 pt1 eta1 t2 pt2 eta2 = Returned l ->
     sf_leptonID_and_Iso_tight_to_loose_2 t1 pt1 eta1 t2 pt2 eta2
     = Returned r ->
     sf_leptonID_and_Iso_tight_2 t1 pt1 eta1 t2 pt2 eta2
     = Returned (l * r)) /\
  (forall (t1 : Z) (pt1 eta1 : float) (t2 : Z) (pt2 eta2 l : float),
     sf_leptonID_and_Iso_loose_2 t1 pt1 eta1 t2 pt2 eta2 = Returned l ->
     sf_leptonID_and_Iso_fakeable_2 t1 pt1 eta1 t2 pt2 eta2 =
     Returned
       (l * sf_leptonID_and_Iso_fakeable_to_loose_2
              t1 pt1 eta1 t2 pt2 eta2)) /\
  (forall (t1 : Z) (pt1 eta1 : float) (t2 : Z) (pt2 eta2 : float),
     sf_leptonID_and_Iso_fakeable_to_loose_2 t1 pt1 eta1 t2 pt2 eta2
     = 1.0) /\
  (all_loaded ->
   forall (t : Z) (pt eta : float),
     t = kElectron \/ t = kMuon ->
     exists l r : float,
       sf_leptonID_and_Iso_loose_1 t pt eta = Returned l /\
       sf_leptonID_and_Iso_tight_to_loose_1 t pt eta = Returned r /\
       sf_leptonID_and_Iso_tight_1 t pt eta = Returned (l * r) /\
       sf_leptonID_and_Iso_fakeable_1 t pt eta = Returned (l * 1.0)) /\
  (all_loaded ->
   forall (t1 : Z) (pt1 eta1 : float) (t2 : Z) (pt2 eta2 : float),
     t1 = kElectron \/ t1 = kMuon ->
     t2 = kElectron \/ t2 = kMuon ->
     exists l r : float,
       sf_leptonID_and_Iso_loose_2 t1 pt1 eta1 t2 pt2 eta2 = Returned l /\
       sf_leptonID_and_Iso_tight_to_loose_2 t1 pt1 eta1 t2 pt2 eta2
       = Returned r /\
       sf_leptonID_and_Iso_tight_2 t1 pt1 eta1 t2 pt2 eta2
       = Returned (l * r) /\
       sf_leptonID_and_Iso_fakeable_2 t1 pt1 eta1 t2 pt2 eta2
       = Returned (l * 1.0)).
Proof.
  repeat match goal with |- _ /\ _ => split end.
  - intros pt eta l r Hl Hr.
    unfold sf_electronID_and_Iso_tight. rewrite Hl, Hr. reflexivity.
  - intros pt eta l r Hl Hr.
    unfold sf_muonID_and_Iso_tight. rewrite Hl, Hr. reflexivity.
  - intros t pt eta l r Hl Hr.
    unfold sf_leptonID_and_Iso_tight_1. rewrite Hl, Hr. reflexivity.
  - intros t pt eta l Hl.
    unfold sf_leptonID_and_Iso_fakeable_1. rewrite Hl. reflexivity.
  - reflexivity.
  - intros t1 pt1 eta1 t2 pt2 eta2 l r Hl Hr.
    unfold sf_leptonID_and_Iso_tight_2. rewrite Hl, Hr. reflexivity.
  - intros t1 pt1 eta1 t2 pt2 eta2 l Hl.
    unfold sf_leptonID_and_Iso_fakeable_2. rewrite Hl. reflexivity.
  - reflexivity.
  - intros Hall t pt eta Ht.
    destruct (loaded_dispatch_returns t pt eta Hall Ht) as [[l Hl] [r Hr]].
    exists l, r.
    unfold sf_leptonID_and_Iso_tight_1, sf_leptonID_and_Iso_fakeable_1.
    rewrite Hl, Hr. repeat split.
  - intros Hall t1 pt1 eta1 t2 pt2 eta2 Ht1 Ht2.
    destruct (loaded_dispatch_returns t1 pt1 eta1 Hall Ht1)
      as [[l1 Hl1] [r1 Hr1]].
    destruct (loaded_dispatch_returns t2 pt2 eta2 Hall Ht2)
      as [[l2 Hl2] [r2 Hr2]].
    exists (l1 * l2), (r1 * r2).
    unfold sf_leptonID_and_Iso_tight_2, sf_leptonID_and_Iso_fakeable_2.
    assert (El : sf_leptonID_and_Iso_loose_2 t1 pt1 eta1 t2 pt2 eta2
                 = Returned (l1 * l2)).
    { unfold sf_leptonID_and_Iso_loose_2.
      unfold sf_leptonID_and_Iso_loose_1 in Hl1, Hl2.
      rewrite Hl1, Hl2. reflexivity. }
    assert (Er : sf_leptonID_and_Iso_tight_to_loose_2
                   t1 pt1 eta1 t2 pt2 eta2 = Returned (r1 * r2)).
    { unfold sf_leptonID_and_Iso_tight_to_loose_2.
      unfold sf_leptonID_and_Iso_tight_to_loose_1 in Hr1, Hr2.
      rewrite Hr1, Hr2. reflexivity. }
    rewrite El, Er. repeat split.
Qed.

(** *** Unrecognized lepton types *)

Lemma unrecognized_tests (t : Z) :
  unrecognized t ->
  (t =? kElectron)%Z = false /\ (t =? kMuon)%Z = false.
Proof. intros [He Hm]. split; apply Z.eqb_neq; assumption. Qed.

(** The per-lepton dispatch with a final [assert(0)] either returns or
    stops on an assertion: the lookups behind it stop in no other way. *)
Lemma electron_loose_fault (pt eta : float) (f : fault) :
  sf_electronID_and_Iso_loose pt eta = Stopped f -> f = AssertionFailed.
Proof.
  unfold sf_electronID_and_Iso_loose.
  destruct electron_lut_id_loose, electron_lut_iso; simpl;
    intros E; congruence.
Qed.

Lemma muon_loose_fault (pt eta : float) (f : fault) :
  sf_muonID_and_Iso_loose pt eta = Stopped f -> f = AssertionFailed.
Proof.
  unfold sf_muonID_and_Iso_loose.
  destruct muon_lut_id_loose, (PrimFloat.ltb (Double.fabs eta) 1.2),
    muon_lut_iso_barrel, muon_lut_iso_endcap, muon_lut_ip; simpl;
    intros E; congruence.
Qed.

Lemma electron_tight_to_loose_fault (pt eta : float) (f : fault) :
  sf_electronID_and_Iso_tight_to_loose pt eta = Stopped f ->
  f = AssertionFailed.
Proof.
  unfold sf_electronID_and_Iso_tight_to_loose.
  destruct electron_lut_convVeto, (PrimFloat.ltb (Double.fabs eta) 1.479),
    electron_lut_id_tight_barrel, electron_lut_id_tight_endcap; simpl;
    intros E; congruence.
Qed.

Lemma muon_tight_to_loose_fault (pt eta : float) (f : fault) :
  sf_muonID_and_Iso_tight_to_loose pt eta = Stopped f -> f = AssertionFailed.
Proof.
  unfold sf_muonID_and_Iso_tight_to_loose.
  destruct (PrimFloat.ltb (Double.fabs eta) 1.2),
    muon_lut_id_tight_barrel, muon_lut_id_tight_endcap; simpl;
    intros E; congruence.
Qed.

(** Two dispatches in a row, the second of which meets an unrecognized
    type, or the first. *)
Lemma loose_2_unrecognized (t1 : Z) (pt1 eta1 : float) (t2 : Z)
  (pt2 eta2 : float) :
  unrecognized t1 \/ unrecognized t2 ->
  sf_leptonID_and_Iso_loose_2 t1 pt1 eta1 t2 pt2 eta2
  = Stopped AssertionFailed.
Proof.
  unfold sf_leptonID_and_Iso_loose_2. intros [Hu|Hu];
    destruct (unrecognized_tests _ Hu) as [He Hm].
  - rewrite He, Hm. reflexivity.
  - rewrite He, Hm.
    destruct (t1 =? kElectron)%Z; [|destruct (t1 =? kMuon)%Z].
    + destruct (sf_electronID_and_Iso_loose pt1 eta1) as [a|f] eqn:E;
        simpl; [reflexivity|].
      rewrite (electron_loose_fault _ _ _ E). reflexivity.
    + destruct (sf_muonID_and_Iso_loose pt1 eta1) as [a|f] eqn:E;
        simpl; [reflexivity|].
      rewrite (muon_loose_fault _ _ _ E). reflexivity.
    + reflexivity.
Qed.

Lemma tight_to_loose_2_unrecognized (t1 : Z) (pt1 eta1 : float) (t2 : Z)
  (pt2 eta2 : float) :
  unrecognized t1 \/ unrecognized t2 ->
  sf_leptonID_and_Iso_tight_to_loose_2 t1 pt1 eta1 t2 pt2 eta2
  = Stopped AssertionFailed.
Proof.
  unfold sf_leptonID_and_Iso_tight_to_loose_2. intros [Hu|Hu];
    destruct (unrecognized_tests _ Hu) as [He Hm].
  - rewrite He, Hm. reflexivity.
  - rewrite He, Hm.
    destruct (t1 =? kElectron)%Z; [|destruct (t1 =? kMuon)%Z].
    + destruct (sf_electronID_and_Iso_tight_to_loose pt1 eta1)
        as [a|f] eqn:E; simpl; [reflexivity|].
      rewrite (electron_tight_to_loose_fault _ _ _ E). reflexivity.
    + destruct (sf_muonID_and_Iso_tight_to_loose pt1 eta1)
        as [a|f] eqn:E; simpl; [reflexivity|].
      rewrite (muon_tight_to_loose_fault _ _ _ E). reflexivity.
    + reflexivity.
Qed.

(** C4, amended.  On a lepton type that is neither [kElectron] nor
    [kMuon] the loose, tight-to-loose, tight and fakeable
    identification-and-isolation scale factors (for one lepton, and for
    two leptons as soon as one of the two types is unrecognized) and the
    charge-misidentification probability stop on a failed assertion and
    return no number.  The trigger-efficiency scale factor does not: it
    returns 1.00 (for two leptons, on every pair with an unrecognized
    type), and the fakeable-to-loose factor returns 1.0. *)
Theorem unrecognized_type_handling :
  aborts_on_unrecognized sf_leptonID_and_Iso_loose_1 /\
  aborts_on_unrecognized sf_leptonID_and_Iso_tight_to_loose_1 /\
  aborts_on_unrecognized sf_leptonID_and_Iso_tight_1 /\
  aborts_on_unrecognized sf_leptonID_and_Iso_fakeable_1 /\
  aborts_on_unrecognized prob_chargeMisId /\
  (forall (t1 : Z) (pt1 eta1 : float) (t2 : Z) (pt2 eta2 : float),
     unrecognized t1 \/ unrecognized t2 ->
     sf_leptonID_and_Iso_loose_2 t1 pt1 eta1 t2 pt2 eta2
     = Stopped AssertionFailed /\
     sf_leptonID_and_Iso_tight_to_loose_2 t1 pt1 eta1 t2 pt2 eta2
     = Stopped AssertionFailed /\
     sf_leptonID_and_Iso_tight_2 t1 pt1 eta1 t2 pt2 eta2
     = Stopped AssertionFailed /\
     sf_leptonID_and_Iso_fakeable_2 t1 pt1 eta1 t2 pt2 eta2
     = Stopped AssertionFailed /\
     sf_triggerEff_2 t1 pt1 eta1 t2 pt2 eta2 = 1.00 /\
     sf_leptonID_and_Iso_fakeable_to_loose_2 t1 pt1 eta1 t2 pt2 eta2
     = 1.0) /\
  (forall (t : Z) (pt eta : float),
     unrecognized t ->
     sf_triggerEff_1 t pt eta = 1.00 /\
     sf_leptonID_and_Iso_fakeable_to_loose_1 t pt eta = 1.0).
Proof.
  unfold aborts_on_unrecognized.
  repeat match goal with |- _ /\ _ => split end.
  - intros t pt eta Hu. destruct (unrecognized_tests t Hu) as [He Hm].
    unfold sf_leptonID_and_Iso_loose_1. rewrite He, Hm. reflexivity.
  - intros t pt eta Hu. destruct (unrecognized_tests t Hu) as [He Hm].
    unfold sf_leptonID_and_Iso_tight_to_loose_1. rewrite He, Hm.
    reflexivity.
  - intros t pt eta Hu. destruct (unrecognized_tests t Hu) as [He Hm].
    unfold sf_leptonID_and_Iso_tight_1, sf_leptonID_and_Iso_loose_1.
    rewrite He, Hm. reflexivity.
  - intros t pt eta Hu. destruct (unrecognized_tests t Hu) as [He Hm].
    unfold sf_leptonID_and_Iso_fakeable_1, sf_leptonID_and_Iso_loose_1.
    rewrite He, Hm. reflexivity.
  - intros t pt eta Hu. destruct (unrecognized_tests t Hu) as [He Hm].
    unfold prob_chargeMisId. rewrite He, Hm. reflexivity.
  - intros t1 pt1 eta1 t2 pt2 eta2 Hu.
    assert (Hl := loose_2_unrecognized t1 pt1 eta1 t2 pt2 eta2 Hu).
    assert (Ht := tight_to_loose_2_unrecognized t1 pt1 eta1 t2 pt2 eta2 Hu).
    unfold sf_leptonID_and_Iso_tight_2, sf_leptonID_and_Iso_fakeable_2.
    rewrite Hl, Ht. repeat split.
    unfold sf_triggerEff_2.
    destruct Hu as [Hu|Hu]; destruct (unrecognized_tests _ Hu) as [He Hm];
      rewrite He, Hm, ?andb_false_r; reflexivity.
  - intros t pt eta Hu. destruct (unrecognized_tests t Hu) as [He Hm].
    unfold sf_triggerEff_1. rewrite He, Hm. split; reflexivity.
Qed.

End Engine.

(** With electrons as type 0 and muons as type 1, an electron of
    [pT = 41] gets 0.99. *)
Lemma trigger_efficiency_witness :
  @sf_triggerEff_1 example_types 0 41 0 = 0.99.
Proof.
  destruct (@trigger_efficiency example_types) as (Habove & _).
  - discriminate.
  - apply Habove. reflexivity.
Defined.

(** An electron of [pT = 30] at [eta = -1] has probability 0.0287. *)
Lemma charge_misid_probability_witness :
  @prob_chargeMisId example_types 0 30 (-1.0) = Returned 0.0287.
Proof.
  destruct (@charge_misid_probability example_types) as (Hbarrel & _).
  - discriminate.
  - destruct (Hbarrel 30 (-1.0)) as (_ & Hbin & _).
    + reflexivity.
    + apply Hbin; reflexivity.
Defined.

(** C4, as stated, fails: with electrons as type 0 and muons as type 1
    the trigger-efficiency scale factor, asked about a lepton of type 2,
    returns a number instead of stopping. *)
Lemma trigger_efficiency_does_not_abort :
  ~ @aborts_on_unrecognized example_types
      (fun lepton_type pt eta =>
         Returned (@sf_triggerEff_1 example_types lepton_type pt eta)).
Proof.
  intros Habort.
  assert (Hu : @unrecognized example_types 2)
    by (split; discriminate).
  specialize (Habort 2%Z 30 0 Hu). discriminate Habort.
Qed.

(** The number it returns there is 1.00. *)
Lemma trigger_efficiency_of_type_2 :
  @sf_triggerEff_1 example_types 2 30 0 = 1.00.
Proof. reflexivity. Qed.

(** With electrons as type 0 and muons as type 1, the tight scale factor
    of a lepton of type 2 stops on the assertion. *)
Lemma unrecognized_type_handling_witness :
  @sf_leptonID_and_Iso_tight_1 example_types example_service example_tables
    2 30 0 = Stopped AssertionFailed.
Proof.
  destruct (@unrecognized_type_handling example_types example_service
              example_tables) as (_ & _ & Htight & _).
  apply Htight. split; discriminate.
Defined.

(** In the example setting a barrel electron of [pT = 30] has the
    loose factor 0.25 and the tight-to-loose factor 0.25, and its tight
    factor is their product. *)
Lemma tiered_composition_witness :
  @sf_leptonID_and_Iso_tight_1 example_types example_service example_tables
    0 30 1.0 = Returned (0.25 * 0.25).
Proof.
  destruct (@tiered_composition example_types example_service
              example_tables) as (_ & _ & Htight & _).
  apply Htight; reflexivity.
Defined.

End CorrectionsFacts.

(* ================================================================= *)
(** ** The hadronic-tau reader *)

Module RecoHadTauReaderFacts.

Import RecoHadTauReader.
#[local] Open Scope Z_scope.

(** An access inside an array returns the entry. *)
Lemma at_index_inside {A : Type} (v : list A) (i : Z) (d : A) :
  0 <= i -> (Z.to_nat i < List.length v)%nat ->
  at_index v i = Returned (nth (Z.to_nat i) v d).
Proof.
  intros Hi Hlen. unfold at_index.
  destruct (Z.ltb_spec i 0) as [Hneg|_]; [lia|].
  destruct (nth_error v (Z.to_nat i)) as [a|] eqn:E.
  - rewrite (nth_error_nth v (Z.to_nat i) d E). reflexivity.
  - apply nth_error_None in E. lia.
Qed.

(** The constructor call of the loop body, inside the capacity. *)
Lemma hadTau_at_inside (g : RecoHadTauReader) (idxHadTau : Z) :
  allocated g -> 0 <= idxHadTau < max_nHadTaus_ g ->
  hadTau_at g idxHadTau =
  Returned (record_of_entry g (Z.to_nat idxHadTau)).
Proof.
  unfold allocated; cbv zeta.
  intros (L1 & L2 & L3 & L4 & L5 & L6 & L7 & L8 & L9 & L10 & L11 & L12 &
          L13 & L14 & L15 & L16 & L17 & L18 & L19) Hidx.
  assert (Hn : (Z.to_nat idxHadTau < Z.to_nat (max_nHadTaus_ g))%nat)
    by lia.
  unfold hadTau_at, record_of_entry.
  rewrite (at_index_inside (hadTau_pt_ g) idxHadTau 0%float)
    by (rewrite ?L1; lia || apply Hidx).
  rewrite (at_index_inside (hadTau_eta_ g) idxHadTau 0%float)
    by (rewrite ?L2; lia || apply Hidx).
  rewrite (at_index_inside (hadTau_phi_ g) idxHadTau 0%float)
    by (rewrite ?L3; lia || apply Hidx).
  rewrite (at_index_inside (hadTau_mass_ g) idxHadTau 0%float)
    by (rewrite ?L4; lia || apply Hidx).
  rewrite (at_index_inside (hadTau_charge_ g) idxHadTau 0)
    by (rewrite ?L5; lia || apply Hidx).
  rewrite (at_index_inside (hadTau_dxy_ g) idxHadTau 0%float)
    by (rewrite ?L6; lia || apply Hidx).
  rewrite (at_index_inside (hadTau_dz_ g) idxHadTau 0%float)
    by (rewrite ?L7; lia || apply Hidx).
  rewrite (at_index_inside (hadTau_idDecayMode_ g) idxHadTau 0)
    by (rewrite ?L8; lia || apply Hidx).
  rewrite (at_index_inside (hadTau_idDecayModeNewDMs_ g) idxHadTau 0)
    by (rewrite ?L9; lia || apply Hidx).
  rewrite (at_index_inside (hadTau_idMVA_dR03_ g) idxHadTau 0)
    by (rewrite ?L10; lia || apply Hidx).
  rewrite (at_index_inside (hadTau_rawMVA_dR03_ g) idxHadTau 0%float)
    by (rewrite ?L11; lia || apply Hidx).
  rewrite (at_index_inside (hadTau_idMVA_dR05_ g) idxHadTau 0)
    by (rewrite ?L12; lia || apply Hidx).
  rewrite (at_index_inside (hadTau_rawMVA_dR05_ g) idxHadTau 0%float)
    by (rewrite ?L13; lia || apply Hidx).
  rewrite (at_index_inside (hadTau_idCombIso_dR03_ g) idxHadTau 0)
    by (rewrite ?L14; lia || apply Hidx).
  rewrite (at_index_inside (hadTau_rawCombIso_dR03_ g) idxHadTau 0%float)
    by (rewrite ?L15; lia || apply Hidx).
  rewrite (at_index_inside (hadTau_idCombIso_dR05_ g) idxHadTau 0)
    by (rewrite ?L16; lia || apply Hidx).
  rewrite (at_index_inside (hadTau_rawCombIso_dR05_ g) idxHadTau 0%float)
    by (rewrite ?L17; lia || apply Hidx).
  rewrite (at_index_inside (hadTau_idAgainstElec_ g) idxHadTau 0)
    by (rewrite ?L18; lia || apply Hidx).
  rewrite (at_index_inside (hadTau_idAgainstMu_ g) idxHadTau 0)
    by (rewrite ?L19; lia || apply Hidx).
  reflexivity.
Qed.

(** The loop, started at [idxHadTau] with [trips] iterations to go that
    stay inside the capacity, appends the records of the entries
    [idxHadTau], [idxHadTau + 1], ... in this order. *)
Lemma read_loop_inside (g : RecoHadTauReader) (trips : nat) :
  allocated g ->
  forall (idxHadTau : Z) (hadTaus : list RecoHadTau.RecoHadTau),
    0 <= idxHadTau -> idxHadTau + Z.of_nat trips <= max_nHadTaus_ g ->
    read_loop g trips idxHadTau hadTaus =
    Returned (hadTaus ++
              map (record_of_entry g) (seq (Z.to_nat idxHadTau) trips)).
Proof.
  intros Halloc. induction trips as [|trips IH]; intros idx acc Hlo Hhi.
  - simpl. rewrite app_nil_r. reflexivity.
  - cbn [read_loop].
    rewrite (hadTau_at_inside g idx Halloc) by lia.
    cbn [bind]. rewrite IH by lia.
    rewrite <- app_assoc. cbn [seq map app].
    replace (Z.to_nat (idx + 1)) with (S (Z.to_nat idx)) by lia.
    reflexivity.
Qed.

(** What [read] does for each stored count. *)
Lemma read_cases (instances_ : string -> option RecoHadTauReader)
  (this g : RecoHadTauReader) :
  instances_ (branchName_obj_ this) = Some g ->
  allocated g ->
  max_nHadTaus_ this <= max_nHadTaus_ g ->
  read instances_ this =
  if nHadTaus_ g >? max_nHadTaus_ this
  then Stopped (too_many (nHadTaus_ g) (max_nHadTaus_ this))
  else if nHadTaus_ g <? 0 then Stopped std_length_error
  else Returned (map (record_of_entry g)
                   (seq 0 (Z.to_nat (nHadTaus_ g)))).
Proof.
  intros Hreg Halloc Hcap. unfold read. rewrite Hreg. cbn [assert_nonnull bind].
  destruct (Z.gtb_spec (nHadTaus_ g) (max_nHadTaus_ this)) as [Hgt|Hle];
    [reflexivity|].
  unfold reserve.
  destruct (Z.ltb_spec (nHadTaus_ g) 0) as [Hneg|Hpos]; [reflexivity|].
  cbn [bind].
  rewrite (read_loop_inside g _ Halloc) by lia.
  rewrite Z.sub_0_r. reflexivity.
Qed.

(** C9. For a constructed reader (capacity 32) whose registered instance
    has its arrays allocated, [read] throws the [cms::Exception] with
    the message about the count exactly when the stored count exceeds
    32, and for a count (a number that is not negative) it stops at all
    exactly then: a count of 32 is accepted.  When the count is within
    the capacity, [read] returns exactly that many records, and record
    [i] is built from entry [i] of each array, for [i] from 0 up in
    order.  (A negative stored value is no count; [reserve] rejects it
    with a [std::length_error].) *)
Theorem read_capacity (instances_ : string -> option RecoHadTauReader)
  (this g : RecoHadTauReader) :
  max_nHadTaus_ this = 32 ->
  max_nHadTaus_ g = 32 ->
  instances_ (branchName_obj_ this) = Some g ->
  allocated g ->
  (read instances_ this = Stopped (too_many (nHadTaus_ g) 32) <->
   32 < nHadTaus_ g) /\
  (0 <= nHadTaus_ g ->
   ((exists f : fault, read instances_ this = Stopped f) <->
    32 < nHadTaus_ g)) /\
  (0 <= nHadTaus_ g <= 32 ->
   exists hadTaus : list RecoHadTau.RecoHadTau,
     read instances_ this = Returned hadTaus /\
     List.length hadTaus = Z.to_nat (nHadTaus_ g) /\
     hadTaus = map (record_of_entry g) (seq 0 (Z.to_nat (nHadTaus_ g))) /\
     forall i : nat,
       (i < Z.to_nat (nHadTaus_ g))%nat ->
       nth_error hadTaus i = Some (record_of_entry g i)) /\
  (nHadTaus_ g < 0 -> read instances_ this = Stopped std_length_error).
Proof.
  intros Hthis Hg Hreg Halloc.
  assert (E := read_cases instances_ this g Hreg Halloc ltac:(lia)).
  rewrite Hthis in E.
  destruct (Z.gtb_spec (nHadTaus_ g) 32) as [Hgt|Hle].
  - rewrite E. split; [|split; [|split]].
    + split; [intros _; exact Hgt|reflexivity].
    + intros _. split; [intros _; exact Hgt|]. intros _. eexists. reflexivity.
    + intros Hn. lia.
    + intros Hn. lia.
  - destruct (Z.ltb_spec (nHadTaus_ g) 0) as [Hneg|Hpos].
    + rewrite E. split; [|split; [|split]].
      * split; [discriminate|lia].
      * intros Hn. lia.
      * intros Hn. lia.
      * intros _. reflexivity.
    + rewrite E. split; [|split; [|split]].
      * split; [discriminate|lia].
      * intros _. split; [intros [f Hf]; discriminate Hf|lia].
      * intros _. eexists. split; [reflexivity|].
        split; [rewrite length_map, length_seq; reflexivity|].
        split; [reflexivity|].
        intros i Hi.
        rewrite nth_error_map, nth_error_seq.
        destruct (Nat.ltb_spec i (Z.to_nat (nHadTaus_ g))) as [_|Hge];
          [reflexivity|lia].
      * intros Hn. lia.
Qed.

(** An event with two hadronic taus is read as two records. *)
Lemma read_capacity_witness :
  exists hadTaus : list RecoHadTau.RecoHadTau,
    read (example_instances 2) (example_reader 2) = Returned hadTaus /\
    List.length hadTaus = 2%nat.
Proof.
  destruct (read_capacity (example_instances 2) (example_reader 2)
              (example_reader 2)) as (_ & _ & Hok & _).
  - reflexivity.
  - reflexivity.
  - reflexivity.
  - unfold allocated. cbv zeta. repeat split.
  - destruct Hok as (hadTaus & Hread & Hlen & _).
    + simpl. lia.
    + exists hadTaus. split; [exact Hread|exact Hlen].
Defined.

End RecoHadTauReaderFacts.

(* ================================================================= *)
(** * Further properties of the sources *)

(* ================================================================= *)
(** ** Numbers and NaN *)

(** Comparisons are total on numbers (the binary64 values other than
    NaN), and an absolute value forgets the sign. *)
Module DoubleNumberFacts.

#[local] Open Scope float_scope.

Lemma SFcompare_none (a b : spec_float) :
  SFcompare a b = None -> a = S754_nan \/ b = S754_nan.
Proof.
  destruct a as [sa|sa| |sa ma ea], b as [sb|sb| |sb mb eb]; simpl;
    try discriminate; auto.
Qed.

Lemma SFcompare_self (a : spec_float) :
  a <> S754_nan -> SFcompare a a = Some Eq.
Proof.
  destruct a as [sa|sa| |sa ma ea]; simpl; intros Hn;
    try reflexivity; try congruence.
  - destruct sa; reflexivity.
  - rewrite Z.compare_refl.
    change (Pos.compare_cont Eq ma ma) with (ma ?= ma)%positive.
    rewrite Pos.compare_refl. destruct sa; reflexivity.
Qed.

Lemma is_nan_false (x : float) :
  PrimFloat.is_nan x = false <-> Prim2SF x <> S754_nan.
Proof.
  unfold PrimFloat.is_nan. rewrite negb_false_iff, eqb_spec. unfold SFeqb.
  split.
  - intros H E. rewrite E in H. discriminate.
  - intros H. rewrite (SFcompare_self _ H). reflexivity.
Qed.

(** Whatever takes part in a successful comparison is a number. *)
Lemma leb_numbers (a b : float) :
  PrimFloat.leb a b = true ->
  PrimFloat.is_nan a = false /\ PrimFloat.is_nan b = false.
Proof.
  rewrite leb_spec, !is_nan_false. unfold SFleb. intros H.
  split; intros E; rewrite E in H; simpl in H;
    [|destruct (Prim2SF a)]; discriminate.
Qed.

Lemma ltb_numbers (a b : float) :
  PrimFloat.ltb a b = true ->
  PrimFloat.is_nan a = false /\ PrimFloat.is_nan b = false.
Proof.
  rewrite ltb_spec, !is_nan_false. unfold SFltb. intros H.
  split; intros E; rewrite E in H; simpl in H;
    [|destruct (Prim2SF a)]; discriminate.
Qed.

(** Of two numbers, the first is below the second or the second is at
    or below the first. *)
Lemma ltb_total (a b : float) :
  PrimFloat.is_nan a = false -> PrimFloat.is_nan b = false ->
  PrimFloat.ltb a b = false -> PrimFloat.leb b a = true.
Proof.
  rewrite !is_nan_false, ltb_spec, leb_spec. unfold SFltb, SFleb.
  intros Ha Hb.
  rewrite (DoubleFacts.SFcompare_antisym (Prim2SF a) (Prim2SF b)).
  destruct (SFcompare (Prim2SF a) (Prim2SF b)) as [[]|] eqn:E; simpl;
    try reflexivity; try discriminate.
  destruct (SFcompare_none _ _ E); contradiction.
Qed.

(** [std::fabs(-x)] is [std::fabs(x)]. *)
Lemma fabs_opp (x : float) : Double.fabs (- x) = Double.fabs x.
Proof.
  unfold Double.fabs. apply Prim2SF_inj.
  rewrite !abs_spec, opp_spec.
  destruct (Prim2SF x); reflexivity.
Qed.

(** [std::max] of two numbers exceeds a bound exactly when one of them
    does. *)
Lemma max_gtb (a b c : float) :
  PrimFloat.is_nan a = false -> PrimFloat.is_nan b = false ->
  Double.gtb (Double.max a b) c = Double.gtb a c || Double.gtb b c.
Proof.
  intros Ha Hb. unfold Double.max, Double.gtb.
  destruct (PrimFloat.ltb a b) eqn:Hab.
  - destruct (PrimFloat.ltb c a) eqn:Hca; [|reflexivity].
    rewrite (DoubleFacts.ltb_trans _ _ _ Hca Hab). reflexivity.
  - destruct (PrimFloat.ltb c b) eqn:Hcb; [|rewrite orb_false_r; reflexivity].
    assert (Hba := ltb_total a b Ha Hb Hab).
    rewrite (DoubleFacts.ltb_leb_trans _ _ _ Hcb Hba). reflexivity.
Qed.

End DoubleNumberFacts.

(* ================================================================= *)
(** ** More on the correction engine *)

Module CorrectionsMoreFacts.

Import Corrections.
#[local] Open Scope float_scope.

Section Engine.

Context `{LeptonTypes} `{LoadedTables}.

(** X1. The two-lepton scale factors are built from the one-lepton
    ones: when the one-lepton loose (tight-to-loose) factors of the two
    leptons return [l1] and [l2] ([r1] and [r2]), the two-lepton loose
    (tight-to-loose) factor returns [l1 * l2] ([r1 * r2]), the
    two-lepton tight factor returns [(l1 * l2) * (r1 * r2)] and the
    fakeable one [(l1 * l2) * 1].  When the loose factor of the first
    lepton stops, the two-lepton loose, tight and fakeable factors stop
    in the same way, whatever the second lepton is. *)
Theorem two_lepton_factors_multiply
  (t1 : Z) (pt1 eta1 : float) (t2 : Z) (pt2 eta2 : float) :
  (forall l1 l2 : float,
     sf_leptonID_and_Iso_loose_1 t1 pt1 eta1 = Returned l1 ->
     sf_leptonID_and_Iso_loose_1 t2 pt2 eta2 = Returned l2 ->
     sf_leptonID_and_Iso_loose_2 t1 pt1 eta1 t2 pt2 eta2
     = Returned (l1 * l2)) /\
  (forall r1 r2 : float,
     sf_leptonID_and_Iso_tight_to_loose_1 t1 pt1 eta1 = Returned r1 ->
     sf_leptonID_and_Iso_tight_to_loose_1 t2 pt2 eta2 = Returned r2 ->
     sf_leptonID_and_Iso_tight_to_loose_2 t1 pt1 eta1 t2 pt2 eta2
     = Returned (r1 * r2)) /\
  (forall l1 l2 r1 r2 : float,
     sf_leptonID_and_Iso_loose_1 t1 pt1 eta1 = Returned l1 ->
     sf_leptonID_and_Iso_loose_1 t2 pt2 eta2 = Returned l2 ->
     sf_leptonID_and_Iso_tight_to_loose_1 t1 pt1 eta1 = Returned r1 ->
     sf_leptonID_and_Iso_tight_to_loose_1 t2 pt2 eta2 = Returned r2 ->
     sf_leptonID_and_Iso_tight_2 t1 pt1 eta1 t2 pt2 eta2
     = Returned ((l1 * l2) * (r1 * r2)) /\
     sf_leptonID_and_Iso_fakeable_2 t1 pt1 eta1 t2 pt2 eta2
     = Returned ((l1 * l2) * 1.0)) /\
  (forall f : fault,
     sf_leptonID_and_Iso_loose_1 t1 pt1 eta1 = Stopped f ->
     sf_leptonID_and_Iso_loose_2 t1 pt1 eta1 t2 pt2 eta2 = Stopped f /\
     sf_leptonID_and_Iso_tight_2 t1 pt1 eta1 t2 pt2 eta2 = Stopped f /\
     sf_leptonID_and_Iso_fakeable_2 t1 pt1 eta1 t2 pt2 eta2 = Stopped f).
Proof.
  assert (Hloose : forall l1 l2 : float,
            sf_leptonID_and_Iso_loose_1 t1 pt1 eta1 = Returned l1 ->
            sf_leptonID_and_Iso_loose_1 t2 pt2 eta2 = Returned l2 ->
            sf_leptonID_and_Iso_loose_2 t1 pt1 eta1 t2 pt2 eta2
            = Returned (l1 * l2)).
  { intros l1 l2 E1 E2. unfold sf_leptonID_and_Iso_loose_2.
    unfold sf_leptonID_and_Iso_loose_1 in E1, E2.
    rewrite E1, E2. reflexivity. }
  assert (Htl : forall r1 r2 : float,
            sf_leptonID_and_Iso_tight_to_loose_1 t1 pt1 eta1 = Returned r1 ->
            sf_leptonID_and_Iso_tight_to_loose_1 t2 pt2 eta2 = Returned r2 ->
            sf_leptonID_and_Iso_tight_to_loose_2 t1 pt1 eta1 t2 pt2 eta2
            = Returned (r1 * r2)).
  { intros r1 r2 E1 E2. unfold sf_leptonID_and_Iso_tight_to_loose_2.
    unfold sf_leptonID_and_Iso_tight_to_loose_1 in E1, E2.
    rewrite E1, E2. reflexivity. }
  split; [exact Hloose|]. split; [exact Htl|]. split.
  - intros l1 l2 r1 r2 Hl1 Hl2 Hr1 Hr2.
    unfold sf_leptonID_and_Iso_tight_2, sf_leptonID_and_Iso_fakeable_2.
    rewrite (Hloose l1 l2 Hl1 Hl2), (Htl r1 r2 Hr1 Hr2).
    split; reflexivity.
  - intros f Hf.
    assert (E : sf_leptonID_and_Iso_loose_2 t1 pt1 eta1 t2 pt2 eta2
                = Stopped f).
    { unfold sf_leptonID_and_Iso_loose_2.
      unfold sf_leptonID_and_Iso_loose_1 in Hf. rewrite Hf. reflexivity. }
    unfold sf_leptonID_and_Iso_tight_2, sf_leptonID_and_Iso_fakeable_2.
    rewrite E. repeat split.
Qed.








(** The six literals of the charge-misidentification table. *)
Lemma electron_in_range_cases (pt eta : float) :
  Double.geb pt 10 = true ->
  PrimFloat.ltb (Double.fabs eta) 2.5 = true ->
  prob_chargeMisId kElectron pt eta = Returned 0.0301 \/
  prob_chargeMisId kElectron pt eta = Returned 0.0287 \/
  prob_chargeMisId kElectron pt eta = Returned 0.0293 \/
  prob_chargeMisId kElectron pt eta = Returned 0.1728 \/
  prob_chargeMisId kElectron pt eta = Returned 0.1974 \/
  prob_chargeMisId kElectron pt eta = Returned 0.3457.
Proof.
  intros Hpt Heta. unfold prob_chargeMisId. rewrite Z.eqb_refl.
  destruct (DoubleNumberFacts.leb_numbers _ _ Hpt) as [_ Npt].
  destruct (DoubleNumberFacts.ltb_numbers _ _ Heta) as [Neta _].
  assert (Hbins :
            Double.geb pt 10.0 && PrimFloat.ltb pt 25 = true \/
            (Double.geb pt 10.0 && PrimFloat.ltb pt 25 = false /\
             Double.geb pt 25.0 && PrimFloat.ltb pt 50 = true) \/
            (Double.geb pt 10.0 && PrimFloat.ltb pt 25 = false /\
             Double.geb pt 25.0 && PrimFloat.ltb pt 50 = false /\
             Double.geb pt 50.0 = true)).
  { assert (D25 : PrimFloat.ltb pt 25 = true \/ PrimFloat.ltb pt 25 = false)
      by (destruct (PrimFloat.ltb pt 25); auto).
    assert (D50 : PrimFloat.ltb pt 50 = true \/ PrimFloat.ltb pt 50 = false)
      by (destruct (PrimFloat.ltb pt 50); auto).
    destruct D25 as [H25|H25].
    - left. apply CorrectionsFacts.pt_bin_1; assumption.
    - assert (G25 : Double.geb pt 25 = true)
        by (apply DoubleNumberFacts.ltb_total; [exact Npt|reflexivity|exact H25]).
      destruct D50 as [H50|H50].
      + right; left. apply CorrectionsFacts.pt_bin_2; assumption.
      + right; right. apply CorrectionsFacts.pt_bin_3.
        apply DoubleNumberFacts.ltb_total;
          [exact Npt|reflexivity|exact H50]. }
  assert (Dreg : PrimFloat.ltb (Double.fabs eta) 1.479 = true \/
                 PrimFloat.ltb (Double.fabs eta) 1.479 = false)
    by (destruct (PrimFloat.ltb (Double.fabs eta) 1.479); auto).
  destruct Dreg as [Hreg|Hreg].
  - rewrite (CorrectionsFacts.eta_barrel eta Hreg).
    destruct Hbins as [-> | [[-> ->] | (-> & -> & ->)]]; tauto.
  - assert (Hlo : Double.geb (Double.fabs eta) 1.479 = true)
      by (apply DoubleNumberFacts.ltb_total;
          [exact Neta|reflexivity|exact Hreg]).
    destruct (CorrectionsFacts.eta_endcap eta Hlo Heta) as [-> ->].
    destruct Hbins as [-> | [[-> ->] | (-> & -> & ->)]]; tauto.
Qed.

Lemma electron_out_of_range (pt eta : float) :
  Double.geb pt 10 = false \/ PrimFloat.ltb (Double.fabs eta) 2.5 = false ->
  prob_chargeMisId kElectron pt eta = Returned 1.0.
Proof.
  unfold prob_chargeMisId. rewrite Z.eqb_refl. intros [Hpt|Heta].
  - destruct (CorrectionsFacts.pt_below_bins pt Hpt) as (-> & -> & ->).
    destruct (_ && _); [reflexivity|]. destruct (_ && _); reflexivity.
  - destruct (CorrectionsFacts.eta_outside eta Heta) as [-> ->].
    reflexivity.
Qed.

(** X4. The bins of the charge-misidentification table leave no gap:
    an electron with [pT >= 10] and [|eta| < 2.5] always gets one of
    the six tabulated probabilities, all below 1, and an electron gets a
    value below 1 only there.  For an electron or a muon the function
    always returns, and what it returns is above 0 and at most 1. *)
Theorem charge_misid_table_has_no_gaps :
  (forall pt eta : float,
     Double.geb pt 10 = true ->
     PrimFloat.ltb (Double.fabs eta) 2.5 = true ->
     exists p : float,
       prob_chargeMisId kElectron pt eta = Returned p /\
       In p [0.0301; 0.0287; 0.0293; 0.1728; 0.1974; 0.3457] /\
       PrimFloat.ltb p 1 = true) /\
  (forall pt eta p : float,
     prob_chargeMisId kElectron pt eta = Returned p ->
     (PrimFloat.ltb p 1 = true <->
      Double.geb pt 10 = true /\
      PrimFloat.ltb (Double.fabs eta) 2.5 = true)) /\
  (forall (t : Z) (pt eta : float),
     t = kElectron \/ t = kMuon ->
     exists p : float,
       prob_chargeMisId t pt eta = Returned p /\
       PrimFloat.ltb 0 p = true /\ PrimFloat.leb p 1 = true).
Proof.
  assert (Hin : forall pt eta : float,
            Double.geb pt 10 = true ->
            PrimFloat.ltb (Double.fabs eta) 2.5 = true ->
            exists p : float,
              prob_chargeMisId kElectron pt eta = Returned p /\
              In p [0.0301; 0.0287; 0.0293; 0.1728; 0.1974; 0.3457] /\
              PrimFloat.ltb p 1 = true).
  { intros pt eta Hpt Heta.
    destruct (electron_in_range_cases pt eta Hpt Heta)
      as [E|[E|[E|[E|[E|E]]]]]; rewrite E; eexists;
      (split; [reflexivity|]); (split; [simpl; tauto|reflexivity]). }
  assert (Hel : forall pt eta : float,
            exists p : float,
              prob_chargeMisId kElectron pt eta = Returned p /\
              PrimFloat.ltb 0 p = true /\ PrimFloat.leb p 1 = true).
  { intros pt eta.
    destruct (Double.geb pt 10) eqn:Hpt;
      [destruct (PrimFloat.ltb (Double.fabs eta) 2.5) eqn:Heta|].
    - destruct (electron_in_range_cases pt eta Hpt Heta)
        as [E|[E|[E|[E|[E|E]]]]]; rewrite E; eexists;
        (split; [reflexivity|]); split; reflexivity.
    - rewrite (electron_out_of_range pt eta (or_intror Heta)).
      eexists. split; [reflexivity|]. split; reflexivity.
    - rewrite (electron_out_of_range pt eta (or_introl Hpt)).
      eexists. split; [reflexivity|]. split; reflexivity. }
  split; [exact Hin|]. split.
  - intros pt eta p Hp. split.
    + intros Hlt.
      destruct (Double.geb pt 10) eqn:Hpt;
        [destruct (PrimFloat.ltb (Double.fabs eta) 2.5) eqn:Heta|].
      * split; reflexivity.
      * rewrite (electron_out_of_range pt eta (or_intror Heta)) in Hp.
        injection Hp as <-. discriminate Hlt.
      * rewrite (electron_out_of_range pt eta (or_introl Hpt)) in Hp.
        injection Hp as <-. discriminate Hlt.
    + intros [Hpt Heta].
      destruct (Hin pt eta Hpt Heta) as (q & Hq & _ & Hlt).
      rewrite Hq in Hp. injection Hp as <-. exact Hlt.
  - intros t pt eta [->| ->]; [apply Hel|].
    destruct (Z.eq_dec kMuon kElectron) as [E|Hne].
    + rewrite E. apply Hel.
    + unfold prob_chargeMisId.
      apply Z.eqb_neq in Hne. rewrite Hne, Z.eqb_refl.
      eexists. split; [reflexivity|]. split; reflexivity.
Qed.

(** X5. The charge-misidentification probability depends on [eta] only
    through [|eta|]: it is the same at [-eta] and at [eta], for every
    lepton type. *)
Theorem charge_misid_is_even_in_eta (t : Z) (pt eta : float) :
  prob_chargeMisId t pt (- eta) = prob_chargeMisId t pt eta.
Proof.
  unfold prob_chargeMisId. rewrite DoubleNumberFacts.fabs_opp. reflexivity.
Qed.

(** X6. For two leptons whose [pT] are numbers the trigger-efficiency
    scale factor does not depend on the order of the leptons (nor on
    any [eta]); for two electrons it is 0.99 exactly when one of the
    two has [pT > 40], that is, when the one-lepton factor of one of
    them is 0.99.  With a NaN the order matters, because [std::max]
    returns its first argument when the comparison fails. *)
Theorem trigger_efficiency_exchange
  (t1 : Z) (pt1 eta1 : float) (t2 : Z) (pt2 eta2 : float) :
  PrimFloat.is_nan pt1 = false -> PrimFloat.is_nan pt2 = false ->
  (forall eta1' eta2' : float,
     sf_triggerEff_2 t2 pt2 eta2' t1 pt1 eta1'
     = sf_triggerEff_2 t1 pt1 eta1 t2 pt2 eta2) /\
  sf_triggerEff_2 kElectron pt1 eta1 kElectron pt2 eta2
  = (if Double.gtb pt1 40 || Double.gtb pt2 40 then 0.99 else 0.95) /\
  (sf_triggerEff_2 kElectron pt1 eta1 kElectron pt2 eta2 = 0.99 <->
   sf_triggerEff_1 kElectron pt1 eta1 = 0.99 \/
   sf_triggerEff_1 kElectron pt2 eta2 = 0.99) /\
  sf_triggerEff_2 kElectron nan eta1 kElectron 50 eta2 = 0.95 /\
  sf_triggerEff_2 kElectron 50 eta1 kElectron nan eta2 = 0.99.
Proof.
  intros N1 N2.
  assert (Hee : sf_triggerEff_2 kElectron pt1 eta1 kElectron pt2 eta2
                = (if Double.gtb pt1 40 || Double.gtb pt2 40
                   then 0.99 else 0.95)).
  { unfold sf_triggerEff_2. rewrite Z.eqb_refl.
    rewrite (DoubleNumberFacts.max_gtb pt1 pt2 40 N1 N2). reflexivity. }
  split; [|split; [exact Hee|split; [|split]]].
  - intros eta1' eta2'. unfold sf_triggerEff_2.
    rewrite (DoubleNumberFacts.max_gtb pt1 pt2 40.0 N1 N2).
    rewrite (DoubleNumberFacts.max_gtb pt2 pt1 40.0 N2 N1).
    rewrite (orb_comm (Double.gtb pt2 40.0)).
    rewrite (andb_comm (t2 =? kElectron)%Z), (andb_comm (t2 =? kMuon)%Z).
    reflexivity.
  - rewrite Hee. unfold sf_triggerEff_1. rewrite Z.eqb_refl.
    assert (Hne : 0.95 <> 0.99).
    { intros E. apply (f_equal (fun x => PrimFloat.ltb x 0.96)) in E.
      discriminate E. }
    destruct (Double.gtb pt1 40), (Double.gtb pt2 40); simpl;
      intuition congruence.
  - unfold sf_triggerEff_2. rewrite Z.eqb_refl. reflexivity.
  - unfold sf_triggerEff_2. rewrite Z.eqb_refl. reflexivity.
Qed.

(** X7. The trigger-efficiency scale factor never stops and takes one
    of four values, for every input (unrecognized types and NaN
    included); so it lies between 0.95 and 1. *)
Theorem trigger_efficiency_values :
  (forall (t : Z) (pt eta : float),
     In (sf_triggerEff_1 t pt eta) [0.99; 0.95; 0.98; 1.00] /\
     PrimFloat.leb 0.95 (sf_triggerEff_1 t pt eta) = true /\
     PrimFloat.leb (sf_triggerEff_1 t pt eta) 1 = true) /\
  (forall (t1 : Z) (pt1 eta1 : float) (t2 : Z) (pt2 eta2 : float),
     In (sf_triggerEff_2 t1 pt1 eta1 t2 pt2 eta2) [0.99; 0.95; 0.98; 1.00] /\
     PrimFloat.leb 0.95 (sf_triggerEff_2 t1 pt1 eta1 t2 pt2 eta2) = true /\
     PrimFloat.leb (sf_triggerEff_2 t1 pt1 eta1 t2 pt2 eta2) 1 = true).
Proof.
  split.
  - intros t pt eta. unfold sf_triggerEff_1.
    destruct (t =? kElectron)%Z; [destruct (Double.gtb pt 40.0)|
      destruct (t =? kMuon)%Z]; simpl; (split; [tauto|split; reflexivity]).
  - intros t1 pt1 eta1 t2 pt2 eta2. unfold sf_triggerEff_2.
    destruct ((t1 =? kElectron)%Z && (t2 =? kElectron)%Z);
      [destruct (Double.gtb (Double.max pt1 pt2) 40.0)|
       destruct ((t1 =? kMuon)%Z && (t2 =? kMuon)%Z)]; simpl;
      (split; [tauto|split; reflexivity]).
Qed.

End Engine.

(** In the example setting two barrel electrons have the loose factor
    0.25 each, and the pair has their product. *)
Lemma two_lepton_factors_multiply_witness :
  @sf_leptonID_and_Iso_loose_2 example_types example_service example_tables
    0 30 1.0 0 20 0.5 = Returned (0.25 * 0.25).
Proof.
  destruct (@two_lepton_factors_multiply example_types example_service
              example_tables 0 30 1.0 0 20 0.5) as (Hloose & _).
  apply Hloose; reflexivity.
Defined.

(** An electron of [pT = 30] at [eta = 1] is inside the table. *)
Lemma charge_misid_table_has_no_gaps_witness :
  exists p : float,
    @prob_chargeMisId example_types 0 30 1.0 = Returned p /\
    PrimFloat.ltb p 1 = true.
Proof.
  destruct (@charge_misid_table_has_no_gaps example_types) as (Hin & _).
  destruct (Hin 30 1.0) as (p & Hp & _ & Hlt); [reflexivity|reflexivity|].
  exists p. split; assumption.
Defined.

(** Two electrons of [pT] 30 and 45, in either order. *)
Lemma trigger_efficiency_exchange_witness :
  @sf_triggerEff_2 example_types 0 45 0 0 30 0
  = @sf_triggerEff_2 example_types 0 30 0 0 45 0.
Proof.
  destruct (@trigger_efficiency_exchange example_types 0 30 0 0 45 0)
    as (Hswap & _); [reflexivity|reflexivity|].
  apply Hswap.
Defined.

End CorrectionsMoreFacts.

(* ================================================================= *)
(** ** More on the selectors *)

Module SelectorMoreFacts.

#[local] Open Scope float_scope.

(** X8. The secondary cuts of the fakeable muon selector are the
    tighter ones in the bin of the high scores: a muon that is accepted
    with a lepton-MVA score at or above 0.75 is accepted with any other
    score, all else equal.  The converse fails: with [jetPtRatio] 0.29
    the muon is rejected at score 0.75 and accepted at 0.749. *)
Theorem high_score_faces_the_tighter_cuts :
  (forall (m : RecoMuon.RecoMuon) (score : float),
     Double.geb (RecoMuon.mvaRawTTH_ m) 0.75 = true ->
     RecoMuonSelectorFakeable.call RecoMuonSelectorFakeable.new m
     = Returned true ->
     RecoMuonSelectorFakeable.call RecoMuonSelectorFakeable.new
       (Variation.muon_with_score m score) = Returned true) /\
  RecoMuonSelectorFakeable.call RecoMuonSelectorFakeable.new
    (RecoMuonSelectorFakeable.synthetic 0.75 0.29 0.605) = Returned false /\
  RecoMuonSelectorFakeable.call RecoMuonSelectorFakeable.new
    (Variation.muon_with_score
       (RecoMuonSelectorFakeable.synthetic 0.75 0.29 0.605) 0.749)
  = Returned true.
Proof.
  split; [|split; vm_compute; reflexivity].
  intros m score Hhigh.
  rewrite !RecoMuonSelectorFakeableFacts.call_default.
  change (RecoMuonSelectorFakeable.primary_cuts RecoMuonSelectorFakeable.new
            (Variation.muon_with_score m score))
    with (RecoMuonSelectorFakeable.primary_cuts
            RecoMuonSelectorFakeable.new m).
  cbn [Variation.muon_with_score RecoMuon.mvaRawTTH_ RecoMuon.jetPtRatio_
       RecoMuon.jetBtagCSV_].
  rewrite Hhigh. intros E. injection E as E.
  apply andb_prop in E. destruct E as [Eprim E].
  apply andb_prop in E. destruct E as [Eratio Ebtag].
  rewrite Eprim, Eratio, Ebtag.
  destruct (Double.geb score 0.75); [reflexivity|].
  unfold Double.geb in *.
  rewrite (DoubleFacts.leb_trans (-1.0e+3) 0.30 _ eq_refl Eratio).
  rewrite (DoubleFacts.leb_trans _ 0.605 0.89 Ebtag eq_refl).
  reflexivity.
Qed.

Lemma high_score_faces_the_tighter_cuts_witness :
  RecoMuonSelectorFakeable.call RecoMuonSelectorFakeable.new
    (Variation.muon_with_score
       (RecoMuonSelectorFakeable.synthetic 0.8 0.5 0.3) 0.1)
  = Returned true.
Proof.
  destruct high_score_faces_the_tighter_cuts as (Hhigh & _).
  apply Hhigh; reflexivity.
Defined.

(** X9. The fakeable muon selector reads the impact parameters through
    their absolute values: for every configuration of the thresholds,
    the outcome is the same for a muon and for the muon with [dxy] and
    [dz] of the opposite sign. *)
Theorem muon_selector_ignores_impact_signs
  (sel : RecoMuonSelectorFakeable.RecoMuonSelectorFakeable)
  (m : RecoMuon.RecoMuon) :
  RecoMuonSelectorFakeable.call sel
    (Variation.muon_with_impact m (- RecoMuon.dxy_ m) (- RecoMuon.dz_ m))
  = RecoMuonSelectorFakeable.call sel m.
Proof.
  unfold RecoMuonSelectorFakeable.call, RecoMuonSelectorFakeable.idxBin,
    RecoMuonSelectorFakeable.primary_cuts.
  cbn [Variation.muon_with_impact RecoMuon.pt_ RecoMuon.absEta_
       RecoMuon.dxy_ RecoMuon.dz_ RecoMuon.relIso_ RecoMuon.sip3d_
       RecoMuon.passesLooseIdPOG_ RecoMuon.passesMediumIdPOG_
       RecoMuon.tightCharge_ RecoMuon.mvaRawTTH_ RecoMuon.jetPtRatio_
       RecoMuon.jetBtagCSV_].
  rewrite !DoubleNumberFacts.fabs_opp. reflexivity.
Qed.

(** X10. The tight hadronic-tau selector reads [dz] through its
    absolute value: for every configuration of the thresholds, the
    verdict is the same for a tau and for the tau with [dz] of the
    opposite sign. *)
Theorem hadTau_selector_ignores_dz_sign
  (sel : RecoHadTauSelectorTight.RecoHadTauSelectorTight)
  (t : RecoHadTau.RecoHadTau) :
  RecoHadTauSelectorTight.call sel
    (Variation.hadTau_with_dz t (- RecoHadTau.dz_ t))
  = RecoHadTauSelectorTight.call sel t.
Proof.
  unfold RecoHadTauSelectorTight.call.
  cbn [Variation.hadTau_with_dz RecoHadTau.pt_ RecoHadTau.absEta_
       RecoHadTau.dz_ RecoHadTau.decayModeFinding_ RecoHadTau.id_mva_dR03_
       RecoHadTau.raw_mva_dR03_ RecoHadTau.id_mva_dR05_
       RecoHadTau.raw_mva_dR05_ RecoHadTau.id_cut_dR03_
       RecoHadTau.raw_cut_dR03_ RecoHadTau.id_cut_dR05_
       RecoHadTau.raw_cut_dR05_ RecoHadTau.antiElectron_
       RecoHadTau.antiMuon_].
  rewrite DoubleNumberFacts.fabs_opp. reflexivity.
Qed.

End SelectorMoreFacts.

(* ================================================================= *)
(** ** More on the collection selector *)

Module CollectionMoreFacts.

Import ParticleCollectionSelector ParticleCollectionSelectors.

Section Template.

Variable Tobj : Type.
Variable deref : pointer -> Tobj.

(** The loop computes the filter of the collection. *)
Lemma call_filter (Tsel : Type) (selector_call : Tsel -> Tobj -> bool)
  (selector_ : Tsel) (particles : list pointer) :
  call Tobj Tsel selector_call deref selector_ particles =
  filter (fun particle => selector_call selector_ (deref particle))
    particles.
Proof.
  unfold call.
  rewrite (ParticleCollectionSelectorFacts.loop_appends
             Tobj Tsel selector_call deref selector_).
  reflexivity.
Qed.

Lemma filter_filter (f g : pointer -> bool) (l : list pointer) :
  filter f (filter g l) = filter (fun p => g p && f p) l.
Proof.
  induction l as [|p l IH]; simpl; [reflexivity|].
  destruct (g p); simpl; [destruct (f p)|]; rewrite IH; reflexivity.
Qed.

(** X11. Selections compose.  Selecting again with the same selector
    changes nothing; selecting with one selector and then with another
    gives the same collection in either order, namely the pointers of
    the input whose object both selectors accept. *)
Theorem selections_compose
  (Tsel1 Tsel2 : Type) (call1 : Tsel1 -> Tobj -> bool)
  (call2 : Tsel2 -> Tobj -> bool) (sel1 : Tsel1) (sel2 : Tsel2)
  (particles : list pointer) :
  call Tobj Tsel1 call1 deref sel1
    (call Tobj Tsel1 call1 deref sel1 particles)
  = call Tobj Tsel1 call1 deref sel1 particles /\
  call Tobj Tsel2 call2 deref sel2
    (call Tobj Tsel1 call1 deref sel1 particles)
  = call Tobj Tsel1 call1 deref sel1
      (call Tobj Tsel2 call2 deref sel2 particles) /\
  (forall p : pointer,
     In p (call Tobj Tsel2 call2 deref sel2
             (call Tobj Tsel1 call1 deref sel1 particles)) <->
     In p particles /\
     call1 sel1 (deref p) = true /\ call2 sel2 (deref p) = true).
Proof.
  rewrite !call_filter, !filter_filter.
  split; [|split].
  - apply filter_ext. intros p. apply andb_diag.
  - apply filter_ext. intros p. apply andb_comm.
  - intros p. rewrite filter_In, andb_true_iff. reflexivity.
Qed.

(** X12. The selection of a collection made of two parts is the
    selection of the first part followed by that of the second; the
    result is never longer than the input, and has no pointer twice
    when the input has none twice. *)
Theorem selection_by_parts
  (Tsel : Type) (selector_call : Tsel -> Tobj -> bool) (selector_ : Tsel)
  (particles1 particles2 : list pointer) :
  call Tobj Tsel selector_call deref selector_ (particles1 ++ particles2)
  = call Tobj Tsel selector_call deref selector_ particles1 ++
    call Tobj Tsel selector_call deref selector_ particles2 /\
  List.length (call Tobj Tsel selector_call deref selector_ particles1)
  <= List.length particles1 /\
  (NoDup particles1 ->
   NoDup (call Tobj Tsel selector_call deref selector_ particles1)).
Proof.
  rewrite !call_filter. split; [apply filter_app|]. split.
  - apply filter_length_le.
  - apply NoDup_filter.
Qed.

(** The loop for a selector that can stop: when every call of the
    selector returns, so does the loop, with the filter of the
    collection by the verdicts. *)
Lemma loop_stopping_returns (Tsel : Type)
  (selector_call : Tsel -> Tobj -> outcome bool) (verdict : Tobj -> bool)
  (selector_ : Tsel) :
  (forall obj : Tobj, selector_call selector_ obj = Returned (verdict obj)) ->
  forall particles selParticles : list pointer,
    loop_stopping Tobj Tsel selector_call deref selector_
      particles selParticles
    = Returned (selParticles ++
                filter (fun p => verdict (deref p)) particles).
Proof.
  intros Hret. induction particles as [|p rest IH]; intros acc; simpl.
  - rewrite app_nil_r. reflexivity.
  - rewrite Hret. cbn [bind]. rewrite IH.
    destruct (verdict (deref p)); [rewrite <- app_assoc|]; reflexivity.
Qed.

(** X13. With a selector whose call can stop, the selection stops at
    the first object, in the order of the collection, on which the
    selector stops, and with the selector's fault; the objects after it
    are not looked at.  When the selector returns on every object of
    the collection before that one, nothing else is needed. *)
Theorem selection_stops_with_the_selector
  (Tsel : Type) (selector_call : Tsel -> Tobj -> outcome bool)
  (selector_ : Tsel) (before after : list pointer) (culprit : pointer)
  (f : fault) :
  (forall p : pointer,
     In p before -> returns (selector_call selector_ (deref p))) ->
  selector_call selector_ (deref culprit) = Stopped f ->
  call_stopping Tobj Tsel selector_call deref selector_
    (before ++ culprit :: after) = Stopped f.
Proof.
  intros Hbefore Hculprit. unfold call_stopping.
  generalize (@nil pointer) as acc.
  induction before as [|p rest IH]; intros acc; simpl.
  - rewrite Hculprit. reflexivity.
  - destruct (Hbefore p (or_introl eq_refl)) as [b Hb]. rewrite Hb.
    cbn [bind]. apply IH. intros q Hq. apply Hbefore. right. exact Hq.
Qed.

End Template.

(** A selector that stops on the object at address 2. *)
Lemma selection_stops_with_the_selector_witness :
  call_stopping nat unit
    (fun _ obj => if Nat.eqb obj 2 then Stopped AssertionFailed
                  else Returned true)
    Pos.to_nat tt [1; 2; 3]%positive
  = Stopped AssertionFailed.
Proof.
  apply (selection_stops_with_the_selector nat Pos.to_nat unit
           (fun _ obj => if Nat.eqb obj 2 then Stopped AssertionFailed
                         else Returned true)
           tt [1%positive] [3%positive] 2%positive AssertionFailed).
  - intros p [<-|[]]. eexists. reflexivity.
  - reflexivity.
Defined.

(** X14. The tight hadronic-tau collection selector keeps exactly the
    pointers to taus its selector accepts; so every tau it returns has
    [pt >= 20], [absEta <= 2.3], [|dz| <= 0.2], passes the decay-mode
    finding and the loose cut-based isolation, and a collection of taus
    that all fail one of these comes back empty. *)
Theorem tight_hadTau_collection
  (taus : pointer -> RecoHadTau.RecoHadTau) (particles : list pointer) :
  (forall p : pointer,
     In p (RecoHadTauCollectionSelectorTight taus particles) <->
     In p particles /\
     RecoHadTauSelectorTight.call RecoHadTauSelectorTight.new (taus p)
     = true) /\
  (forall p : pointer,
     In p (RecoHadTauCollectionSelectorTight taus particles) ->
     Double.geb (RecoHadTau.pt_ (taus p)) 20 = true /\
     PrimFloat.leb (RecoHadTau.absEta_ (taus p)) 2.3 = true /\
     PrimFloat.leb (Double.fabs (RecoHadTau.dz_ (taus p))) 0.2 = true /\
     (1 <= RecoHadTau.decayModeFinding_ (taus p))%Z /\
     (1 <= RecoHadTau.id_cut_dR05_ (taus p))%Z) /\
  ((forall p : pointer,
      In p particles -> Double.geb (RecoHadTau.pt_ (taus p)) 20 = false) ->
   RecoHadTauCollectionSelectorTight taus particles = []).
Proof.
  unfold RecoHadTauCollectionSelectorTight. rewrite call_filter.
  split; [|split].
  - intros p. apply filter_In.
  - intros p Hp. apply filter_In in Hp. destruct Hp as [_ Hp].
    rewrite RecoHadTauSelectorTightFacts.call_conjunction in Hp.
    unfold RecoHadTauSelectorTight.fourteen_conditions, forallb in Hp.
    cbn [RecoHadTauSelectorTight.new RecoHadTauSelectorTight.min_pt_
         RecoHadTauSelectorTight.max_absEta_ RecoHadTauSelectorTight.max_dz_
         RecoHadTauSelectorTight.min_decayModeFinding_
         RecoHadTauSelectorTight.min_id_cut_dR05_] in Hp.
    rewrite !andb_true_iff, !Z.geb_le in Hp. tauto.
  - intros Hall. induction particles as [|p rest IH]; simpl; [reflexivity|].
    rewrite RecoHadTauSelectorTightFacts.call_conjunction.
    unfold RecoHadTauSelectorTight.fourteen_conditions at 1, forallb.
    cbn [RecoHadTauSelectorTight.new RecoHadTauSelectorTight.min_pt_].
    rewrite (Hall p (or_introl eq_refl)). cbn [andb].
    apply IH. intros q Hq. apply Hall. right. exact Hq.
Qed.

(** X15. The fakeable muon collection selector never stops: for every
    collection it returns the pointers to the muons its selector
    accepts, in order; so every muon it returns has [pt >= 10],
    [absEta <= 2.4], [|dxy| <= 0.05], [|dz| <= 0.1], [relIso <= 0.4],
    [sip3d <= 8] and the loose id. *)
Theorem fakeable_muon_collection
  (muons : pointer -> RecoMuon.RecoMuon) (particles : list pointer) :
  exists selParticles : list pointer,
    RecoMuonCollectionSelectorFakeable muons particles
    = Returned selParticles /\
    selParticles =
      filter
        (fun p =>
           match RecoMuonSelectorFakeable.call
                   RecoMuonSelectorFakeable.new (muons p) with
           | Returned accepted => accepted
           | Stopped _ => false
           end) particles /\
    (forall p : pointer,
       In p selParticles <->
       In p particles /\
       RecoMuonSelectorFakeable.call RecoMuonSelectorFakeable.new (muons p)
       = Returned true) /\
    (forall p : pointer,
       In p selParticles ->
       Double.geb (RecoMuon.pt_ (muons p)) 10 = true /\
       PrimFloat.leb (RecoMuon.absEta_ (muons p)) 2.4 = true /\
       PrimFloat.leb (Double.fabs (RecoMuon.dxy_ (muons p))) 0.05 = true /\
       PrimFloat.leb (Double.fabs (RecoMuon.dz_ (muons p))) 0.1 = true /\
       PrimFloat.leb (RecoMuon.relIso_ (muons p)) 0.4 = true /\
       PrimFloat.leb (RecoMuon.sip3d_ (muons p)) 8 = true /\
       RecoMuon.passesLooseIdPOG_ (muons p) <> 0%Z).
Proof.
  eexists. split.
  - unfold RecoMuonCollectionSelectorFakeable, call_stopping.
    apply (loop_stopping_returns RecoMuon.RecoMuon muons _ _
             (fun m =>
                match RecoMuonSelectorFakeable.call
                        RecoMuonSelectorFakeable.new m with
                | Returned accepted => accepted
                | Stopped _ => false
                end)).
    intros m. rewrite RecoMuonSelectorFakeableFacts.call_default.
    reflexivity.
  - cbn [app]. split; [reflexivity|]. split.
    + intros p. rewrite filter_In.
      rewrite RecoMuonSelectorFakeableFacts.call_default.
      split; intros [Hin Hv]; (split; [exact Hin|]).
      * rewrite Hv. reflexivity.
      * injection Hv as Hv. exact Hv.
    + intros p Hp. apply filter_In in Hp. destruct Hp as [_ Hp].
      rewrite RecoMuonSelectorFakeableFacts.call_default in Hp.
      apply andb_prop in Hp. destruct Hp as [Hp _].
      apply RecoMuonSelectorFakeableFacts.primary_cuts_default in Hp.
      exact Hp.
Qed.

End CollectionMoreFacts.

(* ================================================================= *)
(** ** The muon reader *)

Module RecoMuonReaderFacts.

Import RecoMuonReader.
#[local] Open Scope Z_scope.

(** The constructor call of the loop body, inside the capacity. *)
Lemma muon_at_inside (gL : RecoLeptonReader.RecoLeptonReader)
  (gM : RecoMuonReader) (capacity : nat) (idxLepton : Z) :
  allocated gL gM capacity ->
  0 <= idxLepton -> (Z.to_nat idxLepton < capacity)%nat ->
  muon_at gL gM idxLepton =
  Returned (muon_of_entry gL gM (Z.to_nat idxLepton)).
Proof.
  unfold allocated.
  intros (L1 & L2 & L3 & L4 & L5 & L6 & L7 & L8 & L9 & L10 & L11 & L12 &
          L13 & L14 & L15 & L16 & L17 & L18 & L19 & L20 & L21) Hlo Hhi.
  unfold muon_at, muon_of_entry.
  repeat match goal with
    | |- context [at_index ?v idxLepton] =>
        first
          [ rewrite (RecoHadTauReaderFacts.at_index_inside v idxLepton
                       0%float) by lia
          | rewrite (RecoHadTauReaderFacts.at_index_inside v idxLepton 0)
              by lia ];
        cbn [bind]
    end.
  reflexivity.
Qed.

(** The loop, started at [idxLepton] with [trips] iterations to go that
    stay inside the capacity, appends the muons of the entries from
    [idxLepton] on whose PDG id has absolute value 13, in this order. *)
Lemma muon_read_loop_inside (gL : RecoLeptonReader.RecoLeptonReader)
  (gM : RecoMuonReader) (capacity : nat) (trips : nat) :
  allocated gL gM capacity ->
  forall (idxLepton : Z) (muons : list RecoMuon.RecoMuon),
    0 <= idxLepton -> (Z.to_nat idxLepton + trips <= capacity)%nat ->
    read_loop gL gM trips idxLepton muons =
    Returned (muons ++
              map (muon_of_entry gL gM)
                (filter (holds_muon gL) (seq (Z.to_nat idxLepton) trips))).
Proof.
  intros Halloc. induction trips as [|trips IH]; intros idx acc Hlo Hhi.
  - simpl. rewrite app_nil_r. reflexivity.
  - cbn [read_loop].
    assert (Hpdg : List.length (RecoLeptonReader.pdgId_ gL) = capacity)
      by (destruct Halloc as (_ & _ & _ & _ & L5 & _); exact L5).
    rewrite (RecoHadTauReaderFacts.at_index_inside _ idx 0) by lia.
    cbn [bind seq filter]. fold (holds_muon gL (Z.to_nat idx)).
    replace (S (Z.to_nat idx)) with (Z.to_nat (idx + 1)) by lia.
    destruct (holds_muon gL (Z.to_nat idx)).
    + rewrite (muon_at_inside gL gM capacity idx Halloc) by lia.
      cbn [bind map]. rewrite IH by lia.
      rewrite <- app_assoc. reflexivity.
    + rewrite IH by lia. reflexivity.
Qed.

(** The PDG id a muon built from an entry carries. *)
Lemma muon_of_entry_pdgId (gL : RecoLeptonReader.RecoLeptonReader)
  (gM : RecoMuonReader) (i : nat) :
  RecoMuon.pdgId_ (muon_of_entry gL gM i)
  = nth i (RecoLeptonReader.pdgId_ gL) 0.
Proof. reflexivity. Qed.

(** X16. [RecoMuonReader::read], for registered readers whose arrays
    have the capacity of the lepton reader: it throws the
    [cms::Exception] about the count exactly when the stored number of
    leptons exceeds the capacity.  When the number is within the
    capacity it returns, in the order of the entries, one muon for each
    of the first [nLeptons] entries whose PDG id has absolute value 13
    and nothing for the other entries; so it never returns more muons
    than there are leptons, and every muon it returns carries a PDG id
    of absolute value 13. *)
Theorem muon_reader_reads_the_muons
  (lepton_instances_ : string -> option RecoLeptonReader.RecoLeptonReader)
  (instances_ : string -> option RecoMuonReader)
  (this : RecoMuonReader)
  (gL : RecoLeptonReader.RecoLeptonReader) (gM : RecoMuonReader) :
  lepton_instances_ (branchName_obj_ this) = Some gL ->
  instances_ (branchName_obj_ this) = Some gM ->
  allocated gL gM
    (Z.to_nat (RecoLeptonReader.max_nLeptons_ (leptonReader_ this))) ->
  (read lepton_instances_ instances_ this =
   Stopped (too_many (RecoLeptonReader.nLeptons_ gL)
              (RecoLeptonReader.max_nLeptons_ (leptonReader_ this))) <->
   RecoLeptonReader.max_nLeptons_ (leptonReader_ this)
   < RecoLeptonReader.nLeptons_ gL) /\
  (0 <= RecoLeptonReader.nLeptons_ gL
   <= RecoLeptonReader.max_nLeptons_ (leptonReader_ this) ->
   exists muons : list RecoMuon.RecoMuon,
     read lepton_instances_ instances_ this = Returned muons /\
     muons =
       map (muon_of_entry gL gM)
         (filter (holds_muon gL)
            (seq 0 (Z.to_nat (RecoLeptonReader.nLeptons_ gL)))) /\
     (List.length muons <= Z.to_nat (RecoLeptonReader.nLeptons_ gL))%nat /\
     (forall m : RecoMuon.RecoMuon,
        In m muons -> Int32.abs (RecoMuon.pdgId_ m) = 13) /\
     (List.length muons =
      List.length
        (filter (fun pdgId => Int32.abs pdgId =? 13)
           (firstn (Z.to_nat (RecoLeptonReader.nLeptons_ gL))
              (RecoLeptonReader.pdgId_ gL))))).
Proof.
  intros HregL HregM Halloc.
  unfold read. rewrite HregL, HregM. cbn [assert_nonnull bind].
  destruct (Z.gtb_spec (RecoLeptonReader.nLeptons_ gL)
              (RecoLeptonReader.max_nLeptons_ (leptonReader_ this)))
    as [Hgt|Hle].
  - split; [split; [intros _; exact Hgt|reflexivity]|]. intros Hn. lia.
  - unfold RecoHadTauReader.reserve.
    destruct (Z.ltb_spec (RecoLeptonReader.nLeptons_ gL) 0) as [Hneg|Hpos].
    + cbn [bind]. split; [split; [discriminate|lia]|]. intros Hn. lia.
    + cbn [bind].
      rewrite (muon_read_loop_inside gL gM _ _ Halloc) by lia.
      rewrite Z.sub_0_r. cbn [app Z.to_nat seq].
      split; [split; [discriminate|lia]|].
      intros _. eexists. split; [reflexivity|]. split; [reflexivity|].
      split; [|split].
      * rewrite length_map.
        etransitivity; [apply filter_length_le|].
        rewrite length_seq. reflexivity.
      * intros m Hm. apply in_map_iff in Hm.
        destruct Hm as (i & <- & Hi). apply filter_In in Hi.
        destruct Hi as [_ Hi]. unfold holds_muon in Hi.
        rewrite muon_of_entry_pdgId. apply Z.eqb_eq. exact Hi.
      * rewrite length_map.
        assert (Hpdg : List.length (RecoLeptonReader.pdgId_ gL)
                       = Z.to_nat (RecoLeptonReader.max_nLeptons_
                                     (leptonReader_ this)))
          by (destruct Halloc as (_ & _ & _ & _ & L5 & _); exact L5).
        assert (Hn : (Z.to_nat (RecoLeptonReader.nLeptons_ gL)
                      <= List.length (RecoLeptonReader.pdgId_ gL))%nat)
          by lia.
        revert Hn. unfold holds_muon.
        generalize (Z.to_nat (RecoLeptonReader.nLeptons_ gL)) as n.
        generalize (RecoLeptonReader.pdgId_ gL) as ids.
        clear. intros ids n. revert ids.
        induction n as [|n IH]; intros ids Hn; [reflexivity|].
        destruct ids as [|x ids]; [simpl in Hn; lia|].
        cbn [firstn filter seq nth].
        specialize (IH ids ltac:(simpl in Hn; lia)).
        rewrite <- seq_shift, filter_map_swap.
        destruct (Int32.abs x =? 13); cbn [List.length];
          rewrite length_map; [f_equal|]; exact IH.
Qed.

(** The example event has three leptons, of which the first and the
    third are muons: two muons are read. *)
Lemma muon_reader_reads_the_muons_witness :
  exists muons : list RecoMuon.RecoMuon,
    read (fun _ => Some example_leptons) (fun _ => Some example_reader)
      example_reader = Returned muons /\
    List.length muons = 2%nat.
Proof.
  destruct (muon_reader_reads_the_muons
              (fun _ => Some example_leptons) (fun _ => Some example_reader)
              example_reader example_leptons example_reader)
    as (_ & Hok).
  - reflexivity.
  - reflexivity.
  - unfold allocated. repeat split.
  - destruct Hok as (muons & Hread & _ & _ & _ & Hlen).
    + simpl. lia.
    + exists muons. split; [exact Hread|]. rewrite Hlen. reflexivity.
Defined.

End RecoMuonReaderFacts.

(* ================================================================= *)
(** ** More on the hadronic-tau reader *)

Module RecoHadTauReaderMoreFacts.

Import RecoHadTauReader.
#[local] Open Scope Z_scope.

(** X17. [RecoHadTauReader::read] at its edges.  Without a registered
    instance for the branch name it stops on the assertion.  With a
    stored count of zero it returns the empty collection, whether the
    arrays exist or not.  With a registered instance that was
    constructed but never given its arrays (no [setBranchAddresses]) and
    a stored count from 1 to 32 it reads through a null pointer: an
    access outside any array. *)
Theorem read_at_the_edges
  (instances_ : string -> option RecoHadTauReader)
  (this : RecoHadTauReader) :
  (instances_ (branchName_obj_ this) = None ->
   read instances_ this = Stopped AssertionFailed) /\
  (forall g : RecoHadTauReader,
     instances_ (branchName_obj_ this) = Some g ->
     0 <= max_nHadTaus_ this ->
     nHadTaus_ g = 0 ->
     read instances_ this = Returned []) /\
  (forall (branchName_num branchName_obj : string) (nHadTaus : Z),
     instances_ (branchName_obj_ this)
     = Some (new branchName_num branchName_obj nHadTaus) ->
     max_nHadTaus_ this = 32 ->
     0 < nHadTaus <= 32 ->
     read instances_ this = Stopped OutOfBounds).
Proof.
  split; [|split].
  - intros Hnone. unfold read. rewrite Hnone. reflexivity.
  - intros g Hreg Hmax Hzero. unfold read. rewrite Hreg.
    cbn [assert_nonnull bind]. rewrite Hzero.
    destruct (Z.gtb_spec 0 (max_nHadTaus_ this)); [lia|]. reflexivity.
  - intros num obj n Hreg Hmax Hn. unfold read. rewrite Hreg, Hmax.
    cbn [assert_nonnull bind new nHadTaus_].
    destruct (Z.gtb_spec n 32); [lia|].
    unfold reserve. destruct (Z.ltb_spec n 0); [lia|]. cbn [bind].
    destruct (Z.to_nat (n - 0)) as [|trips] eqn:E; [lia|].
    reflexivity.
Qed.

(** An empty event, read without any array. *)
Lemma read_at_the_edges_witness :
  read (fun _ => Some (new_default 0)) (new_default 0) = Returned [].
Proof.
  destruct (read_at_the_edges (fun _ => Some (new_default 0))
              (new_default 0)) as (_ & Hzero & _).
  apply (Hzero (new_default 0)); [reflexivity|simpl; lia|reflexivity].
Defined.



End RecoHadTauReaderMoreFacts.

(* ================================================================= *)
(** ** The life of a hadronic-tau reader *)

Module RecoHadTauReaderLifecycleFacts.

Import RecoHadTauReader RecoHadTauReaderLifecycle.
#[local] Open Scope Z_scope.

Lemma update_same {A : Type} (m : string -> A) (key : string) (v : A) :
  update m key v key = v.
Proof. unfold update. rewrite String.eqb_refl. reflexivity. Qed.

Lemma update_other {A : Type} (m : string -> A) (key k : string) (v : A) :
  k <> key -> update m key v k = m k.
Proof.
  intros Hne. unfold update.
  destruct (String.eqb_spec k key); [contradiction|reflexivity].
Qed.

Lemma update_at_same {A : Type} (m : address -> A) (key : address) (v : A) :
  update_at m key v key = v.
Proof. unfold update_at. rewrite Pos.eqb_refl. reflexivity. Qed.

Lemma update_at_other {A : Type} (m : address -> A) (key k : address)
  (v : A) :
  k <> key -> update_at m key v k = m k.
Proof.
  intros Hne. unfold update_at.
  destruct (Pos.eqb_spec k key); [contradiction|reflexivity].
Qed.

(** X19. The first reader constructed for a branch name (count 0)
    becomes the registered instance, with count 1; destroying it brings
    the count back to 0 and clears the registration; the entries of the
    other branch names and the other readers are not touched. *)
Theorem construct_then_destroy (w : World) (this : address)
  (branchName_num branchName_obj : string) (nHadTaus : Z) :
  numInstances_ w branchName_obj = 0 ->
  objects w this = None ->
  exists w1 : World,
    construct w this branchName_num branchName_obj nHadTaus = Done w1 /\
    numInstances_ w1 branchName_obj = 1 /\
    instances_ w1 branchName_obj = Some this /\
    objects w1 this = Some (new branchName_num branchName_obj nHadTaus) /\
    exists w2 : World,
      destroy w1 this = Done w2 /\
      numInstances_ w2 branchName_obj = 0 /\
      instances_ w2 branchName_obj = None /\
      objects w2 this = None /\
      (forall name : string,
         name <> branchName_obj ->
         numInstances_ w2 name = numInstances_ w name /\
         instances_ w2 name = instances_ w name) /\
      (forall a : address, a <> this -> objects w2 a = objects w a).
Proof.
  intros Hcount Hfree.
  unfold construct, setBranchNames. cbn [new branchName_obj_].
  rewrite Hcount. cbn [Z.eqb Z.add].
  change (Int32.wrap 1) with 1.
  eexists. split; [reflexivity|]. cbn [numInstances_ instances_ objects].
  rewrite !update_same, update_at_same.
  split; [reflexivity|]. split; [reflexivity|]. split; [reflexivity|].
  unfold destroy. cbn [numInstances_ instances_ objects].
  rewrite update_at_same. cbn [new branchName_obj_].
  rewrite !update_same. change (Int32.wrap (1 - 1)) with 0.
  cbn [Z.geb Z.compare negb Z.eqb].
  rewrite update_at_same.
  eexists. split; [reflexivity|]. cbn [numInstances_ instances_ objects].
  rewrite !update_same, update_at_same.
  split; [reflexivity|]. split; [reflexivity|]. split; [reflexivity|].
  split.
  - intros name Hne. rewrite !update_other by exact Hne. split; reflexivity.
  - intros a Hne. rewrite !update_at_other by exact Hne. reflexivity.
Qed.

(** From the empty world. *)
Lemma construct_then_destroy_witness :
  exists w1 : World,
    construct empty_world 1%positive "nTauGood" "TauGood" 0 = Done w1 /\
    instances_ w1 "TauGood" = Some 1%positive.
Proof.
  destruct (construct_then_destroy empty_world 1%positive "nTauGood" "TauGood" 0)
    as (w1 & Hc & _ & Hreg & _); [reflexivity|reflexivity|].
  exists w1. split; assumption.
Defined.

(** X20. The association of a branch name with the name of its count
    must be unique.  While a registered reader for the branch name is
    alive, constructing another reader for it with the same count name
    succeeds, raises the count by one and leaves the registration with
    the first reader; constructing one with a different count name
    throws the [cms::Exception] that names both associations. *)
Theorem association_must_be_unique (w : World) (a b : address)
  (registered : RecoHadTauReader)
  (branchName_num branchName_obj : string) (nHadTaus : Z) :
  numInstances_ w branchName_obj <> 0 ->
  instances_ w branchName_obj = Some a ->
  objects w a = Some registered ->
  objects w b = None ->
  (branchName_num = branchName_num_ registered ->
   exists w1 : World,
     construct w b branchName_num branchName_obj nHadTaus = Done w1 /\
     numInstances_ w1 branchName_obj
     = Int32.wrap (numInstances_ w branchName_obj + 1) /\
     instances_ w1 branchName_obj = Some a /\
     objects w1 a = Some registered /\
     objects w1 b = Some (new branchName_num branchName_obj nHadTaus)) /\
  (branchName_num <> branchName_num_ registered ->
   construct w b branchName_num branchName_obj nHadTaus
   = Thrown (not_unique branchName_num branchName_obj
               (branchName_num_ registered)
               (branchName_obj_ registered))).
Proof.
  intros Hcount Hreg Hlive Hfree.
  assert (Hab : a <> b) by (intros ->; congruence).
  unfold construct, setBranchNames.
  cbn [new branchName_obj_ branchName_num_].
  apply Z.eqb_neq in Hcount. rewrite Hcount, Hreg, Hlive.
  split.
  - intros ->. rewrite String.eqb_refl. cbn [negb].
    eexists. split; [reflexivity|]. cbn [numInstances_ instances_ objects].
    rewrite update_same, update_at_same, (update_at_other _ b a) by exact Hab.
    repeat split; assumption.
  - intros Hne. apply String.eqb_neq in Hne. rewrite Hne. reflexivity.
Qed.

Lemma association_must_be_unique_witness :
  exists w1 : World,
    construct empty_world 1%positive "nTauGood" "TauGood" 0 = Done w1 /\
    construct w1 2%positive "nTau" "TauGood" 0
    = Thrown (not_unique "nTau" "TauGood" "nTauGood" "TauGood").
Proof.
  eexists. split; [reflexivity|].
  apply (association_must_be_unique _ 1%positive 2%positive
           (new "nTauGood" "TauGood" 0) "nTau" "TauGood" 0).
  - discriminate.
  - reflexivity.
  - reflexivity.
  - reflexivity.
  - discriminate.
Defined.

(** Rewriting in a world after some steps. *)
Ltac world_step :=
  repeat progress
    (cbn [numInstances_ instances_ objects new branchName_obj_
          branchName_num_ empty_world];
     rewrite ?update_same, ?update_at_same;
     repeat match goal with
       | Hne : ?x <> ?y |- context [update_at _ ?y _ ?x] =>
           rewrite (update_at_other _ y x) by exact Hne
       end;
     rewrite ?String.eqb_refl;
     try change (Int32.wrap (0 + 1)) with 1;
     try change (Int32.wrap (1 + 1)) with 2;
     try change (Int32.wrap (2 - 1)) with 1;
     try change (Int32.wrap (1 - 1)) with 0;
     cbn [Z.eqb Z.add Z.sub Z.opp Z.pos_sub Z.geb Z.compare negb Pos.add
          Pos.succ Pos.pred_double Z.succ_double Z.pred_double Z.double
          Pos.compare Pos.compare_cont]).

(** X21. The order in which two readers of one branch name are
    destroyed matters.  When the registered (first) reader is destroyed
    while the second is alive, the registration keeps the address of
    the destroyed reader; from then on reading through the second
    reader, destroying it, and constructing a further reader for the
    branch name all use an object that is no longer alive.  Destroyed
    in the opposite order, the two readers leave the count at 0 and the
    registration cleared. *)
Theorem destroying_the_registered_reader_first (a b : address)
  (branchName_num branchName_obj : string) (nHadTaus : Z) :
  a <> b ->
  exists w1 w2 : World,
    construct empty_world a branchName_num branchName_obj nHadTaus
    = Done w1 /\
    construct w1 b branchName_num branchName_obj nHadTaus = Done w2 /\
    numInstances_ w2 branchName_obj = 2 /\
    instances_ w2 branchName_obj = Some a /\
    (exists w3 : World,
       destroy w2 a = Done w3 /\
       numInstances_ w3 branchName_obj = 1 /\
       instances_ w3 branchName_obj = Some a /\
       objects w3 a = None /\
       objects w3 b = Some (new branchName_num branchName_obj nHadTaus) /\
       read_at w3 b = Undefined /\
       destroy w3 b = Undefined /\
       (forall (c : address) (other_num : string),
          construct w3 c other_num branchName_obj nHadTaus = Undefined)) /\
    (exists w3 w4 : World,
       destroy w2 b = Done w3 /\
       destroy w3 a = Done w4 /\
       numInstances_ w4 branchName_obj = 0 /\
       instances_ w4 branchName_obj = None /\
       objects w4 a = None /\
       objects w4 b = None).
Proof.
  intros Hab. assert (Hba : b <> a) by congruence.
  eexists. eexists.
  split; [unfold construct, setBranchNames; world_step; reflexivity|].
  split; [unfold construct, setBranchNames; world_step; reflexivity|].
  split; [world_step; reflexivity|].
  split; [world_step; reflexivity|].
  split.
  - eexists.
    split; [unfold destroy; world_step; reflexivity|].
    split; [world_step; reflexivity|].
    split; [world_step; reflexivity|].
    split; [world_step; reflexivity|].
    split; [world_step; reflexivity|].
    split; [unfold read_at; world_step; reflexivity|].
    split; [unfold destroy; world_step; reflexivity|].
    intros c other_num. unfold construct, setBranchNames. world_step.
    reflexivity.
  - eexists. eexists.
    split; [unfold destroy; world_step; reflexivity|].
    split; [unfold destroy; world_step; reflexivity|].
    repeat split; world_step; reflexivity.
Qed.

Lemma destroying_the_registered_reader_first_witness :
  exists w3 : World,
    instances_ w3 "TauGood" = Some 1%positive /\
    objects w3 1%positive = None /\
    read_at w3 2%positive = Undefined.
Proof.
  destruct (destroying_the_registered_reader_first 1%positive 2%positive
              "nTauGood" "TauGood" 0)
    as (w1 & w2 & _ & _ & _ & _ & (w3 & _ & _ & Hreg & Hgone & _ & Hread & _)
        & _); [discriminate|].
  exists w3. repeat split; assumption.
Defined.

(** The arrays [setBranchAddresses] allocates have the capacity. *)
Lemma allocate_allocated (r : RecoHadTauReader)
  (junk_f : nat -> nat -> float) (junk_i : nat -> nat -> Z) :
  allocated (allocate r junk_f junk_i).
Proof.
  unfold allocated, allocate. cbv zeta.
  cbn [max_nHadTaus_ hadTau_pt_ hadTau_eta_ hadTau_phi_ hadTau_mass_
       hadTau_charge_ hadTau_dxy_ hadTau_dz_ hadTau_idDecayMode_
       hadTau_idDecayModeNewDMs_ hadTau_idMVA_dR03_ hadTau_rawMVA_dR03_
       hadTau_idMVA_dR05_ hadTau_rawMVA_dR05_ hadTau_idCombIso_dR03_
       hadTau_rawCombIso_dR03_ hadTau_idCombIso_dR05_
       hadTau_rawCombIso_dR05_ hadTau_idAgainstElec_ hadTau_idAgainstMu_].
  rewrite !length_map, !length_seq. repeat split.
Qed.

(** X22. Readers of one branch name share the buffers of the registered
    reader.  [setBranchAddresses] on a reader that is not the registered
    one changes nothing; on the registered one it allocates all the
    arrays with the capacity.  After that, reading through either
    reader gives the same result, and for a stored count from 0 to 32
    that result is a collection of exactly that many records. *)
Theorem readers_share_the_registered_buffers (w : World) (a b : address)
  (ra rb : RecoHadTauReader)
  (junk_f : nat -> nat -> float) (junk_i : nat -> nat -> Z) :
  objects w a = Some ra ->
  objects w b = Some rb ->
  a <> b ->
  branchName_obj_ rb = branchName_obj_ ra ->
  instances_ w (branchName_obj_ ra) = Some a ->
  max_nHadTaus_ ra = 32 ->
  max_nHadTaus_ rb = 32 ->
  setBranchAddresses w b junk_f junk_i = Done w /\
  exists w' : World,
    setBranchAddresses w a junk_f junk_i = Done w' /\
    objects w' a = Some (allocate ra junk_f junk_i) /\
    allocated (allocate ra junk_f junk_i) /\
    objects w' b = Some rb /\
    read_at w' b = read_at w' a /\
    (0 <= nHadTaus_ ra <= 32 ->
     exists hadTaus : list RecoHadTau.RecoHadTau,
       read_at w' b = Done hadTaus /\
       List.length hadTaus = Z.to_nat (nHadTaus_ ra)).
Proof.
  intros Ha Hb Hab Hobj Hreg Hmaxa Hmaxb.
  assert (Hba : b <> a) by congruence.
  split.
  - unfold setBranchAddresses. rewrite Hb, Hobj, Hreg.
    destruct (Pos.eqb_spec a b); [contradiction|reflexivity].
  - unfold setBranchAddresses. rewrite Ha, Hreg, Pos.eqb_refl.
    eexists. split; [reflexivity|].
    set (ga := allocate ra junk_f junk_i).
    assert (Halloc : allocated ga) by apply allocate_allocated.
    cbn [objects instances_]. rewrite update_at_same.
    rewrite (update_at_other _ a b) by exact Hba.
    split; [reflexivity|]. split; [exact Halloc|]. split; [exact Hb|].
    assert (Ea : read (fun _ => Some ga) ga =
                 if nHadTaus_ ra >? 32
                 then Stopped (too_many (nHadTaus_ ra) 32)
                 else if nHadTaus_ ra <? 0 then Stopped std_length_error
                 else Returned (map (record_of_entry ga)
                                  (seq 0 (Z.to_nat (nHadTaus_ ra))))).
    { rewrite (RecoHadTauReaderFacts.read_cases (fun _ => Some ga) ga ga
                 eq_refl Halloc ltac:(lia)).
      unfold ga at 1 2 3 4 5. cbn [allocate max_nHadTaus_ nHadTaus_].
      rewrite Hmaxa. reflexivity. }
    assert (Eb : read (fun _ => Some ga) rb = read (fun _ => Some ga) ga).
    { rewrite Ea.
      rewrite (RecoHadTauReaderFacts.read_cases (fun _ => Some ga) rb ga
                 eq_refl Halloc).
      - unfold ga at 1 2 3 4. cbn [allocate max_nHadTaus_ nHadTaus_].
        rewrite Hmaxb. reflexivity.
      - unfold ga. cbn [allocate max_nHadTaus_]. lia. }
    unfold read_at. cbn [objects instances_].
    rewrite update_at_same, (update_at_other _ a b) by exact Hba.
    rewrite Hb, Hobj, Hreg.
    assert (Eobj : branchName_obj_ ga = branchName_obj_ ra) by reflexivity.
    rewrite Eobj, Hreg, update_at_same, Eb.
    split; [reflexivity|].
    intros Hn. rewrite Ea.
    destruct (Z.gtb_spec (nHadTaus_ ra) 32); [lia|].
    destruct (Z.ltb_spec (nHadTaus_ ra) 0); [lia|].
    eexists. split; [reflexivity|].
    rewrite length_map, length_seq. reflexivity.
Qed.

Lemma readers_share_the_registered_buffers_witness :
  setBranchAddresses
    (BuildWorld (fun _ => 2) (fun _ => Some 1%positive)
       (fun p => if Pos.eqb p 1 then Some (new_default 0)
                 else if Pos.eqb p 2 then Some (new_default 5)
                 else None))
    2%positive (fun _ _ => 0%float) (fun _ _ => 0)
  = Done
      (BuildWorld (fun _ => 2) (fun _ => Some 1%positive)
         (fun p => if Pos.eqb p 1 then Some (new_default 0)
                   else if Pos.eqb p 2 then Some (new_default 5)
                   else None)).
Proof.
  destruct (readers_share_the_registered_buffers
              (BuildWorld (fun _ => 2) (fun _ => Some 1%positive)
                 (fun p => if Pos.eqb p 1 then Some (new_default 0)
                           else if Pos.eqb p 2 then Some (new_default 5)
                           else None))
              1%positive 2%positive (new_default 0) (new_default 5)
              (fun _ _ => 0%float) (fun _ _ => 0))
    as (Hnoop & _);
    [reflexivity|reflexivity|discriminate|reflexivity|reflexivity|
     reflexivity|reflexivity|].
  exact Hnoop.
Defined.

End RecoHadTauReaderLifecycleFacts.

(* ================================================================= *)
(** ** Antiparticles; branch type codes *)

Module ParticleMoreFacts.

#[local] Open Scope Z_scope.

(** X23. A generator-level lepton and its antiparticle get opposite
    charges: for a PDG id other than 0 whose opposite is an [Int_t] too,
    the constructor returns for [pdgId] and for [-pdgId], and the two
    charges are [+1] and [-1], one the opposite of the other. *)
Theorem antilepton_has_opposite_charge (pt eta phi mass : float)
  (pdgId : Z) :
  Int32.in_range pdgId -> Int32.in_range (- pdgId) -> pdgId <> 0 ->
  exists lepton antilepton : GenLepton.GenLepton,
    GenLepton.new pt eta phi mass pdgId = Returned lepton /\
    GenLepton.new pt eta phi mass (- pdgId) = Returned antilepton /\
    GenLepton.charge_ antilepton = - GenLepton.charge_ lepton /\
    Z.abs (GenLepton.charge_ lepton) = 1 /\
    GenLepton.charge_ lepton * pdgId < 0.
Proof.
  intros Hr Hro Hnz. unfold GenLepton.new.
  rewrite (GenLeptonFacts.charge_quotient pdgId Hr Hnz).
  rewrite (GenLeptonFacts.charge_quotient (- pdgId) Hro ltac:(lia)).
  cbn [bind]. eexists. eexists.
  split; [reflexivity|]. split; [reflexivity|].
  cbn [GenLepton.charge_].
  destruct (Z.ltb_spec 0 pdgId), (Z.ltb_spec 0 (- pdgId)); lia.
Qed.

(** An electron (11) and a positron (-11). *)
Lemma antilepton_has_opposite_charge_witness :
  exists lepton antilepton : GenLepton.GenLepton,
    GenLepton.new 25 0 0 0 11 = Returned lepton /\
    GenLepton.new 25 0 0 0 (-11) = Returned antilepton /\
    GenLepton.charge_ antilepton = - GenLepton.charge_ lepton.
Proof.
  destruct (antilepton_has_opposite_charge 25 0 0 0 11)
    as (l & al & Hl & Hal & Hopp & _).
  - vm_compute. split; discriminate.
  - vm_compute. split; discriminate.
  - discriminate.
  - exists l, al. repeat split; assumption.
Defined.


End ParticleMoreFacts.
